(** * RefCountable: tracked back-references

    A shallow embedding of the two sources of the repository,
    [RefCountable.hpp] and the second, unnamed copy of it ([part_000]),
    and the properties of the observer count they maintain.

    Both files declare the same three class templates with the same data
    members:
    - [RefCountableBase<T>]: [T &value; mutable std::atomic<size_t> counter;]
    - [RefCountable<T>]:     [T value;  mutable std::atomic<size_t> counter;]
    - [RefCounted<T>]:       [std::reference_wrapper<T> value;
                              std::reference_wrapper<std::atomic<size_t>> counter;]

    Handles alias the counter of the container they are bound to, so the
    objects live in a store indexed by addresses and every member function
    is a function on that store, taking [this] as its first argument.  The
    data model is shared by the two files; their member functions are
    embedded separately, in [Module Hpp] and [Module Part000]. *)

From Stdlib Require Import ZArith Lia.
From stdpp Require Import base decidable option gmap.

Local Open Scope Z_scope.

(** ** The abstract machine *)

(** Addresses of objects. *)
Abbreviation addr := nat.

(** [std::size_t], taken to be 64 bits wide: unsigned arithmetic wraps. *)
Definition SIZE_MAX : Z := 2 ^ 64 - 1.

Definition wrap (n : Z) : Z := n mod (SIZE_MAX + 1).

(** How a process comes to its end in a destructor that finds observers:
    [assert(false && ...)] aborts when assertions are compiled in;
    with [NDEBUG] the assertion expands to nothing and [std::terminate()]
    is reached. *)
Inductive termination := assertion_failure | std_terminate.

(** The outcome of a member function: it returns, the process is aborted, or
    the call has no defined behaviour (it touches an object outside its
    lifetime). *)
Inductive result (A : Type) :=
  | Returns (a : A)
  | Aborts (how : termination)
  | Undefined.
Arguments Returns {A} a.
Arguments Aborts {A} how.
Arguments Undefined {A}.

Global Instance result_bind : MBind result := λ A B f m,
  match m with
  | Returns a => f a
  | Aborts how => Aborts how
  | Undefined => Undefined
  end.

(** An object that must be within its lifetime. *)
Definition live {A} (o : option A) : result A :=
  match o with
  | Some a => Returns a
  | None => Undefined
  end.

(** A reference to a [T]: to the [value] member of a [RefCountable<T>], or to
    a [T] that is owned elsewhere. *)
Inductive tref :=
  | value_of (c : addr)
  | object_at (o : addr).

(** A reference to a [std::atomic<size_t>]: the [counter] member of a
    [RefCountable<T>] or of a [RefCountableBase<T>]. *)
Inductive cref :=
  | counter_of (c : addr)
  | base_counter_of (b : addr).

Global Instance tref_eq_dec : EqDecision tref.
Proof. solve_decision. Defined.
Global Instance cref_eq_dec : EqDecision cref.
Proof. solve_decision. Defined.

(** ** The three classes *)

Module RefCountableBase.
Record t := mk { value : tref; counter : Z }.
End RefCountableBase.

Module RefCountable.
Record t (T : Type) := mk { value : T; counter : Z }.
Arguments mk {T} value counter.
Arguments value {T} _.
Arguments counter {T} _.
End RefCountable.

Module RefCounted.
Record t := mk { value : tref; counter : cref }.
End RefCounted.

Section Store.
Context {T : Type}.

(** The live objects, by class. *)
Record state := mkState {
  owners : gmap addr (RefCountable.t T);
  bases : gmap addr RefCountableBase.t;
  objects : gmap addr T;
  handles : gmap addr RefCounted.t
}.

Definition set_owners (f : gmap addr (RefCountable.t T) → gmap addr (RefCountable.t T))
    (s : state) : state :=
  mkState (f (owners s)) (bases s) (objects s) (handles s).
Definition set_bases (f : gmap addr RefCountableBase.t → gmap addr RefCountableBase.t)
    (s : state) : state :=
  mkState (owners s) (f (bases s)) (objects s) (handles s).
Definition set_objects (f : gmap addr T → gmap addr T) (s : state) : state :=
  mkState (owners s) (bases s) (f (objects s)) (handles s).
Definition set_handles (f : gmap addr RefCounted.t → gmap addr RefCounted.t)
    (s : state) : state :=
  mkState (owners s) (bases s) (objects s) (f (handles s)).

Definition empty_state : state := mkState ∅ ∅ ∅ ∅.

(** *** [std::atomic<size_t>] *)

(** [c.load(std::memory_order_relaxed)] *)
Definition load (c : cref) (s : state) : option Z :=
  match c with
  | counter_of a => RefCountable.counter <$> owners s !! a
  | base_counter_of b => RefCountableBase.counter <$> bases s !! b
  end.

Definition store (c : cref) (n : Z) (s : state) : state :=
  match c with
  | counter_of a =>
      set_owners (alter (λ o, RefCountable.mk (RefCountable.value o) n) a) s
  | base_counter_of b =>
      set_bases (alter (λ o, RefCountableBase.mk (RefCountableBase.value o) n) b) s
  end.

(** [c.fetch_add(k, std::memory_order_relaxed)]: the previous value is
    returned, the sum wraps around. *)
Definition fetch_add (c : cref) (k : Z) (s : state) : result (Z * state) :=
  old ← live (load c s);
  Returns (old, store c (wrap (old + k)) s).

(** [c.fetch_sub(k, std::memory_order_relaxed)] *)
Definition fetch_sub (c : cref) (k : Z) (s : state) : result (Z * state) :=
  old ← live (load c s);
  Returns (old, store c (wrap (old - k)) s).

(** *** Objects of type [T] *)

Definition read (r : tref) (s : state) : option T :=
  match r with
  | value_of a => RefCountable.value <$> owners s !! a
  | object_at o => objects s !! o
  end.

Definition write (r : tref) (v : T) (s : state) : state :=
  match r with
  | value_of a =>
      set_owners (alter (λ o, RefCountable.mk v (RefCountable.counter o)) a) s
  | object_at o => set_objects (alter (λ _, v) o) s
  end.

(** [dst = src], the copy assignment of [T]. *)
Definition T_copy_assign (dst src : tref) (s : state) : result state :=
  v ← live (read src s);
  _ ← live (read dst s);
  Returns (write dst v s).

(** [dst = std::move(src)], the move assignment of [T]: [dst] receives the
    value of [src], and [src] is left in the state [moved_from] gives (the
    same value for a scalar [T]).  A [T] moved onto itself keeps its
    value. *)
Definition T_move_assign (moved_from : T → T) (dst src : tref) (s : state)
    : result state :=
  v ← live (read src s);
  _ ← live (read dst s);
  Returns (write dst v (write src (moved_from v) s)).

(** *** What the properties below are about *)

(** The observer count of the container whose counter is [c]. *)
Definition count (s : state) (c : cref) : option Z := load c s.

(** The handles bound to the container whose counter is [c], and their
    number. *)
Definition bound_to (c : cref) (hs : gmap addr RefCounted.t) : gmap addr RefCounted.t :=
  filter (λ p, RefCounted.counter p.2 = c) hs.

Definition nbound (s : state) (c : cref) : nat := size (bound_to c (handles s)).

(** The sum of the observer counts of all containers. *)
Definition total_count (s : state) : Z :=
  map_fold (λ _ o acc, RefCountable.counter o + acc) 0 (owners s)
  + map_fold (λ _ o acc, RefCountableBase.counter o + acc) 0 (bases s).

End Store.
Arguments state T : clear implicits.

(** Storage in which an object is constructed holds no live object of its
    class yet. *)
Definition fresh {A} (m : gmap addr A) (this : addr) : result unit :=
  match m !! this with
  | None => Returns ()
  | Some _ => Undefined
  end.

(** [assert(e)]: nothing under [NDEBUG], otherwise the process is aborted
    when [e] is false. *)
Definition c_assert (NDEBUG : bool) (e : bool) : result unit :=
  if NDEBUG then Returns ()
  else if e then Returns () else Aborts assertion_failure.

(** [std::terminate()] does not return. *)
Definition terminate {A} : result A := Aborts std_terminate.

(** ** RefCountable.hpp *)

Module Hpp.
Section WithT.
Context {T : Type}.
(** The state [T]'s move operations leave their source in. *)
Context (moved_from : T → T).
(** Whether assertions are compiled out. *)
Context (NDEBUG : bool).

Abbreviation state := (state T).

(** *** [class RefCountableBase] *)

(** [virtual ~RefCountableBase()], protected, with the body of
    [~RefCountable()]; the [T] referred to is not destroyed. *)
Definition RefCountableBase_dtor (this : addr) (s : state) : result state :=
  n ← live (load (base_counter_of this) s);
  if decide (n ≠ 0) then
    _ ← c_assert NDEBUG false;
    terminate
  else Returns (set_bases (delete this) s).

(** [RefCountableBase(T &value) : value{value}, counter{0} {}] *)
Definition RefCountableBase_ctor (this : addr) (value : tref) (s : state)
    : result state :=
  _ ← fresh (bases s) this;
  Returns (set_bases <[this := RefCountableBase.mk value 0]> s).

(** [RefCountableBase(const RefCountableBase &rhs) : value{rhs.value}, counter{0} {}] *)
Definition RefCountableBase_copy_ctor (this rhs : addr) (s : state) : result state :=
  _ ← fresh (bases s) this;
  r ← live (bases s !! rhs);
  Returns (set_bases <[this := RefCountableBase.mk (RefCountableBase.value r) 0]> s).

(** [RefCountableBase(RefCountableBase &&rhs) : value{std::move(rhs.value)}, counter{0} {}]:
    [value] is a reference, it is bound to the [T] that [rhs.value]
    refers to and no [T] is moved. *)
Definition RefCountableBase_move_ctor (this rhs : addr) (s : state) : result state :=
  _ ← fresh (bases s) this;
  r ← live (bases s !! rhs);
  Returns (set_bases <[this := RefCountableBase.mk (RefCountableBase.value r) 0]> s).

(** *** [class RefCountable] *)

(** [explicit RefCountable(Arg &&arg) : value{std::forward<Arg>(arg)}, counter{0}];
    [v] is the [T] that the argument constructs. *)
Definition RefCountable_ctor (this : addr) (v : T) (s : state) : result state :=
  _ ← fresh (owners s) this;
  Returns (set_owners <[this := RefCountable.mk v 0]> s).

(** [RefCountable(Arg1 &&arg1, Arg2 &&arg2, Args &&...args)
      : value{std::forward<Arg1>(arg1), ...}, counter{0} {}];
    [v] is the [T] that the arguments construct. *)
Definition RefCountable_ctor_args (this : addr) (v : T) (s : state) : result state :=
  _ ← fresh (owners s) this;
  Returns (set_owners <[this := RefCountable.mk v 0]> s).

(** [RefCountable(RefCountable &&rhs) : value{std::move(rhs.value)}, counter{0}] *)
Definition RefCountable_move_ctor (this rhs : addr) (s : state) : result state :=
  _ ← fresh (owners s) this;
  v ← live (read (value_of rhs) s);
  let s1 := write (value_of rhs) (moved_from v) s in
  Returns (set_owners <[this := RefCountable.mk v 0]> s1).

(** [RefCountable(const RefCountable &rhs) : value{rhs.value}, counter{0}] *)
Definition RefCountable_copy_ctor (this rhs : addr) (s : state) : result state :=
  _ ← fresh (owners s) this;
  v ← live (read (value_of rhs) s);
  Returns (set_owners <[this := RefCountable.mk v 0]> s).

(** [~RefCountable()
      { if (counter.load(std::memory_order_relaxed) != 0)
        { assert(false && "RefCountable destroyed while back references exist!");
          std::terminate(); } }];
    the object is gone when the destructor returns. *)
Definition RefCountable_dtor (this : addr) (s : state) : result state :=
  n ← live (load (counter_of this) s);
  if decide (n ≠ 0) then
    _ ← c_assert NDEBUG false;
    terminate
  else Returns (set_owners (delete this) s).

(** [T &get() { return value; }] *)
Definition RefCountable_get (this : addr) (s : state) : result tref :=
  _ ← live (owners s !! this);
  Returns (value_of this).

(** [const T &get() const { return value; }] *)
Definition RefCountable_get_const (this : addr) (s : state) : result tref :=
  _ ← live (owners s !! this);
  Returns (value_of this).

(** [RefCountable &operator=(const RefCountable &rhs) { value = rhs.value; return *this; }] *)
Definition RefCountable_assign_copy (this rhs : addr) (s : state) : result state :=
  T_copy_assign (value_of this) (value_of rhs) s.

(** [RefCountable &operator=(RefCountable &&rhs) { value = std::move(rhs.value); return *this; }] *)
Definition RefCountable_assign_move (this rhs : addr) (s : state) : result state :=
  T_move_assign moved_from (value_of this) (value_of rhs) s.

(** [RefCountable &operator=(const T &rhs) { value = rhs; return *this; }] *)
Definition RefCountable_assign_value (this : addr) (rhs : tref) (s : state)
    : result state :=
  T_copy_assign (value_of this) rhs s.

(** [RefCountable &operator=(T &&rhs) { value = std::move(rhs); return *this; }] *)
Definition RefCountable_assign_rvalue (this : addr) (rhs : tref) (s : state)
    : result state :=
  T_move_assign moved_from (value_of this) rhs s.

(** *** [class RefCounted]

    The class declares seven constructors and one assignment operator, all
    of them member templates, and a destructor.  A template is never a copy
    constructor or a copy assignment operator, and the class declares a
    destructor, so the language declares for it
    [RefCounted(const RefCounted &) = default] and
    [RefCounted &operator=(const RefCounted &) = default], and no move
    operations.  For two handles of one type these two are better matches
    than the templates [RefCounted(const RefCounted<U> &)] and
    [operator=(const RefCounted<U> &)], being no templates: copying from a
    const handle and [h1 = h2] run them, and they copy the two references
    and touch no counter.  The templates from [RefCounted<U> &] and
    [RefCounted<U> &&] are the better matches for a handle that is not
    const and for an rvalue. *)

(** [counter.get()], the counter the handle at [this] refers to. *)
Definition counter_get (this : addr) (s : state) : result cref :=
  live (RefCounted.counter <$> handles s !! this).

(** [RefCounted(RefCountable<U> &ref) : value{ref.value}, counter{ref.counter}
      { counter.get().fetch_add(1, std::memory_order_relaxed); }] *)
Definition RefCounted_ctor_RefCountable (this ref : addr) (s : state) : result state :=
  _ ← fresh (handles s) this;
  let s1 := set_handles <[this := RefCounted.mk (value_of ref) (counter_of ref)]> s in
  c ← counter_get this s1;
  '(_, s2) ← fetch_add c 1 s1;
  Returns s2.

(** [RefCounted(const RefCountable<U> &ref)
      : value{std::as_const(ref.value)}, counter{ref.counter}
      { counter.get().fetch_add(1, std::memory_order_relaxed); }] *)
Definition RefCounted_ctor_const_RefCountable (this ref : addr) (s : state)
    : result state :=
  _ ← fresh (handles s) this;
  let s1 := set_handles <[this := RefCounted.mk (value_of ref) (counter_of ref)]> s in
  c ← counter_get this s1;
  '(_, s2) ← fetch_add c 1 s1;
  Returns s2.

(** [RefCounted(RefCountableBase<U> &ref) : value{ref.value}, counter{ref.counter}
      { counter.get().fetch_add(1, std::memory_order_relaxed); }];
    [ref.value] is itself a reference. *)
Definition RefCounted_ctor_RefCountableBase (this ref : addr) (s : state)
    : result state :=
  _ ← fresh (handles s) this;
  b ← live (bases s !! ref);
  let s1 := set_handles
              <[this := RefCounted.mk (RefCountableBase.value b) (base_counter_of ref)]> s in
  c ← counter_get this s1;
  '(_, s2) ← fetch_add c 1 s1;
  Returns s2.

(** [RefCounted(const RefCountableBase<U> &ref)
      : value{std::as_const(ref.value)}, counter{ref.counter}
      { counter.get().fetch_add(1, std::memory_order_relaxed); }] *)
Definition RefCounted_ctor_const_RefCountableBase (this ref : addr) (s : state)
    : result state :=
  _ ← fresh (handles s) this;
  b ← live (bases s !! ref);
  let s1 := set_handles
              <[this := RefCounted.mk (RefCountableBase.value b) (base_counter_of ref)]> s in
  c ← counter_get this s1;
  '(_, s2) ← fetch_add c 1 s1;
  Returns s2.

(** [RefCounted(RefCounted<U> &rhs) : value{rhs.value}, counter{rhs.counter}
      { counter.get().fetch_add(1, std::memory_order_relaxed); }] *)
Definition RefCounted_ctor_RefCounted (this rhs : addr) (s : state) : result state :=
  _ ← fresh (handles s) this;
  r ← live (handles s !! rhs);
  let s1 := set_handles
              <[this := RefCounted.mk (RefCounted.value r) (RefCounted.counter r)]> s in
  c ← counter_get this s1;
  '(_, s2) ← fetch_add c 1 s1;
  Returns s2.

(** [RefCounted(const RefCounted<U> &rhs)
      : value{std::as_const(rhs.value)}, counter{rhs.counter}
      { counter.get().fetch_add(1, std::memory_order_relaxed); }],
    as written.  No initialisation selects it: for [U] the same as [T] the
    copy constructor below is preferred, and for another [U] the members of
    [RefCounted<U>] are not accessible. *)
Definition RefCounted_ctor_const_RefCounted (this rhs : addr) (s : state)
    : result state :=
  _ ← fresh (handles s) this;
  r ← live (handles s !! rhs);
  let s1 := set_handles
              <[this := RefCounted.mk (RefCounted.value r) (RefCounted.counter r)]> s in
  c ← counter_get this s1;
  '(_, s2) ← fetch_add c 1 s1;
  Returns s2.

(** [RefCounted(RefCounted<U> &&rhs) : value{rhs.value}, counter{rhs.counter}
      { counter.get().fetch_add(1, std::memory_order_relaxed); }]:
    [rhs] is not changed. *)
Definition RefCounted_ctor_move_RefCounted (this rhs : addr) (s : state)
    : result state :=
  _ ← fresh (handles s) this;
  r ← live (handles s !! rhs);
  let s1 := set_handles
              <[this := RefCounted.mk (RefCounted.value r) (RefCounted.counter r)]> s in
  c ← counter_get this s1;
  '(_, s2) ← fetch_add c 1 s1;
  Returns s2.

(** [RefCounted &operator=(const RefCounted<U> &rhs)
      { if (this == &rhs) return *this;
        counter.get().fetch_sub(1, std::memory_order_relaxed);
        value = rhs.value;
        counter = rhs.counter;
        counter.get().fetch_add(1, std::memory_order_relaxed);
        return *this; }],
    as written, called on a live handle with a live handle.  [h1 = h2] does
    not select it but the copy assignment operator below; it runs when it
    is called by name, [h1.operator=<T>(h2)]. *)
Definition RefCounted_assign (this rhs : addr) (s : state) : result state :=
  _ ← live (handles s !! this);
  _ ← live (handles s !! rhs);
  if decide (this = rhs) then Returns s
  else
    c ← counter_get this s;
    '(_, s1) ← fetch_sub c 1 s;
    r ← live (handles s1 !! rhs);
    let s2 := set_handles
                (alter (λ h, RefCounted.mk (RefCounted.value r) (RefCounted.counter h)) this)
                s1 in
    let s3 := set_handles
                (alter (λ h, RefCounted.mk (RefCounted.value h) (RefCounted.counter r)) this)
                s2 in
    c' ← counter_get this s3;
    '(_, s4) ← fetch_add c' 1 s3;
    Returns s4.

(** The copy constructor, which the class does not write and the language
    declares: [RefCounted(const RefCounted &rhs) = default], that is
    [value{rhs.value}, counter{rhs.counter}] with an empty body.  It is
    what [RefCounted<T> h2(std::as_const(h1))] runs. *)
Definition RefCounted_copy_ctor (this rhs : addr) (s : state) : result state :=
  _ ← fresh (handles s) this;
  r ← live (handles s !! rhs);
  Returns (set_handles
             <[this := RefCounted.mk (RefCounted.value r) (RefCounted.counter r)]> s).

(** The copy assignment operator, which the class does not write and the
    language declares: [RefCounted &operator=(const RefCounted &rhs) = default],
    that is [value = rhs.value; counter = rhs.counter; return *this;].  It
    is what [h1 = h2] runs, for an lvalue and for an rvalue [h2]. *)
Definition RefCounted_copy_assign (this rhs : addr) (s : state) : result state :=
  _ ← live (handles s !! this);
  r ← live (handles s !! rhs);
  let s1 := set_handles
              (alter (λ h, RefCounted.mk (RefCounted.value r) (RefCounted.counter h)) this)
              s in
  let s2 := set_handles
              (alter (λ h, RefCounted.mk (RefCounted.value h) (RefCounted.counter r)) this)
              s1 in
  Returns s2.

(** [~RefCounted() { counter.get().fetch_sub(1, std::memory_order_relaxed); }] *)
Definition RefCounted_dtor (this : addr) (s : state) : result state :=
  c ← counter_get this s;
  '(_, s1) ← fetch_sub c 1 s;
  Returns (set_handles (delete this) s1).

(** [T &get() { return value.get(); }] *)
Definition RefCounted_get (this : addr) (s : state) : result tref :=
  live (RefCounted.value <$> handles s !! this).

(** [const T &get() const { return value.get(); }] *)
Definition RefCounted_get_const (this : addr) (s : state) : result tref :=
  live (RefCounted.value <$> handles s !! this).

End WithT.
End Hpp.

(** ** The second source file (part_000) *)

Module Part000.
Section WithT.
Context {T : Type}.
(** The state [T]'s move operations leave their source in. *)
Context (moved_from : T → T).
(** Whether assertions are compiled out. *)
Context (NDEBUG : bool).
(** [T::operator()() const], converted to [T]: what [f()] yields for a
    [const T f].  The copy assignment of [RefCountable] is the one member
    that needs it. *)
Context (call : T → T).

Abbreviation state := (state T).

(** *** [class RefCountableBase] *)

(** [~RefCountableBase()], public and not virtual, with the body of
    [~RefCountable()]; the [T] referred to is not destroyed. *)
Definition RefCountableBase_dtor (this : addr) (s : state) : result state :=
  n ← live (load (base_counter_of this) s);
  if decide (n ≠ 0) then
    _ ← c_assert NDEBUG false;
    terminate
  else Returns (set_bases (delete this) s).

(** [RefCountableBase(T &value) : value{value}, counter{0} {}] *)
Definition RefCountableBase_ctor (this : addr) (value : tref) (s : state)
    : result state :=
  _ ← fresh (bases s) this;
  Returns (set_bases <[this := RefCountableBase.mk value 0]> s).

(** [RefCountableBase(const RefCountableBase &rhs) : value{rhs.value}, counter{0} {}] *)
Definition RefCountableBase_copy_ctor (this rhs : addr) (s : state) : result state :=
  _ ← fresh (bases s) this;
  r ← live (bases s !! rhs);
  Returns (set_bases <[this := RefCountableBase.mk (RefCountableBase.value r) 0]> s).

(** [RefCountableBase(RefCountableBase &&rhs) : value{std::move(rhs.value)}, counter{0} {}]:
    [value] is a reference, it is bound to the [T] that [rhs.value]
    refers to and no [T] is moved. *)
Definition RefCountableBase_move_ctor (this rhs : addr) (s : state) : result state :=
  _ ← fresh (bases s) this;
  r ← live (bases s !! rhs);
  Returns (set_bases <[this := RefCountableBase.mk (RefCountableBase.value r) 0]> s).

(** *** [class RefCountable] *)

(** [RefCountable(Args &&...args) : value{std::forward<Args>(args)...}, counter{0}];
    [v] is the [T] that the arguments construct. *)
Definition RefCountable_ctor (this : addr) (v : T) (s : state) : result state :=
  _ ← fresh (owners s) this;
  Returns (set_owners <[this := RefCountable.mk v 0]> s).

(** [~RefCountable()
      { if (counter.load(std::memory_order_relaxed) != 0)
        { assert(false && "RefCountable destroyed while back references exist!");
          std::terminate(); } }];
    the object is gone when the destructor returns. *)
Definition RefCountable_dtor (this : addr) (s : state) : result state :=
  n ← live (load (counter_of this) s);
  if decide (n ≠ 0) then
    _ ← c_assert NDEBUG false;
    terminate
  else Returns (set_owners (delete this) s).

(** [RefCountable(const RefCountable &rhs) : value{rhs.value}, counter{0}] *)
Definition RefCountable_copy_ctor (this rhs : addr) (s : state) : result state :=
  _ ← fresh (owners s) this;
  v ← live (read (value_of rhs) s);
  Returns (set_owners <[this := RefCountable.mk v 0]> s).

(** [T &get() { return value; }] *)
Definition RefCountable_get (this : addr) (s : state) : result tref :=
  _ ← live (owners s !! this);
  Returns (value_of this).

(** [const T &get() const { return value; }] *)
Definition RefCountable_get_const (this : addr) (s : state) : result tref :=
  _ ← live (owners s !! this);
  Returns (value_of this).

(** [RefCountable &operator=(const RefCountable &rhs) { value = rhs.value(); return *this; }]:
    the right-hand side's value is invoked and the result is assigned. *)
Definition RefCountable_assign_copy (this rhs : addr) (s : state) : result state :=
  f ← live (read (value_of rhs) s);
  _ ← live (read (value_of this) s);
  Returns (write (value_of this) (call f) s).

(** [RefCountable &operator=(RefCountable &&rhs) { value = std::move(rhs.value); return *this; }] *)
Definition RefCountable_assign_move (this rhs : addr) (s : state) : result state :=
  T_move_assign moved_from (value_of this) (value_of rhs) s.

(** [RefCountable &operator=(const T &rhs) { value = rhs; return *this; }] *)
Definition RefCountable_assign_value (this : addr) (rhs : tref) (s : state)
    : result state :=
  T_copy_assign (value_of this) rhs s.

(** [RefCountable &operator=(T &&rhs) { value = std::move(rhs); return *this; }] *)
Definition RefCountable_assign_rvalue (this : addr) (rhs : tref) (s : state)
    : result state :=
  T_move_assign moved_from (value_of this) rhs s.

(** *** [class RefCounted]

    The class declares seven constructors and one assignment operator, all
    of them member templates, and a destructor.  A template is never a copy
    constructor or a copy assignment operator, and the class declares a
    destructor, so the language declares for it
    [RefCounted(const RefCounted &) = default] and
    [RefCounted &operator=(const RefCounted &) = default], and no move
    operations.  For two handles of one type these two are better matches
    than the templates [RefCounted(const RefCounted<U> &)] and
    [operator=(const RefCounted<U> &)], being no templates: copying from a
    const handle and [h1 = h2] run them, and they copy the two references
    and touch no counter.  The templates from [RefCounted<U> &] and
    [RefCounted<U> &&] are the better matches for a handle that is not
    const and for an rvalue. *)

(** [counter.get()], the counter the handle at [this] refers to. *)
Definition counter_get (this : addr) (s : state) : result cref :=
  live (RefCounted.counter <$> handles s !! this).

(** [RefCounted(RefCountable<U> &ref) : value{ref.value}, counter{ref.counter}
      { counter.get().fetch_add(1, std::memory_order_relaxed); }] *)
Definition RefCounted_ctor_RefCountable (this ref : addr) (s : state) : result state :=
  _ ← fresh (handles s) this;
  let s1 := set_handles <[this := RefCounted.mk (value_of ref) (counter_of ref)]> s in
  c ← counter_get this s1;
  '(_, s2) ← fetch_add c 1 s1;
  Returns s2.

(** [RefCounted(const RefCountable<U> &ref)
      : value{std::as_const(ref.value)}, counter{ref.counter}
      { counter.get().fetch_add(1, std::memory_order_relaxed); }] *)
Definition RefCounted_ctor_const_RefCountable (this ref : addr) (s : state)
    : result state :=
  _ ← fresh (handles s) this;
  let s1 := set_handles <[this := RefCounted.mk (value_of ref) (counter_of ref)]> s in
  c ← counter_get this s1;
  '(_, s2) ← fetch_add c 1 s1;
  Returns s2.

(** [RefCounted(RefCountableBase<U> &ref) : value{ref.value}, counter{ref.counter}
      { counter.get().fetch_add(1, std::memory_order_relaxed); }];
    [ref.value] is itself a reference. *)
Definition RefCounted_ctor_RefCountableBase (this ref : addr) (s : state)
    : result state :=
  _ ← fresh (handles s) this;
  b ← live (bases s !! ref);
  let s1 := set_handles
              <[this := RefCounted.mk (RefCountableBase.value b) (base_counter_of ref)]> s in
  c ← counter_get this s1;
  '(_, s2) ← fetch_add c 1 s1;
  Returns s2.

(** [RefCounted(const RefCountableBase<U> &ref)
      : value{std::as_const(ref.value)}, counter{ref.counter}
      { counter.get().fetch_add(1, std::memory_order_relaxed); }] *)
Definition RefCounted_ctor_const_RefCountableBase (this ref : addr) (s : state)
    : result state :=
  _ ← fresh (handles s) this;
  b ← live (bases s !! ref);
  let s1 := set_handles
              <[this := RefCounted.mk (RefCountableBase.value b) (base_counter_of ref)]> s in
  c ← counter_get this s1;
  '(_, s2) ← fetch_add c 1 s1;
  Returns s2.

(** [RefCounted(RefCounted<U> &rhs) : value{rhs.value}, counter{rhs.counter}
      { counter.get().fetch_add(1, std::memory_order_relaxed); }] *)
Definition RefCounted_ctor_RefCounted (this rhs : addr) (s : state) : result state :=
  _ ← fresh (handles s) this;
  r ← live (handles s !! rhs);
  let s1 := set_handles
              <[this := RefCounted.mk (RefCounted.value r) (RefCounted.counter r)]> s in
  c ← counter_get this s1;
  '(_, s2) ← fetch_add c 1 s1;
  Returns s2.

(** [RefCounted(const RefCounted<U> &rhs)
      : value{std::as_const(rhs.value)}, counter{rhs.counter}
      { counter.get().fetch_add(1, std::memory_order_relaxed); }],
    as written.  No initialisation selects it: for [U] the same as [T] the
    copy constructor below is preferred, and for another [U] the members of
    [RefCounted<U>] are not accessible. *)
Definition RefCounted_ctor_const_RefCounted (this rhs : addr) (s : state)
    : result state :=
  _ ← fresh (handles s) this;
  r ← live (handles s !! rhs);
  let s1 := set_handles
              <[this := RefCounted.mk (RefCounted.value r) (RefCounted.counter r)]> s in
  c ← counter_get this s1;
  '(_, s2) ← fetch_add c 1 s1;
  Returns s2.

(** [RefCounted(RefCounted<U> &&rhs) : value{rhs.value}, counter{rhs.counter}
      { counter.get().fetch_add(1, std::memory_order_relaxed); }]:
    [rhs] is not changed. *)
Definition RefCounted_ctor_move_RefCounted (this rhs : addr) (s : state)
    : result state :=
  _ ← fresh (handles s) this;
  r ← live (handles s !! rhs);
  let s1 := set_handles
              <[this := RefCounted.mk (RefCounted.value r) (RefCounted.counter r)]> s in
  c ← counter_get this s1;
  '(_, s2) ← fetch_add c 1 s1;
  Returns s2.

(** [RefCounted &operator=(const RefCounted<U> &rhs)
      { if (this == &rhs) return *this;
        counter.get().fetch_sub(1, std::memory_order_relaxed);
        value = rhs.value;
        counter = rhs.counter;
        counter.get().fetch_add(1, std::memory_order_relaxed);
        return *this; }],
    as written, called on a live handle with a live handle.  [h1 = h2] does
    not select it but the copy assignment operator below; it runs when it
    is called by name, [h1.operator=<T>(h2)]. *)
Definition RefCounted_assign (this rhs : addr) (s : state) : result state :=
  _ ← live (handles s !! this);
  _ ← live (handles s !! rhs);
  if decide (this = rhs) then Returns s
  else
    c ← counter_get this s;
    '(_, s1) ← fetch_sub c 1 s;
    r ← live (handles s1 !! rhs);
    let s2 := set_handles
                (alter (λ h, RefCounted.mk (RefCounted.value r) (RefCounted.counter h)) this)
                s1 in
    let s3 := set_handles
                (alter (λ h, RefCounted.mk (RefCounted.value h) (RefCounted.counter r)) this)
                s2 in
    c' ← counter_get this s3;
    '(_, s4) ← fetch_add c' 1 s3;
    Returns s4.

(** The copy constructor, which the class does not write and the language
    declares: [RefCounted(const RefCounted &rhs) = default], that is
    [value{rhs.value}, counter{rhs.counter}] with an empty body.  It is
    what [RefCounted<T> h2(std::as_const(h1))] runs. *)
Definition RefCounted_copy_ctor (this rhs : addr) (s : state) : result state :=
  _ ← fresh (handles s) this;
  r ← live (handles s !! rhs);
  Returns (set_handles
             <[this := RefCounted.mk (RefCounted.value r) (RefCounted.counter r)]> s).

(** The copy assignment operator, which the class does not write and the
    language declares: [RefCounted &operator=(const RefCounted &rhs) = default],
    that is [value = rhs.value; counter = rhs.counter; return *this;].  It
    is what [h1 = h2] runs, for an lvalue and for an rvalue [h2]. *)
Definition RefCounted_copy_assign (this rhs : addr) (s : state) : result state :=
  _ ← live (handles s !! this);
  r ← live (handles s !! rhs);
  let s1 := set_handles
              (alter (λ h, RefCounted.mk (RefCounted.value r) (RefCounted.counter h)) this)
              s in
  let s2 := set_handles
              (alter (λ h, RefCounted.mk (RefCounted.value h) (RefCounted.counter r)) this)
              s1 in
  Returns s2.

(** [~RefCounted() { counter.get().fetch_sub(1, std::memory_order_relaxed); }] *)
Definition RefCounted_dtor (this : addr) (s : state) : result state :=
  c ← counter_get this s;
  '(_, s1) ← fetch_sub c 1 s;
  Returns (set_handles (delete this) s1).

(** [T &get() { return value.get(); }] *)
Definition RefCounted_get (this : addr) (s : state) : result tref :=
  live (RefCounted.value <$> handles s !! this).

(** [const T &get() const { return value.get(); }] *)
Definition RefCounted_get_const (this : addr) (s : state) : result tref :=
  live (RefCounted.value <$> handles s !! this).

End WithT.
End Part000.

(** ** Operations of the primitive

    The operations that both source files offer, named once so that the two
    embeddings can be run side by side. *)

Inductive container_op (T : Type) :=
  | new_RefCountable (this : addr) (v : T)
  | new_RefCountable_args (this : addr) (v : T)
  | copy_RefCountable (this rhs : addr)
  | destroy_RefCountable (this : addr)
  | assign_copy (this rhs : addr)
  | assign_move (this rhs : addr)
  | assign_value (this : addr) (rhs : tref)
  | assign_rvalue (this : addr) (rhs : tref)
  | new_RefCountableBase (this : addr) (value : tref)
  | copy_RefCountableBase (this rhs : addr)
  | move_RefCountableBase (this rhs : addr)
  | destroy_RefCountableBase (this : addr).
Arguments new_RefCountable {T}.
Arguments new_RefCountable_args {T}.
Arguments copy_RefCountable {T}.
Arguments destroy_RefCountable {T}.
Arguments assign_copy {T}.
Arguments assign_move {T}.
Arguments assign_value {T}.
Arguments assign_rvalue {T}.
Arguments new_RefCountableBase {T}.
Arguments copy_RefCountableBase {T}.
Arguments move_RefCountableBase {T}.
Arguments destroy_RefCountableBase {T}.

(** The operations on handles, by the expression that performs them:
    [RefCounted<T> h(c)] for a container [c] that is not const and for one
    that is, of either kind; [RefCounted<T> h(h1)] for a handle [h1] that is
    not const, [RefCounted<T> h(std::as_const(h1))] and
    [RefCounted<T> h(std::move(h1))]; [h = h1]; [h.operator=<T>(h1)]; and
    the end of the lifetime of [h]. *)
Inductive handle_op :=
  | bind_RefCountable (this ref : addr)
  | bind_const_RefCountable (this ref : addr)
  | bind_RefCountableBase (this ref : addr)
  | bind_const_RefCountableBase (this ref : addr)
  | copy_RefCounted (this rhs : addr)
  | copy_const_RefCounted (this rhs : addr)
  | move_RefCounted (this rhs : addr)
  | assign_RefCounted (this rhs : addr)
  | assign_RefCounted_by_name (this rhs : addr)
  | destroy_RefCounted (this : addr).

(** Whether the member that an operation on handles runs is one of those
    the class writes, which update the observer count, and not one of the
    two copy operations that the language declares. *)
Definition counts_observers (o : handle_op) : bool :=
  match o with
  | copy_const_RefCounted _ _ | assign_RefCounted _ _ => false
  | _ => true
  end.

Inductive op (T : Type) :=
  | on_container (o : container_op T)
  | on_handle (o : handle_op).
Arguments on_container {T}.
Arguments on_handle {T}.

(** A program all of whose operations on handles update the observer
    count. *)
Definition op_counts_observers {T : Type} (o : op T) : bool :=
  match o with
  | on_container _ => true
  | on_handle o => counts_observers o
  end.

Definition counting_program {T : Type} (os : list (op T)) : Prop :=
  forallb op_counts_observers os = true.

Section Run.
Context {T : Type}.
Context (moved_from : T → T) (NDEBUG : bool) (call : T → T).

Definition hpp_exec_container (o : container_op T) : state T → result (state T) :=
  match o with
  | new_RefCountable this v => Hpp.RefCountable_ctor this v
  | new_RefCountable_args this v => Hpp.RefCountable_ctor_args this v
  | copy_RefCountable this rhs => Hpp.RefCountable_copy_ctor this rhs
  | destroy_RefCountable this => Hpp.RefCountable_dtor NDEBUG this
  | assign_copy this rhs => Hpp.RefCountable_assign_copy this rhs
  | assign_move this rhs => Hpp.RefCountable_assign_move moved_from this rhs
  | assign_value this rhs => Hpp.RefCountable_assign_value this rhs
  | assign_rvalue this rhs => Hpp.RefCountable_assign_rvalue moved_from this rhs
  | new_RefCountableBase this value => Hpp.RefCountableBase_ctor this value
  | copy_RefCountableBase this rhs => Hpp.RefCountableBase_copy_ctor this rhs
  | move_RefCountableBase this rhs => Hpp.RefCountableBase_move_ctor this rhs
  | destroy_RefCountableBase this => Hpp.RefCountableBase_dtor NDEBUG this
  end.

Definition hpp_exec_handle (o : handle_op) : state T → result (state T) :=
  match o with
  | bind_RefCountable this ref => Hpp.RefCounted_ctor_RefCountable this ref
  | bind_const_RefCountable this ref => Hpp.RefCounted_ctor_const_RefCountable this ref
  | bind_RefCountableBase this ref => Hpp.RefCounted_ctor_RefCountableBase this ref
  | bind_const_RefCountableBase this ref =>
      Hpp.RefCounted_ctor_const_RefCountableBase this ref
  | copy_RefCounted this rhs => Hpp.RefCounted_ctor_RefCounted this rhs
  | copy_const_RefCounted this rhs => Hpp.RefCounted_copy_ctor this rhs
  | move_RefCounted this rhs => Hpp.RefCounted_ctor_move_RefCounted this rhs
  | assign_RefCounted this rhs => Hpp.RefCounted_copy_assign this rhs
  | assign_RefCounted_by_name this rhs => Hpp.RefCounted_assign this rhs
  | destroy_RefCounted this => Hpp.RefCounted_dtor this
  end.

Definition hpp_exec (o : op T) : state T → result (state T) :=
  match o with
  | on_container o => hpp_exec_container o
  | on_handle o => hpp_exec_handle o
  end.

(** In part_000 the one variadic constructor serves every argument list. *)
Definition part000_exec_container (o : container_op T) : state T → result (state T) :=
  match o with
  | new_RefCountable this v => Part000.RefCountable_ctor this v
  | new_RefCountable_args this v => Part000.RefCountable_ctor this v
  | copy_RefCountable this rhs => Part000.RefCountable_copy_ctor this rhs
  | destroy_RefCountable this => Part000.RefCountable_dtor NDEBUG this
  | assign_copy this rhs => Part000.RefCountable_assign_copy call this rhs
  | assign_move this rhs => Part000.RefCountable_assign_move moved_from this rhs
  | assign_value this rhs => Part000.RefCountable_assign_value this rhs
  | assign_rvalue this rhs => Part000.RefCountable_assign_rvalue moved_from this rhs
  | new_RefCountableBase this value => Part000.RefCountableBase_ctor this value
  | copy_RefCountableBase this rhs => Part000.RefCountableBase_copy_ctor this rhs
  | move_RefCountableBase this rhs => Part000.RefCountableBase_move_ctor this rhs
  | destroy_RefCountableBase this => Part000.RefCountableBase_dtor NDEBUG this
  end.

Definition part000_exec_handle (o : handle_op) : state T → result (state T) :=
  match o with
  | bind_RefCountable this ref => Part000.RefCounted_ctor_RefCountable this ref
  | bind_const_RefCountable this ref => Part000.RefCounted_ctor_const_RefCountable this ref
  | bind_RefCountableBase this ref => Part000.RefCounted_ctor_RefCountableBase this ref
  | bind_const_RefCountableBase this ref =>
      Part000.RefCounted_ctor_const_RefCountableBase this ref
  | copy_RefCounted this rhs => Part000.RefCounted_ctor_RefCounted this rhs
  | copy_const_RefCounted this rhs => Part000.RefCounted_copy_ctor this rhs
  | move_RefCounted this rhs => Part000.RefCounted_ctor_move_RefCounted this rhs
  | assign_RefCounted this rhs => Part000.RefCounted_copy_assign this rhs
  | assign_RefCounted_by_name this rhs => Part000.RefCounted_assign this rhs
  | destroy_RefCounted this => Part000.RefCounted_dtor this
  end.

Definition part000_exec (o : op T) : state T → result (state T) :=
  match o with
  | on_container o => part000_exec_container o
  | on_handle o => part000_exec_handle o
  end.

(** A sequence of operations, one after the other, as long as they
    return. *)
Fixpoint run (exec : op T → state T → result (state T)) (os : list (op T))
    (s : state T) : result (state T) :=
  match os with
  | [] => Returns s
  | o :: os => s' ← exec o s; run exec os s'
  end.

(** *** The invariant *)

(** The observer count of every container is the number of live handles
    bound to it. *)
Definition count_is_handles (s : state T) : Prop :=
  ∀ c n, count s c = Some n → n = Z.of_nat (nbound s c).

(** Every live handle is bound to a live container. *)
Definition handles_bound (s : state T) : Prop :=
  ∀ h r, handles s !! h = Some r → is_Some (count s (RefCounted.counter r)).

(** The counters hold values of [size_t]. *)
Definition counters_in_range (s : state T) : Prop :=
  ∀ c n, count s c = Some n → 0 ≤ n ≤ SIZE_MAX.

(** The live handles are distinct objects of one address space: there are
    at most [SIZE_MAX] of them. *)
Definition handles_fit (s : state T) : Prop :=
  Z.of_nat (size (handles s)) ≤ SIZE_MAX.

(** What holds of the store between operations: every count is the number
    of handles bound, and every handle is bound to a live container. *)
Definition tracked (s : state T) : Prop := count_is_handles s ∧ handles_bound s.

End Run.

(** ** The properties, as predicates on the operations *)

Section Properties.
Context {T : Type}.
Implicit Types (s : state T).

(** What a destructor that finds observers does: the assertion aborts,
    or, with assertions compiled out, [std::terminate()] does. *)
Definition dangling_abort (NDEBUG : bool) : termination :=
  if NDEBUG then std_terminate else assertion_failure.

(** A destructor [dtor] aborts exactly when the count [n] it finds is not
    zero, and otherwise returns, leaving the store [s'] in which nothing
    but the container is gone. *)
Definition aborts_iff_observed (dtor : state T → result (state T)) (s s' : state T)
    (n : Z) : Prop :=
  ((∃ how, dtor s = Aborts how) ↔ n ≠ 0) ∧ (n = 0 ↔ dtor s = Returns s').

(** The store after a handle has been constructed at [this] as [x], on a
    container whose count was [n]. *)
Definition bound (this : addr) (x : RefCounted.t) (n : Z) (s : state T) : state T :=
  store (RefCounted.counter x) (wrap (n + 1)) (set_handles <[this := x]> s).

(** The store after the handle at [this], bound to the counter [c] whose
    count was [n], has been destroyed. *)
Definition unbound (this : addr) (c : cref) (n : Z) (s : state T) : state T :=
  set_handles (delete this) (store c (wrap (n - 1)) s).

(** [f] constructs the handle [this] as [x] and adds one to the observer
    count of the container [x] is bound to, in the arithmetic of [size_t];
    no other count and no other handle changes. *)
Definition binds_handle (f : state T → result (state T)) (s : state T) (this : addr)
    (x : RefCounted.t) : Prop :=
  ∀ n, count s (RefCounted.counter x) = Some n →
    ∃ s', f s = Returns s'
      ∧ handles s' !! this = Some x
      ∧ count s' (RefCounted.counter x) = Some (wrap (n + 1))
      ∧ (0 ≤ n < SIZE_MAX → count s' (RefCounted.counter x) = Some (n + 1))
      ∧ (∀ c, c ≠ RefCounted.counter x → count s' c = count s c)
      ∧ (∀ h, h ≠ this → handles s' !! h = handles s !! h).

(** [f] ends the handle [this], which was [x], and takes one from the
    observer count of the container [x] was bound to; no other count and no
    other handle changes. *)
Definition unbinds_handle (f : state T → result (state T)) (s : state T) (this : addr)
    (x : RefCounted.t) : Prop :=
  ∀ n, count s (RefCounted.counter x) = Some n →
    ∃ s', f s = Returns s'
      ∧ handles s' !! this = None
      ∧ count s' (RefCounted.counter x) = Some (wrap (n - 1))
      ∧ (0 < n ≤ SIZE_MAX → count s' (RefCounted.counter x) = Some (n - 1))
      ∧ (∀ c, c ≠ RefCounted.counter x → count s' c = count s c)
      ∧ (∀ h, h ≠ this → handles s' !! h = handles s !! h).

(** The store after the handle at [this], bound to the counter [c1] whose
    count was [n1], has been assigned the handle [x2]: the count of [c1] is
    decremented, the handle is rebound, and the count of the new target,
    [n2] at that point, is incremented. *)
Definition rebound (this : addr) (c1 : cref) (n1 : Z) (x2 : RefCounted.t) (n2 : Z)
    (s : state T) : state T :=
  store (RefCounted.counter x2) (wrap (n2 + 1))
    (set_handles <[this := x2]> (store c1 (wrap (n1 - 1)) s)).

(** [f] constructs the owning container [this] from the container [rhs],
    which holds [v] with a count of [n]: the new container holds [v] with a
    count of zero, the source keeps its count and is left holding [v'], no
    other count changes and no handle does. *)
Definition constructs_from (f : state T → result (state T)) (s : state T)
    (this rhs : addr) (v : T) (n : Z) (v' : T) : Prop :=
  ∃ s', f s = Returns s'
    ∧ owners s' !! this = Some (RefCountable.mk v 0)
    ∧ count s' (counter_of this) = Some 0
    ∧ owners s' !! rhs = Some (RefCountable.mk v' n)
    ∧ count s' (counter_of rhs) = Some n
    ∧ (∀ c, c ≠ counter_of this → count s' c = count s c)
    ∧ handles s' = handles s.

(** The same for the reference-holding container: the new one refers to the
    [T] the source refers to, [r]. *)
Definition base_constructs_from (f : state T → result (state T)) (s : state T)
    (this rhs : addr) (r : tref) (n : Z) : Prop :=
  ∃ s', f s = Returns s'
    ∧ bases s' !! this = Some (RefCountableBase.mk r 0)
    ∧ count s' (base_counter_of this) = Some 0
    ∧ bases s' !! rhs = Some (RefCountableBase.mk r n)
    ∧ count s' (base_counter_of rhs) = Some n
    ∧ (∀ c, c ≠ base_counter_of this → count s' c = count s c)
    ∧ handles s' = handles s.

(** [f] assigns to the owning container [this] the value [w]: afterwards the
    container holds [w], and every count, that of [this] among them, and
    every handle is as before. *)
Definition assigns_value (f : state T → result (state T)) (s : state T)
    (this : addr) (w : T) : Prop :=
  ∃ s', f s = Returns s'
    ∧ read (value_of this) s' = Some w
    ∧ (∀ c, count s' c = count s c)
    ∧ handles s' = handles s.

End Properties.

(** ** A callable value type

    [struct Next { long n; Next operator()() const { return Next{n + 1}; } };]
    is a [T] for which every member of both files is well-formed; it is
    modelled by its field, [call] being the successor.  Two containers of
    it, at the addresses 1 and 2: *)

Definition Next_call : Z → Z := Z.succ.

Definition two_containers : state Z :=
  mkState {[1%nat := RefCountable.mk 10 0; 2%nat := RefCountable.mk 20 0]} ∅ ∅ ∅.

(** A container holding 42, at the address 1: unobserved, observed by the
    handle at 10, and observed by the handles at 10 and 11. *)
Definition handle_on (c : addr) : RefCounted.t :=
  RefCounted.mk (value_of c) (counter_of c).

Definition one_container : state Z :=
  mkState {[1%nat := RefCountable.mk 42 0]} ∅ ∅ ∅.

Definition observed_once : state Z :=
  mkState {[1%nat := RefCountable.mk 42 1]} ∅ ∅ {[10%nat := handle_on 1]}.

Definition observed_twice : state Z :=
  mkState {[1%nat := RefCountable.mk 42 2]} ∅ ∅
    {[10%nat := handle_on 1; 11%nat := handle_on 1]}.

(** Two containers, each observed by one handle. *)
Definition two_observed : state Z :=
  mkState {[1%nat := RefCountable.mk 10 1; 2%nat := RefCountable.mk 20 1]} ∅ ∅
    {[10%nat := handle_on 1; 11%nat := handle_on 2]}.

(** A reference-holding container at the address 3 that refers to the
    [T] at the address 5. *)
Definition one_base : state Z :=
  mkState ∅ {[3%nat := RefCountableBase.mk (object_at 5) 0]} {[5%nat := 7]} ∅.

(** Two containers and three handles: at 10 and 12 on the first container,
    at 11 on the second. *)
Definition three_handles : state Z :=
  mkState {[1%nat := RefCountable.mk 10 2; 2%nat := RefCountable.mk 20 1]} ∅ ∅
    {[10%nat := handle_on 1; 11%nat := handle_on 2; 12%nat := handle_on 1]}.

(** Stores in which the count is not the number of handles: a handle on a
    container that counts none, and a container that counts [SIZE_MAX]. *)
Definition uncounted_handle : state Z :=
  mkState {[1%nat := RefCountable.mk 42 0]} ∅ ∅ {[10%nat := handle_on 1]}.

Definition saturated_container : state Z :=
  mkState {[1%nat := RefCountable.mk 42 SIZE_MAX]} ∅ ∅ ∅.

(** [RefCountable<long> c{42}; RefCounted<long> h1(c); RefCounted<long> h2(h1);] *)
Definition two_handles_program : list (op Z) :=
  [on_container (new_RefCountable 1%nat 42);
   on_handle (bind_RefCountable 10%nat 1%nat);
   on_handle (copy_RefCounted 11%nat 10%nat)].

(** [RefCountable<Next> a{Next{10}}, b{Next{20}}; a = b;] *)
Definition copy_assignment_program : list (op Z) :=
  [on_container (new_RefCountable 1%nat 10);
   on_container (new_RefCountable 2%nat 20);
   on_container (assign_copy 1%nat 2%nat)].

(** ** Programs

    Handles with nested lifetimes on one container, as the objects of
    nested scopes have:
    [{ RefCounted<T> h1(c); { RefCounted<T> h2(c); ... } }] *)
Fixpoint nested_handles {T : Type} (hs : list addr) (ref : addr) : list (op T) :=
  match hs with
  | [] => []
  | h :: hs =>
      on_handle (bind_RefCountable h ref)
      :: nested_handles hs ref ++ [on_handle (destroy_RefCounted h)]
  end.

(** [RefCounted<T> h1(c), h2(c), ...;] *)
Definition bind_all {T : Type} (hs : list addr) (ref : addr) : list (op T) :=
  (λ h, on_handle (bind_RefCountable h ref)) <$> hs.

(** Whether an operation is the copy assignment of one container to
    another. *)
Definition is_copy_assignment {T : Type} (o : op T) : bool :=
  match o with
  | on_container (assign_copy _ _) => true
  | _ => false
  end.

(** After [f] the handle [h] and the container [c] give the same reference
    to a [T], and the [T] read through it is [w]. *)
Definition observes_after {T : Type} (f : state T → result (state T)) (s : state T)
    (h c : addr) (w : T) : Prop :=
  ∃ s' ref,
    f s = Returns s'
    ∧ Hpp.RefCounted_get h s' = Returns ref
    ∧ Part000.RefCounted_get_const h s' = Returns ref
    ∧ Hpp.RefCountable_get c s' = Returns ref
    ∧ Part000.RefCountable_get_const c s' = Returns ref
    ∧ read ref s' = Some w.

(** Two stores with the same values of type [T], the same references in
    the reference-holding containers and the same live containers. *)
Definition same_values {T : Type} (s' s : state T) : Prop :=
  (∀ r, read r s' = read r s)
  ∧ objects s' = objects s
  ∧ (∀ b, RefCountableBase.value <$> bases s' !! b = RefCountableBase.value <$> bases s !! b)
  ∧ (∀ c, is_Some (count s' c) ↔ is_Some (count s c)).

(** No observer count of a container that is live in both stores differs
    between them. *)
Definition counts_kept {T : Type} (s s' : state T) : Prop :=
  ∀ c n n', count s c = Some n → count s' c = Some n' → n' = n.

(** Some live handle is bound to the container whose counter is [c]. *)
Definition observed {T : Type} (s : state T) (c : cref) : Prop :=
  ∃ h x, handles s !! h = Some x ∧ RefCounted.counter x = c.

(** The observer counts of all containers add up to the number of live
    handles. *)
Definition accounted_for {T : Type} (s : state T) : Prop :=
  total_count s = Z.of_nat (size (handles s)).

(** ** Facts about the abstract machine *)

Lemma wrap_range n : 0 ≤ wrap n ≤ SIZE_MAX.
Proof. unfold wrap, SIZE_MAX. pose proof (Z.mod_pos_bound n (2 ^ 64 - 1 + 1)). lia. Qed.

Lemma wrap_id n : 0 ≤ n ≤ SIZE_MAX → wrap n = n.
Proof. unfold wrap, SIZE_MAX. intros. apply Z.mod_small. lia. Qed.

Lemma wrap_add_sub n : 0 ≤ n ≤ SIZE_MAX → wrap (wrap (n + 1) - 1) = n.
Proof.
  unfold wrap, SIZE_MAX. intros Hn.
  rewrite Zminus_mod_idemp_l. replace (n + 1 - 1) with n by lia.
  apply Z.mod_small. lia.
Qed.

Lemma wrap_sub_add n : 0 ≤ n ≤ SIZE_MAX → wrap (wrap (n - 1) + 1) = n.
Proof.
  unfold wrap, SIZE_MAX. intros Hn.
  rewrite Zplus_mod_idemp_l. replace (n - 1 + 1) with n by lia.
  apply Z.mod_small. lia.
Qed.

Lemma alter_lookup_insert {A} (f : A → A) (m : gmap addr A) i x :
  m !! i = Some x → alter f i m = <[i := f x]> m.
Proof.
  intros Hi. apply map_eq. intros j. destruct (decide (i = j)) as [<-|].
  - by rewrite lookup_alter_eq, lookup_insert_eq, Hi.
  - by rewrite lookup_alter_ne, lookup_insert_ne.
Qed.

Section Facts.
Context {T : Type}.
Implicit Types (s : state T) (c : cref) (r : tref) (hs : gmap addr RefCounted.t).

Lemma handles_store c n s : handles (store c n s) = handles s.
Proof. by destruct c. Qed.

Lemma objects_store c n s : objects (store c n s) = objects s.
Proof. by destruct c. Qed.

Lemma load_store_eq c n s : load c (store c n s) = (λ _, n) <$> load c s.
Proof.
  destruct c; simpl; rewrite lookup_alter_eq; by destruct (_ !! _).
Qed.

Lemma load_store_ne c c' n s : c ≠ c' → load c' (store c n s) = load c' s.
Proof.
  intros Hne. destruct c, c'; simpl; try done; rewrite lookup_alter_ne; congruence.
Qed.

Lemma read_store c n s r : read r (store c n s) = read r s.
Proof.
  destruct c as [a|b], r as [a'|o]; simpl; try done.
  destruct (decide (a = a')) as [<-|].
  - rewrite lookup_alter_eq. by destruct (_ !! _).
  - by rewrite lookup_alter_ne.
Qed.

Lemma bases_value_store c n s b :
  RefCountableBase.value <$> bases (store c n s) !! b
  = RefCountableBase.value <$> bases s !! b.
Proof.
  destruct c as [a|b']; simpl; try done.
  destruct (decide (b' = b)) as [<-|].
  - rewrite lookup_alter_eq. by destruct (_ !! _).
  - by rewrite lookup_alter_ne.
Qed.

Lemma load_write r v s c : load c (write r v s) = load c s.
Proof.
  destruct r as [a|o], c as [a'|b]; simpl; try done.
  destruct (decide (a = a')) as [<-|].
  - rewrite lookup_alter_eq. by destruct (_ !! _).
  - by rewrite lookup_alter_ne.
Qed.

Lemma handles_write r v s : handles (write r v s) = handles s.
Proof. by destruct r. Qed.

Lemma read_write_eq r v s : is_Some (read r s) → read r (write r v s) = Some v.
Proof.
  intros [x Hx]. destruct r; simpl in *; rewrite lookup_alter_eq.
  - by destruct (_ !! _).
  - by rewrite Hx.
Qed.

Lemma read_write_ne r r' v s : r ≠ r' → read r' (write r v s) = read r' s.
Proof.
  intros Hne. destruct r, r'; simpl; try done; rewrite lookup_alter_ne; congruence.
Qed.

Lemma fetch_add_live c k n s :
  load c s = Some n → fetch_add c k s = Returns (n, store c (wrap (n + k)) s).
Proof. unfold fetch_add. by intros ->. Qed.

Lemma fetch_sub_live c k n s :
  load c s = Some n → fetch_sub c k s = Returns (n, store c (wrap (n - k)) s).
Proof. unfold fetch_sub. by intros ->. Qed.

(** The number of handles bound to a container, as handles come and go. *)

Lemma size_bound_to_insert c hs h x :
  hs !! h = None →
  size (bound_to c (<[h := x]> hs))
  = if decide (RefCounted.counter x = c) then S (size (bound_to c hs))
    else size (bound_to c hs).
Proof.
  intros Hh. unfold bound_to. case_decide as Hc.
  - rewrite map_filter_insert_True by done.
    rewrite map_size_insert_None; [done|].
    by rewrite map_lookup_filter_None; left.
  - rewrite map_filter_insert_False by done.
    by rewrite delete_id.
Qed.

Lemma size_bound_to_delete c hs h x :
  hs !! h = Some x →
  size (bound_to c hs)
  = if decide (RefCounted.counter x = c) then S (size (bound_to c (delete h hs)))
    else size (bound_to c (delete h hs)).
Proof.
  intros Hh.
  rewrite <- (insert_delete_id hs h x) at 1 by done.
  apply size_bound_to_insert. by rewrite lookup_delete_eq.
Qed.

Lemma size_bound_to_le c hs : (size (bound_to c hs) ≤ size hs)%nat.
Proof. apply map_subseteq_size, map_filter_subseteq. Qed.

Lemma size_bound_to_pos c hs h x :
  hs !! h = Some x → RefCounted.counter x = c → (0 < size (bound_to c hs))%nat.
Proof.
  intros Hh Hc. rewrite (size_bound_to_delete c hs h x) by done.
  rewrite decide_True by done. lia.
Qed.

End Facts.

Section StoreEquations.
Context {T : Type}.
Implicit Types (s : state T) (c : cref).

Lemma store_store c n m s : store c n (store c m s) = store c n s.
Proof.
  destruct s, c; unfold store, set_owners, set_bases; simpl; f_equal;
    rewrite alter_alter_eq; by apply alter_ext.
Qed.

Lemma store_same c n s : load c s = Some n → store c n s = s.
Proof.
  destruct s as [os bs ts hs], c as [a|b]; unfold store, set_owners, set_bases; simpl;
    intros Hn; f_equal; apply alter_id; intros [v k] Hx; rewrite Hx in Hn;
    simpl in *; congruence.
Qed.

Lemma store_set_handles c n f s :
  store c n (set_handles f s) = set_handles f (store c n s).
Proof. by destruct c. Qed.

Lemma unbound_bound this x n s :
  handles s !! this = None →
  load (RefCounted.counter x) s = Some n →
  0 ≤ n ≤ SIZE_MAX →
  unbound this (RefCounted.counter x) (wrap (n + 1)) (bound this x n s) = s.
Proof.
  intros Hf Hn Hr. unfold unbound, bound.
  rewrite store_store, wrap_add_sub, store_set_handles by done.
  rewrite store_same by done. destruct s as [os bs ts hs]. unfold set_handles. simpl in *.
  f_equal. by apply delete_insert_id.
Qed.

Lemma load_bound this x n s :
  load (RefCounted.counter x) s = Some n →
  load (RefCounted.counter x) (bound this x n s) = Some (wrap (n + 1)).
Proof.
  intros Hn. unfold bound. rewrite load_store_eq.
  change (load (RefCounted.counter x) (set_handles ?f s))
    with (load (RefCounted.counter x) s).
  by rewrite Hn.
Qed.

Lemma handles_bound_lookup this x n s h :
  handles (bound this x n s) !! h
  = if decide (h = this) then Some x else handles s !! h.
Proof.
  unfold bound. rewrite handles_store. simpl. case_decide as Hh.
  - subst. apply lookup_insert_eq.
  - by rewrite lookup_insert_ne.
Qed.

Lemma set_owners_delete_insert this o s :
  owners s !! this = None → set_owners (delete this) (set_owners <[this := o]> s) = s.
Proof.
  destruct s as [os bs ts hs]. unfold set_owners. simpl. intros Hf. f_equal.
  by apply delete_insert_id.
Qed.

Lemma set_bases_delete_insert this o s :
  bases s !! this = None → set_bases (delete this) (set_bases <[this := o]> s) = s.
Proof.
  destruct s as [os bs ts hs]. unfold set_bases. simpl. intros Hf. f_equal.
  by apply delete_insert_id.
Qed.

Lemma rebound_same_counter this x2 n s :
  load (RefCounted.counter x2) s = Some n →
  0 ≤ n ≤ SIZE_MAX →
  rebound this (RefCounted.counter x2) n x2 (wrap (n - 1)) s
  = set_handles <[this := x2]> s.
Proof.
  intros Hn Hr. unfold rebound.
  rewrite store_set_handles, store_store, wrap_sub_add by done.
  by rewrite store_same.
Qed.

End StoreEquations.

(** ** Destruction of a container *)

Section ContainerDestruction.
Context {T : Type} (NDEBUG : bool).
Implicit Types (s : state T).

Lemma observed_abort {A} :
  (_ ← c_assert NDEBUG false; terminate) = (Aborts (dangling_abort NDEBUG) : result A).
Proof. unfold dangling_abort. by destruct NDEBUG. Qed.

Lemma RefCountable_dtor_spec this s n :
  count s (counter_of this) = Some n →
  Hpp.RefCountable_dtor NDEBUG this s
  = if decide (n ≠ 0) then Aborts (dangling_abort NDEBUG)
    else Returns (set_owners (delete this) s).
Proof.
  unfold count, Hpp.RefCountable_dtor. intros ->. simpl.
  case_decide; [apply observed_abort|done].
Qed.

Lemma RefCountableBase_dtor_spec this s n :
  count s (base_counter_of this) = Some n →
  Hpp.RefCountableBase_dtor NDEBUG this s
  = if decide (n ≠ 0) then Aborts (dangling_abort NDEBUG)
    else Returns (set_bases (delete this) s).
Proof.
  unfold count, Hpp.RefCountableBase_dtor. intros ->. simpl.
  case_decide; [apply observed_abort|done].
Qed.

Lemma aborts_iff_observed_intro dtor s s' n :
  dtor s = (if decide (n ≠ 0) then Aborts (dangling_abort NDEBUG) else Returns s') →
  aborts_iff_observed dtor s s' n.
Proof.
  unfold aborts_iff_observed. intros ->. case_decide as Hn; split; split.
  - done.
  - eauto.
  - done.
  - discriminate.
  - intros [? [=]].
  - intros ?. lia.
  - done.
  - lia.
Qed.

End ContainerDestruction.

(** C1: the destructor of a container, owning ([RefCountable]) or
    reference-holding ([RefCountableBase]), in either source file, aborts the
    process if and only if the observer count it loads is not zero; with a
    count of zero it returns, and the store it leaves differs from the one
    before only in that the container is gone. *)
Theorem container_dtor_aborts_iff_observed {T : Type} (NDEBUG : bool)
    (s : state T) (this : addr) (n : Z) :
  (count s (counter_of this) = Some n →
     aborts_iff_observed (Hpp.RefCountable_dtor NDEBUG this) s
       (set_owners (delete this) s) n
     ∧ aborts_iff_observed (Part000.RefCountable_dtor NDEBUG this) s
         (set_owners (delete this) s) n)
  ∧ (count s (base_counter_of this) = Some n →
       aborts_iff_observed (Hpp.RefCountableBase_dtor NDEBUG this) s
         (set_bases (delete this) s) n
       ∧ aborts_iff_observed (Part000.RefCountableBase_dtor NDEBUG this) s
           (set_bases (delete this) s) n).
Proof.
  split; intros Hn; split;
    eapply aborts_iff_observed_intro;
    first [ by apply RefCountable_dtor_spec | by apply RefCountableBase_dtor_spec ].
Qed.

(** ** Construction and destruction of a handle *)

Section HandleLifetime.
Context {T : Type}.
Implicit Types (s : state T) (x : RefCounted.t).

Lemma bind_tail this x n s :
  load (RefCounted.counter x) s = Some n →
  (c ← Hpp.counter_get this (set_handles <[this := x]> s);
   '(_, s2) ← fetch_add c 1 (set_handles <[this := x]> s);
   Returns s2) = Returns (bound this x n s).
Proof.
  intros Hn. unfold Hpp.counter_get. simpl. rewrite lookup_insert_eq. simpl.
  by rewrite (fetch_add_live _ _ n).
Qed.

Lemma fresh_None {A} (m : gmap addr A) this : m !! this = None → fresh m this = Returns ().
Proof. unfold fresh. by intros ->. Qed.

Lemma RefCounted_ctor_RefCountable_spec this ref n s :
  handles s !! this = None →
  load (counter_of ref) s = Some n →
  Hpp.RefCounted_ctor_RefCountable this ref s
  = Returns (bound this (RefCounted.mk (value_of ref) (counter_of ref)) n s).
Proof.
  intros Hf Hn. unfold Hpp.RefCounted_ctor_RefCountable.
  rewrite fresh_None by done. simpl. by apply bind_tail.
Qed.

Lemma RefCounted_ctor_RefCountableBase_spec this ref b n s :
  handles s !! this = None →
  bases s !! ref = Some b →
  load (base_counter_of ref) s = Some n →
  Hpp.RefCounted_ctor_RefCountableBase this ref s
  = Returns (bound this
               (RefCounted.mk (RefCountableBase.value b) (base_counter_of ref)) n s).
Proof.
  intros Hf Hb Hn. unfold Hpp.RefCounted_ctor_RefCountableBase.
  rewrite fresh_None, Hb by done. simpl. by apply bind_tail.
Qed.

Lemma RefCounted_ctor_RefCounted_spec this rhs x n s :
  handles s !! this = None →
  handles s !! rhs = Some x →
  load (RefCounted.counter x) s = Some n →
  Hpp.RefCounted_ctor_RefCounted this rhs s = Returns (bound this x n s).
Proof.
  intros Hf Hx Hn. unfold Hpp.RefCounted_ctor_RefCounted.
  rewrite fresh_None, Hx by done. simpl. destruct x as [v c]. by apply bind_tail.
Qed.

Lemma RefCounted_dtor_spec this x n s :
  handles s !! this = Some x →
  load (RefCounted.counter x) s = Some n →
  Hpp.RefCounted_dtor this s = Returns (unbound this (RefCounted.counter x) n s).
Proof.
  intros Hx Hn. unfold Hpp.RefCounted_dtor, Hpp.counter_get.
  rewrite Hx. simpl. by rewrite (fetch_sub_live _ _ n).
Qed.

Lemma bound_binds_handle f this x s :
  handles s !! this = None →
  (∀ n, load (RefCounted.counter x) s = Some n → f s = Returns (bound this x n s)) →
  binds_handle f s this x.
Proof.
  intros Hf Hspec n Hn. exists (bound this x n s).
  assert (count (bound this x n s) (RefCounted.counter x) = Some (wrap (n + 1))) as Hc.
  { unfold count, bound. rewrite load_store_eq. simpl.
    unfold count in Hn. destruct x as [v [a|b]]; simpl in *; by rewrite Hn. }
  split_and!.
  - by apply Hspec.
  - unfold bound. rewrite handles_store. simpl. apply lookup_insert_eq.
  - done.
  - intros Hr. rewrite Hc. f_equal. apply wrap_id. lia.
  - intros c Hne. unfold count, bound. rewrite load_store_ne by done.
    by destruct c.
  - intros h Hne. unfold bound. rewrite handles_store. simpl.
    by rewrite lookup_insert_ne.
Qed.

Lemma unbound_unbinds_handle f this x s :
  handles s !! this = Some x →
  (∀ n, load (RefCounted.counter x) s = Some n →
        f s = Returns (unbound this (RefCounted.counter x) n s)) →
  unbinds_handle f s this x.
Proof.
  intros Hx Hspec n Hn. exists (unbound this (RefCounted.counter x) n s).
  assert (count (unbound this (RefCounted.counter x) n s) (RefCounted.counter x)
          = Some (wrap (n - 1))) as Hc.
  { unfold count, unbound in *.
    transitivity (load (RefCounted.counter x) (store (RefCounted.counter x) (wrap (n - 1)) s)).
    - by destruct (RefCounted.counter x).
    - by rewrite load_store_eq, Hn. }
  split_and!.
  - by apply Hspec.
  - unfold unbound. simpl. apply lookup_delete_eq.
  - done.
  - intros Hr. rewrite Hc. f_equal. apply wrap_id. lia.
  - intros c Hne. unfold count, unbound.
    transitivity (load c (store (RefCounted.counter x) (wrap (n - 1)) s)).
    + by destruct c.
    + by rewrite load_store_ne.
  - intros h Hne. unfold unbound. simpl.
    by rewrite lookup_delete_ne, handles_store.
Qed.

End HandleLifetime.

(** X21: each constructor of a handle that an initialisation can select, in
    either source file -- from a mutable or a const [RefCountable], from a
    mutable or a const [RefCountableBase], from a [RefCounted] that is not
    const or is an rvalue -- binds the new handle to its target and adds one
    to the target's observer count: the count goes from [n] to [n + 1] in
    the arithmetic of [size_t], which is [n + 1] itself below [SIZE_MAX].
    The handle a new one is constructed from, moved from or not, stays bound
    as it was. *)
Theorem RefCounted_ctor_increments_count {T : Type} (s : state T) (this : addr) :
  handles s !! this = None →
  (∀ ref, let x := RefCounted.mk (value_of ref) (counter_of ref) in
     binds_handle (Hpp.RefCounted_ctor_RefCountable this ref) s this x
     ∧ binds_handle (Hpp.RefCounted_ctor_const_RefCountable this ref) s this x
     ∧ binds_handle (Part000.RefCounted_ctor_RefCountable this ref) s this x
     ∧ binds_handle (Part000.RefCounted_ctor_const_RefCountable this ref) s this x)
  ∧ (∀ ref b, bases s !! ref = Some b →
     let x := RefCounted.mk (RefCountableBase.value b) (base_counter_of ref) in
     binds_handle (Hpp.RefCounted_ctor_RefCountableBase this ref) s this x
     ∧ binds_handle (Hpp.RefCounted_ctor_const_RefCountableBase this ref) s this x
     ∧ binds_handle (Part000.RefCounted_ctor_RefCountableBase this ref) s this x
     ∧ binds_handle (Part000.RefCounted_ctor_const_RefCountableBase this ref) s this x)
  ∧ (∀ rhs x, handles s !! rhs = Some x →
     binds_handle (Hpp.RefCounted_ctor_RefCounted this rhs) s this x
     ∧ binds_handle (Hpp.RefCounted_ctor_move_RefCounted this rhs) s this x
     ∧ binds_handle (Part000.RefCounted_ctor_RefCounted this rhs) s this x
     ∧ binds_handle (Part000.RefCounted_ctor_move_RefCounted this rhs) s this x).
Proof.
  intros Hf. split_and!.
  - intros ref x. split_and!; apply bound_binds_handle; try done;
      intros n Hn; by apply RefCounted_ctor_RefCountable_spec.
  - intros ref b Hb x. split_and!; apply bound_binds_handle; try done;
      intros n Hn; by apply RefCounted_ctor_RefCountableBase_spec.
  - intros rhs x Hx. split_and!; apply bound_binds_handle; try done;
      intros n Hn; by apply RefCounted_ctor_RefCounted_spec.
Qed.

(** C4: the destructor of a handle, whatever the handle is bound to and in
    either source file, takes one from the observer count of the container
    the handle is bound to at that time -- the count goes from [n] to
    [n - 1] in the arithmetic of [size_t], which is [n - 1] itself for a
    count above zero -- and does so once: the handle is gone afterwards, and
    no other count changes. *)
Theorem RefCounted_dtor_decrements_count {T : Type} (s : state T) (this : addr)
    (x : RefCounted.t) :
  handles s !! this = Some x →
  unbinds_handle (Hpp.RefCounted_dtor this) s this x
  ∧ unbinds_handle (Part000.RefCounted_dtor this) s this x.
Proof.
  intros Hx. split; apply unbound_unbinds_handle; try done;
    intros n Hn; by apply RefCounted_dtor_spec.
Qed.

(** ** Assignment of a handle *)

Section HandleAssignment.
Context {T : Type}.
Implicit Types (s : state T) (x : RefCounted.t).

Lemma RefCounted_assign_self this x s :
  handles s !! this = Some x → Hpp.RefCounted_assign this this s = Returns s.
Proof.
  intros Hx. unfold Hpp.RefCounted_assign. rewrite Hx. simpl.
  by rewrite decide_True.
Qed.

Lemma RefCounted_assign_spec this rhs x1 x2 n1 n2 s :
  this ≠ rhs →
  handles s !! this = Some x1 →
  handles s !! rhs = Some x2 →
  load (RefCounted.counter x1) s = Some n1 →
  load (RefCounted.counter x2) (store (RefCounted.counter x1) (wrap (n1 - 1)) s) = Some n2 →
  Hpp.RefCounted_assign this rhs s
  = Returns (rebound this (RefCounted.counter x1) n1 x2 n2 s).
Proof.
  intros Hne H1 H2 Hn1 Hn2. unfold Hpp.RefCounted_assign, Hpp.counter_get.
  rewrite H1, H2. simpl. rewrite decide_False by done.
  rewrite (fetch_sub_live _ _ n1) by done. simpl.
  rewrite handles_store, H2. simpl.
  rewrite lookup_alter_eq, lookup_alter_eq, H1. simpl.
  set (s3 := set_handles _ _).
  assert (s3 = set_handles <[this := x2]> (store (RefCounted.counter x1) (wrap (n1 - 1)) s))
    as ->.
  { unfold s3, set_handles. simpl. f_equal.
    rewrite alter_alter_eq, handles_store.
    rewrite (alter_lookup_insert _ _ _ x1) by done. simpl. by destruct x2. }
  rewrite (fetch_add_live _ _ n2).
  - done.
  - by destruct (RefCounted.counter x2).
Qed.

Lemma sum_alter {A} (g : A → Z) (f : A → A) (m : gmap addr A) a (y : A) :
  m !! a = Some y →
  map_fold (λ _ o acc, g o + acc) 0 (alter f a m)
  = map_fold (λ _ o acc, g o + acc) 0 m - g y + g (f y).
Proof.
  intros Ha. rewrite (alter_lookup_insert f m a y), <- insert_delete_eq by done.
  rewrite map_fold_insert_L.
  - rewrite (map_fold_delete_L _ _ a y m); [lia| |done]. intros. lia.
  - intros. lia.
  - apply lookup_delete_eq.
Qed.

Lemma total_count_store c n m s :
  load c s = Some n → total_count (store c m s) = total_count s - n + m.
Proof.
  unfold total_count. destruct c as [a|b]; simpl; intros Hn.
  - destruct (owners s !! a) as [o|] eqn:Ho; [|done].
    rewrite (sum_alter RefCountable.counter _ _ a o) by done.
    simpl in *. injection Hn as ->. lia.
  - destruct (bases s !! b) as [o|] eqn:Ho; [|done].
    rewrite (sum_alter RefCountableBase.counter _ _ b o) by done.
    simpl in *. injection Hn as ->. lia.
Qed.

Lemma count_rebound_other this c1 n1 x2 n2 s c :
  c ≠ c1 → c ≠ RefCounted.counter x2 →
  count (rebound this c1 n1 x2 n2 s) c = count s c.
Proof.
  intros H1 H2. unfold count, rebound. rewrite load_store_ne by done.
  transitivity (load c (store c1 (wrap (n1 - 1)) s)).
  - by destruct c.
  - by rewrite load_store_ne.
Qed.

Lemma count_rebound_new this c1 n1 x2 n2 s :
  is_Some (load (RefCounted.counter x2) s) →
  count (rebound this c1 n1 x2 n2 s) (RefCounted.counter x2) = Some (wrap (n2 + 1)).
Proof.
  intros [n Hn]. unfold count, rebound. rewrite load_store_eq.
  assert (is_Some (load (RefCounted.counter x2)
                     (set_handles <[this:=x2]> (store c1 (wrap (n1 - 1)) s)))) as [? ->];
    [|done].
  assert (is_Some (load (RefCounted.counter x2) (store c1 (wrap (n1 - 1)) s))) as Hs.
  { destruct (decide (c1 = RefCounted.counter x2)) as [->|].
    - rewrite load_store_eq, Hn. by eexists.
    - rewrite load_store_ne, Hn by done. by eexists. }
  by destruct (RefCounted.counter x2).
Qed.

Lemma count_rebound_old this c1 n1 x2 n2 s :
  c1 ≠ RefCounted.counter x2 → is_Some (load c1 s) →
  count (rebound this c1 n1 x2 n2 s) c1 = Some (wrap (n1 - 1)).
Proof.
  intros Hne [n Hn]. unfold count, rebound. rewrite load_store_ne by done.
  transitivity (load c1 (store c1 (wrap (n1 - 1)) s)).
  - by destruct c1.
  - by rewrite load_store_eq, Hn.
Qed.

Lemma handles_rebound this c1 n1 x2 n2 s h :
  handles (rebound this c1 n1 x2 n2 s) !! h
  = if decide (h = this) then Some x2 else handles s !! h.
Proof.
  unfold rebound. rewrite handles_store. simpl. case_decide as Hh.
  - subst. apply lookup_insert_eq.
  - by rewrite lookup_insert_ne, handles_store.
Qed.

Lemma total_count_rebound this c1 n1 x2 n2 s :
  load c1 s = Some n1 →
  load (RefCounted.counter x2) (store c1 (wrap (n1 - 1)) s) = Some n2 →
  total_count (rebound this c1 n1 x2 n2 s)
  = total_count s - n1 + wrap (n1 - 1) - n2 + wrap (n2 + 1).
Proof.
  intros H1 H2. unfold rebound.
  rewrite (total_count_store _ n2).
  - change (total_count (set_handles ?f ?s')) with (total_count s').
    rewrite (total_count_store _ n1) by done. lia.
  - by destruct (RefCounted.counter x2).
Qed.

(** The two copy operations that the language declares. *)

Lemma RefCounted_copy_ctor_spec this rhs x s :
  handles s !! this = None →
  handles s !! rhs = Some x →
  Hpp.RefCounted_copy_ctor this rhs s = Returns (set_handles <[this := x]> s).
Proof.
  intros Hf Hx. unfold Hpp.RefCounted_copy_ctor. rewrite fresh_None, Hx by done.
  simpl. by destruct x.
Qed.

Lemma RefCounted_copy_assign_spec this rhs x1 x2 s :
  handles s !! this = Some x1 →
  handles s !! rhs = Some x2 →
  Hpp.RefCounted_copy_assign this rhs s = Returns (set_handles <[this := x2]> s).
Proof.
  intros H1 H2. unfold Hpp.RefCounted_copy_assign. rewrite H1, H2. simpl. f_equal.
  unfold set_handles. simpl. f_equal.
  rewrite alter_alter_eq, (alter_lookup_insert _ _ _ x1) by done. simpl. by destruct x2.
Qed.

Lemma implicit_copy_Returns (o : handle_op) s s' :
  counts_observers o = false →
  hpp_exec_handle o s = Returns s' →
  ∃ this x, s' = set_handles <[this := x]> s.
Proof.
  destruct o; try discriminate; intros _; simpl.
  - unfold Hpp.RefCounted_copy_ctor. destruct (fresh _ _) eqn:Hf; [|done..]. simpl.
    destruct (handles s !! rhs) as [x|]; [|done]. simpl. intros [= <-]. eauto.
  - destruct (handles s !! this) as [x1|] eqn:H1;
      [|unfold Hpp.RefCounted_copy_assign; by rewrite H1].
    destruct (handles s !! rhs) as [x2|] eqn:H2;
      [|unfold Hpp.RefCounted_copy_assign; by rewrite H1, H2].
    rewrite (RefCounted_copy_assign_spec this rhs x1 x2 s H1 H2). intros [= <-]. eauto.
Qed.

End HandleAssignment.

(** X22: the assignment operator that the class writes, called by name on
    a handle with itself, [h.operator=<T>(h)], returns with the store as it
    was.  Called on the handle [this], bound to a container A, with a
    different handle bound to a container B, it first decrements the count
    of A, then rebinds the value reference and the counter reference of
    [this] to those of the right-hand side, then increments the count of B
    (the store is [rebound], which applies the three steps in that order).
    For A other than B the count of A goes from [a] to [a - 1] and the
    count of B from [b] to [b + 1], in the arithmetic of [size_t] and
    exactly so when [a] is above zero and [b] below [SIZE_MAX]; for A the
    same as B the count is as before; in both cases the sum of all counts is
    unchanged, and so are all other counts and handles.  Both source files
    agree. *)
Theorem RefCounted_assign_moves_one_count {T : Type} (s : state T) (this rhs : addr)
    (x1 x2 : RefCounted.t) (a b : Z) :
  handles s !! this = Some x1 →
  handles s !! rhs = Some x2 →
  count s (RefCounted.counter x1) = Some a →
  count s (RefCounted.counter x2) = Some b →
  (this = rhs →
     Hpp.RefCounted_assign this rhs s = Returns s
     ∧ Part000.RefCounted_assign this rhs s = Returns s)
  ∧ (this ≠ rhs → RefCounted.counter x1 ≠ RefCounted.counter x2 →
     let s' := rebound this (RefCounted.counter x1) a x2 b s in
     Hpp.RefCounted_assign this rhs s = Returns s'
     ∧ Part000.RefCounted_assign this rhs s = Returns s'
     ∧ handles s' !! this = Some x2
     ∧ count s' (RefCounted.counter x1) = Some (wrap (a - 1))
     ∧ count s' (RefCounted.counter x2) = Some (wrap (b + 1))
     ∧ (0 < a ≤ SIZE_MAX → 0 ≤ b < SIZE_MAX →
        count s' (RefCounted.counter x1) = Some (a - 1)
        ∧ count s' (RefCounted.counter x2) = Some (b + 1)
        ∧ total_count s' = total_count s)
     ∧ (∀ c, c ≠ RefCounted.counter x1 → c ≠ RefCounted.counter x2 →
        count s' c = count s c)
     ∧ (∀ h, h ≠ this → handles s' !! h = handles s !! h))
  ∧ (this ≠ rhs → RefCounted.counter x1 = RefCounted.counter x2 → 0 ≤ a ≤ SIZE_MAX →
     let s' := rebound this (RefCounted.counter x1) a x2 (wrap (a - 1)) s in
     Hpp.RefCounted_assign this rhs s = Returns s'
     ∧ Part000.RefCounted_assign this rhs s = Returns s'
     ∧ handles s' !! this = Some x2
     ∧ (∀ c, count s' c = count s c)
     ∧ total_count s' = total_count s
     ∧ (∀ h, h ≠ this → handles s' !! h = handles s !! h)).
Proof.
  intros H1 H2 Ha Hb. unfold count in Ha, Hb. split_and!.
  - intros <-. split; by apply (RefCounted_assign_self this x1).
  - intros Hne Hc s'.
    assert (load (RefCounted.counter x2)
              (store (RefCounted.counter x1) (wrap (a - 1)) s) = Some b) as Hb'.
    { by rewrite load_store_ne. }
    assert (count s' (RefCounted.counter x1) = Some (wrap (a - 1))) as Hca.
    { apply count_rebound_old; [done|by eexists]. }
    assert (count s' (RefCounted.counter x2) = Some (wrap (b + 1))) as Hcb.
    { apply count_rebound_new. by eexists. }
    split_and!.
    + by apply (RefCounted_assign_spec this rhs x1 x2).
    + by apply (RefCounted_assign_spec this rhs x1 x2).
    + unfold s'. rewrite handles_rebound. by rewrite decide_True.
    + done.
    + done.
    + intros Hra Hrb. rewrite Hca, Hcb. split_and!.
      * f_equal. apply wrap_id. lia.
      * f_equal. apply wrap_id. lia.
      * unfold s'. rewrite total_count_rebound by done.
        rewrite !wrap_id by lia. lia.
    + intros c ? ?. by apply count_rebound_other.
    + intros h Hh. unfold s'. rewrite handles_rebound. by rewrite decide_False.
  - intros Hne Hc Hra s'.
    assert (load (RefCounted.counter x2)
              (store (RefCounted.counter x1) (wrap (a - 1)) s) = Some (wrap (a - 1)))
      as Hb'.
    { rewrite <- Hc. by rewrite load_store_eq, Ha. }
    split_and!.
    + by apply (RefCounted_assign_spec this rhs x1 x2).
    + by apply (RefCounted_assign_spec this rhs x1 x2).
    + unfold s'. rewrite handles_rebound. by rewrite decide_True.
    + intros c. destruct (decide (c = RefCounted.counter x2)) as [->|Hne'].
      * unfold s'. rewrite count_rebound_new by (by eexists).
        unfold count. rewrite Hb. rewrite <- Hc in Hb. rewrite Ha in Hb.
        injection Hb as <-. by rewrite wrap_sub_add.
      * apply count_rebound_other; congruence.
    + unfold s'. rewrite total_count_rebound by done.
      rewrite wrap_sub_add by done. lia.
    + intros h Hh. unfold s'. rewrite handles_rebound. by rewrite decide_False.
Qed.

(** C10: for two distinct handles [h1] and [h2] bound to the same container,
    the assignment [h1 = h2] returns, leaves the observer count of that
    container (and every other count) as it was, and leaves [h1] bound to
    the container; in either source file.  This holds of the assignment
    operator that the class writes, whose decrement and increment hit the
    same counter, and of the copy assignment that [h1 = h2] runs, which
    touches no counter: the two return the same store. *)
Theorem RefCounted_assign_same_target {T : Type} (s : state T) (h1 h2 : addr)
    (x1 x2 : RefCounted.t) (n : Z) :
  h1 ≠ h2 →
  handles s !! h1 = Some x1 →
  handles s !! h2 = Some x2 →
  RefCounted.counter x1 = RefCounted.counter x2 →
  count s (RefCounted.counter x1) = Some n →
  0 ≤ n ≤ SIZE_MAX →
  ∃ s', Hpp.RefCounted_assign h1 h2 s = Returns s'
    ∧ Part000.RefCounted_assign h1 h2 s = Returns s'
    ∧ count s' (RefCounted.counter x1) = Some n
    ∧ (∀ c, count s' c = count s c)
    ∧ RefCounted.counter <$> handles s' !! h1 = Some (RefCounted.counter x1)
    ∧ Hpp.RefCounted_copy_assign h1 h2 s = Returns s'
    ∧ Part000.RefCounted_copy_assign h1 h2 s = Returns s'.
Proof.
  intros Hne H1 H2 Hc Hn Hr. unfold count in Hn.
  assert (Hpp.RefCounted_copy_assign h1 h2 s
          = Returns (rebound h1 (RefCounted.counter x1) n x2 (wrap (n - 1)) s)) as Himplicit.
  { rewrite (RefCounted_copy_assign_spec h1 h2 x1 x2 s H1 H2). f_equal.
    rewrite Hc. symmetry. apply rebound_same_counter; [by rewrite <- Hc|done]. }
  exists (rebound h1 (RefCounted.counter x1) n x2 (wrap (n - 1)) s).
  assert (load (RefCounted.counter x2)
            (store (RefCounted.counter x1) (wrap (n - 1)) s) = Some (wrap (n - 1)))
    as Hb'.
  { rewrite <- Hc. by rewrite load_store_eq, Hn. }
  assert (∀ c, count (rebound h1 (RefCounted.counter x1) n x2 (wrap (n - 1)) s) c
               = count s c) as Hall.
  { intros c. destruct (decide (c = RefCounted.counter x2)) as [->|Hne'].
    - rewrite count_rebound_new by (rewrite <- Hc; by eexists).
      unfold count. rewrite <- Hc, Hn. by rewrite wrap_sub_add.
    - apply count_rebound_other; congruence. }
  split_and!.
  - by apply (RefCounted_assign_spec h1 h2 x1 x2).
  - by apply (RefCounted_assign_spec h1 h2 x1 x2).
  - by rewrite Hall.
  - done.
  - rewrite handles_rebound, decide_True by done. simpl. by rewrite Hc.
  - done.
  - done.
Qed.

Section RoundTrip.
Context {T : Type}.
Implicit Types (s : state T) (x : RefCounted.t).


End RoundTrip.


(** ** Construction of a container from a container *)

(** C8: copy construction of an owning container (in either source file) and
    its move construction (RefCountable.hpp) give a new container that holds
    the value of the source and whose observer count is zero whatever the
    count [n] of the source is; the count of the source stays [n], no other
    count changes and no handle is bound to the new container by it.  The
    same holds for the copy and move constructors of the reference-holding
    container, whose new instance refers to the value the source refers
    to. *)
Theorem container_copy_starts_unobserved {T : Type} (moved_from : T → T)
    (s : state T) (this rhs : addr) (n : Z) :
  (∀ v, owners s !! this = None → owners s !! rhs = Some (RefCountable.mk v n) →
     constructs_from (Hpp.RefCountable_copy_ctor this rhs) s this rhs v n v
     ∧ constructs_from (Part000.RefCountable_copy_ctor this rhs) s this rhs v n v
     ∧ constructs_from (Hpp.RefCountable_move_ctor moved_from this rhs) s this rhs
         v n (moved_from v))
  ∧ (∀ r, bases s !! this = None → bases s !! rhs = Some (RefCountableBase.mk r n) →
     base_constructs_from (Hpp.RefCountableBase_copy_ctor this rhs) s this rhs r n
     ∧ base_constructs_from (Hpp.RefCountableBase_move_ctor this rhs) s this rhs r n
     ∧ base_constructs_from (Part000.RefCountableBase_copy_ctor this rhs) s this rhs r n
     ∧ base_constructs_from (Part000.RefCountableBase_move_ctor this rhs) s this rhs r n).
Proof.
  split.
  - intros v Hf Hrhs.
    assert (this ≠ rhs) as Hne by (intros ->; congruence).
    assert (constructs_from (Hpp.RefCountable_copy_ctor this rhs) s this rhs v n v) as Hcopy.
    { eexists. unfold Hpp.RefCountable_copy_ctor. rewrite fresh_None by done.
      simpl. rewrite Hrhs. simpl. split_and!; [done|..]; unfold count; simpl.
      - apply lookup_insert_eq.
      - by rewrite lookup_insert_eq.
      - by rewrite lookup_insert_ne.
      - by rewrite lookup_insert_ne, Hrhs.
      - intros [a|b] Hc; simpl; [|done]. rewrite lookup_insert_ne; [done|congruence].
      - done. }
    split_and!; [done|done|].
    eexists. unfold Hpp.RefCountable_move_ctor. rewrite fresh_None by done.
    simpl. rewrite Hrhs. simpl. split_and!; [done|..]; unfold count; simpl.
    + apply lookup_insert_eq.
    + by rewrite lookup_insert_eq.
    + by rewrite lookup_insert_ne, lookup_alter_eq, Hrhs.
    + by rewrite lookup_insert_ne, lookup_alter_eq, Hrhs.
    + intros [a|b] Hc; simpl; [|done]. rewrite lookup_insert_ne by congruence.
      destruct (decide (rhs = a)) as [<-|].
      * by rewrite lookup_alter_eq, Hrhs.
      * by rewrite lookup_alter_ne.
    + done.
  - intros r Hf Hrhs.
    assert (this ≠ rhs) as Hne by (intros ->; congruence).
    assert (base_constructs_from (Hpp.RefCountableBase_copy_ctor this rhs) s this rhs r n)
      as Hcopy.
    { eexists. unfold Hpp.RefCountableBase_copy_ctor. rewrite fresh_None by done.
      simpl. rewrite Hrhs. simpl. split_and!; [done|..]; unfold count; simpl.
      - apply lookup_insert_eq.
      - by rewrite lookup_insert_eq.
      - by rewrite lookup_insert_ne.
      - by rewrite lookup_insert_ne, Hrhs.
      - intros [a|b] Hc; simpl; [done|]. rewrite lookup_insert_ne; [done|congruence].
      - done. }
    by split_and!.
Qed.

(** ** Assignment to a container *)

Section ContainerAssignment.
Context {T : Type} (moved_from : T → T) (call : T → T).
Implicit Types (s : state T).

Lemma write_assigns_value s0 s this w :
  is_Some (owners s !! this) →
  (∀ c, load c s = load c s0) → handles s = handles s0 →
  read (value_of this) (write (value_of this) w s) = Some w
  ∧ (∀ c, count (write (value_of this) w s) c = count s0 c)
  ∧ handles (write (value_of this) w s) = handles s0.
Proof.
  intros [o Ho] Hc Hh. split_and!.
  - apply read_write_eq. simpl. rewrite Ho. by eexists.
  - intros c. unfold count. by rewrite load_write.
  - by rewrite handles_write.
Qed.

(** The four assignment operators of RefCountable.hpp store the value of
    their right-hand side and leave the counts alone. *)
Lemma hpp_assignments_replace_value s this rhs r v w :
  is_Some (owners s !! this) →
  (read (value_of rhs) s = Some v →
     assigns_value (Hpp.RefCountable_assign_copy this rhs) s this v
     ∧ assigns_value (Hpp.RefCountable_assign_move moved_from this rhs) s this v)
  ∧ (read r s = Some w →
     assigns_value (Hpp.RefCountable_assign_value this r) s this w
     ∧ assigns_value (Hpp.RefCountable_assign_rvalue moved_from this r) s this w).
Proof.
  intros Hthis.
  assert (read (value_of this) s = Some (RefCountable.value (is_Some_proj Hthis))) as Hd.
  { simpl. destruct Hthis as [o Ho]. simpl. by rewrite Ho. }
  assert (∀ src u, read src s = Some u →
            assigns_value (T_copy_assign (value_of this) src) s this u
            ∧ assigns_value (T_move_assign moved_from (value_of this) src) s this u) as H.
  { intros src u Hu. split; eexists.
    - unfold T_copy_assign. rewrite Hu, Hd. simpl. split; [done|].
      by apply write_assigns_value.
    - unfold T_move_assign. rewrite Hu, Hd. simpl. split; [done|].
      apply write_assigns_value.
      + destruct src as [a|o]; simpl; [|done].
        destruct (decide (a = this)) as [->|].
        * rewrite lookup_alter_eq. destruct Hthis as [? ->]. by eexists.
        * by rewrite lookup_alter_ne.
      + intros c. apply load_write.
      + apply handles_write. }
  split; intros Hr; by apply H.
Qed.

(** In part_000 three of them do the same; the copy assignment from a
    container stores what invoking the right-hand side's value returns. *)
Lemma part000_assignments s this rhs r v w :
  is_Some (owners s !! this) →
  (read (value_of rhs) s = Some v →
     assigns_value (Part000.RefCountable_assign_copy call this rhs) s this (call v)
     ∧ assigns_value (Part000.RefCountable_assign_move moved_from this rhs) s this v)
  ∧ (read r s = Some w →
     assigns_value (Part000.RefCountable_assign_value this r) s this w
     ∧ assigns_value (Part000.RefCountable_assign_rvalue moved_from this r) s this w).
Proof.
  intros Hthis.
  destruct (hpp_assignments_replace_value s this rhs r v w Hthis) as [H1 H2].
  split; intros Hr.
  - split; [|by apply H1].
    assert (read (value_of this) s = Some (RefCountable.value (is_Some_proj Hthis))) as Hd.
    { simpl. destruct Hthis as [o Ho]. simpl. by rewrite Ho. }
    eexists. unfold Part000.RefCountable_assign_copy. rewrite Hr, Hd. simpl.
    split; [done|]. by apply write_assigns_value.
  - by apply H2.
Qed.

End ContainerAssignment.

(** C5, at the input where the code departs from it: in part_000, copy
    assignment from a container holding 20, to a container holding 10, of a
    value type whose call operator returns the successor, leaves 21 in the
    target, not the 20 of the right-hand side; the counts are untouched.
    (RefCountable.hpp stores 20: [hpp_assignments_replace_value].) *)
Theorem part000_copy_assignment_invokes_value :
  ∃ s', Part000.RefCountable_assign_copy Next_call 1%nat 2%nat two_containers = Returns s'
    ∧ read (value_of 2%nat) two_containers = Some 20
    ∧ read (value_of 1%nat) s' = Some 21
    ∧ count s' (counter_of 1%nat) = count two_containers (counter_of 1%nat)
    ∧ Hpp.RefCountable_assign_copy 1%nat 2%nat two_containers
      = Returns (write (value_of 1%nat) 20 two_containers).
Proof. eexists. by vm_compute. Qed.

(** ** The two source files side by side *)

Section SideBySide.
Context {T : Type} (moved_from : T → T) (NDEBUG : bool) (call : T → T).

(** The handle operations of the two files are the same functions. *)
Lemma part000_exec_handle_eq (o : handle_op) (s : state T) :
  part000_exec_handle o s = hpp_exec_handle o s.
Proof. by destruct o. Qed.

(** So are the container operations, the copy assignment apart. *)
Lemma part000_exec_eq (o : op T) (s : state T) :
  (∀ this rhs, o ≠ on_container (assign_copy this rhs)) →
  part000_exec moved_from NDEBUG call o s = hpp_exec moved_from NDEBUG o s.
Proof.
  intros Hne. destruct o as [o|o]; [|apply part000_exec_handle_eq].
  destruct o; try done. by destruct (Hne this rhs).
Qed.

(** For a [T] whose call operator returns the value itself, the two files
    agree on every sequence of operations. *)
Lemma run_eq_of_call_id (os : list (op T)) (s : state T) :
  (∀ v, call v = v) →
  run (part000_exec moved_from NDEBUG call) os s = run (hpp_exec moved_from NDEBUG) os s.
Proof.
  intros Hid. revert s. induction os as [|o os IH]; intros s; [done|].
  simpl. assert (part000_exec moved_from NDEBUG call o s = hpp_exec moved_from NDEBUG o s)
    as ->.
  { destruct o as [o|o]; [|apply part000_exec_handle_eq].
    destruct o; try done. simpl.
    unfold Part000.RefCountable_assign_copy, Hpp.RefCountable_assign_copy, T_copy_assign.
    destruct (read (value_of rhs) s); [|done]. simpl. by rewrite Hid. }
  destruct (hpp_exec moved_from NDEBUG o s); simpl; auto.
Qed.

End SideBySide.

(** C7, at the input where the two files part: after
    [RefCountable<Next> a{Next{10}}, b{Next{20}}; a = b;] the container [a]
    holds 20 with RefCountable.hpp and 21 with part_000, so the same
    sequence of operations does not give the same stored value. *)
Theorem sources_differ_on_copy_assignment (NDEBUG : bool) :
  ∃ s1 s2,
    run (hpp_exec id NDEBUG) copy_assignment_program empty_state = Returns s1
    ∧ run (part000_exec id NDEBUG Next_call) copy_assignment_program empty_state
      = Returns s2
    ∧ read (value_of 1%nat) s1 = Some 20
    ∧ read (value_of 1%nat) s2 = Some 21.
Proof. do 2 eexists. by vm_compute. Qed.

(** ** The count is the number of handles *)

Section Invariant.
Context {T : Type}.
Implicit Types (s : state T) (x : RefCounted.t).

Lemma rebound_bound_unbound this c1 n1 x2 n2 s :
  rebound this c1 n1 x2 n2 s = bound this x2 n2 (unbound this c1 n1 s).
Proof.
  unfold rebound, bound, unbound, set_handles. simpl.
  by rewrite insert_delete_eq.
Qed.

Lemma load_unbound this c n s c' :
  load c' (unbound this c n s) = load c' (store c (wrap (n - 1)) s).
Proof. by destruct c'. Qed.

Lemma is_Some_load_store c n s c' :
  is_Some (load c' s) → is_Some (load c' (store c n s)).
Proof.
  intros [m Hm]. destruct (decide (c = c')) as [->|].
  - rewrite load_store_eq, Hm. by eexists.
  - rewrite load_store_ne, Hm by done. by eexists.
Qed.

Lemma tracked_empty : tracked (empty_state : state T).
Proof.
  split.
  - intros [a|b] n; unfold count; simpl; by rewrite lookup_empty.
  - intros h r. simpl. by rewrite lookup_empty.
Qed.

Lemma tracked_bound this x n s :
  tracked s →
  handles s !! this = None →
  load (RefCounted.counter x) s = Some n →
  handles_fit (bound this x n s) →
  tracked (bound this x n s).
Proof.
  intros [Hcount Hlive] Hf Hn Hfit.
  assert (handles (bound this x n s) = <[this := x]> (handles s)) as Hh.
  { unfold bound. by rewrite handles_store. }
  split.
  - intros c m Hm. unfold count in Hm. unfold nbound. rewrite Hh.
    rewrite size_bound_to_insert by done.
    unfold bound in Hm. case_decide as Hc.
    + subst c. rewrite load_store_eq in Hm.
      change (load (RefCounted.counter x) (set_handles ?f s))
        with (load (RefCounted.counter x) s) in Hm.
      rewrite Hn in Hm. injection Hm as <-.
      pose proof (Hcount _ _ Hn) as Hnb. unfold nbound in Hnb.
      unfold handles_fit in Hfit. rewrite Hh, map_size_insert_None in Hfit by done.
      pose proof (size_bound_to_le (RefCounted.counter x) (handles s)).
      rewrite wrap_id; lia.
    + rewrite load_store_ne in Hm by done. by apply Hcount.
  - intros h r. rewrite Hh. unfold count, bound. intros Hr.
    apply is_Some_load_store.
    change (load (RefCounted.counter r) (set_handles ?f s))
      with (load (RefCounted.counter r) s).
    destruct (decide (this = h)) as [->|Hne].
    + rewrite lookup_insert_eq in Hr. injection Hr as <-. by eexists.
    + rewrite lookup_insert_ne in Hr by done. by apply (Hlive h).
Qed.

Lemma tracked_unbound this x n s :
  tracked s →
  handles s !! this = Some x →
  load (RefCounted.counter x) s = Some n →
  handles_fit (unbound this (RefCounted.counter x) n s) →
  tracked (unbound this (RefCounted.counter x) n s).
Proof.
  intros [Hcount Hlive] Hx Hn Hfit.
  assert (handles (unbound this (RefCounted.counter x) n s) = delete this (handles s))
    as Hh.
  { unfold unbound. simpl. by rewrite handles_store. }
  split.
  - intros c m Hm. unfold count in Hm. rewrite load_unbound in Hm.
    unfold nbound. rewrite Hh.
    pose proof (size_bound_to_delete c (handles s) this x Hx) as Hsz.
    case_decide as Hc.
    + subst c. rewrite load_store_eq, Hn in Hm. injection Hm as <-.
      pose proof (Hcount _ _ Hn) as Hnb. unfold nbound in Hnb.
      unfold handles_fit in Hfit. rewrite Hh in Hfit.
      pose proof (size_bound_to_le (RefCounted.counter x) (delete this (handles s))).
      rewrite wrap_id; lia.
    + rewrite load_store_ne in Hm by done. rewrite <- Hsz. by apply Hcount.
  - intros h r. rewrite Hh. unfold count. rewrite load_unbound. intros Hr.
    apply is_Some_load_store. apply lookup_delete_Some in Hr as [_ Hr].
    by apply (Hlive h).
Qed.

Lemma tracked_rebound this rhs x1 x2 n1 n2 s :
  tracked s →
  this ≠ rhs →
  handles s !! this = Some x1 →
  handles s !! rhs = Some x2 →
  load (RefCounted.counter x1) s = Some n1 →
  load (RefCounted.counter x2) (store (RefCounted.counter x1) (wrap (n1 - 1)) s) = Some n2 →
  handles_fit (rebound this (RefCounted.counter x1) n1 x2 n2 s) →
  tracked (rebound this (RefCounted.counter x1) n1 x2 n2 s).
Proof.
  intros Ht Hne H1 H2 Hn1 Hn2 Hfit. rewrite rebound_bound_unbound in *.
  assert (handles (unbound this (RefCounted.counter x1) n1 s) = delete this (handles s))
    as Hh.
  { unfold unbound. simpl. by rewrite handles_store. }
  apply tracked_bound; try done.
  - apply tracked_unbound; try done.
    unfold handles_fit, bound in *. rewrite handles_store in Hfit.
    change (handles (set_handles ?f ?s0)) with (f (handles s0)) in Hfit.
    rewrite map_size_insert_None in Hfit; [lia|].
    rewrite Hh. apply lookup_delete_eq.
  - rewrite Hh. apply lookup_delete_eq.
Qed.

End Invariant.

Section InvariantSteps.
Context {T : Type} (moved_from : T → T) (NDEBUG : bool) (call : T → T).
Implicit Types (s : state T) (x : RefCounted.t).

Lemma nbound_unobserved s c :
  (∀ h r, handles s !! h = Some r → RefCounted.counter r ≠ c) → nbound s c = 0%nat.
Proof.
  intros Hno. unfold nbound, bound_to. apply map_size_empty_iff, map_empty_filter_2.
  intros h r Hr. simpl. by apply (Hno h).
Qed.

(** A store that differs from a tracked one in a new container only. *)
Lemma tracked_new c s s' :
  tracked s →
  load c s = None →
  load c s' = Some 0 →
  (∀ c', c' ≠ c → load c' s' = load c' s) →
  handles s' = handles s →
  tracked s'.
Proof.
  intros [Hcount Hlive] Hnone Hzero Hother Hh. split.
  - intros c' m Hm. unfold count in Hm. unfold nbound. rewrite Hh.
    destruct (decide (c' = c)) as [->|Hne].
    + rewrite Hzero in Hm. injection Hm as <-.
      fold (nbound s c). rewrite nbound_unobserved; [done|].
      intros h r Hr <-. destruct (Hlive h r Hr) as [? Hl]. unfold count in Hl. congruence.
    + rewrite Hother in Hm by done. by apply Hcount.
  - intros h r. rewrite Hh. intros Hr. destruct (Hlive h r Hr) as [m Hm].
    unfold count in *. destruct (decide (RefCounted.counter r = c)) as [Hc|Hne].
    + congruence.
    + rewrite Hother by done. by eexists.
Qed.

(** A store that differs from a tracked one in a container, unobserved, that
    is gone. *)
Lemma tracked_gone c s s' :
  tracked s →
  load c s = Some 0 →
  load c s' = None →
  (∀ c', c' ≠ c → load c' s' = load c' s) →
  handles s' = handles s →
  tracked s'.
Proof.
  intros [Hcount Hlive] Hzero Hnone Hother Hh. split.
  - intros c' m Hm. unfold count in Hm. unfold nbound. rewrite Hh.
    destruct (decide (c' = c)) as [->|Hne]; [congruence|].
    rewrite Hother in Hm by done. by apply Hcount.
  - intros h r. rewrite Hh. intros Hr. destruct (Hlive h r Hr) as [m Hm].
    unfold count in *. destruct (decide (RefCounted.counter r = c)) as [Hc|Hne].
    + pose proof (Hcount _ _ Hzero) as Hnb.
      pose proof (size_bound_to_pos c (handles s) h r Hr Hc). unfold nbound in Hnb. lia.
    + rewrite Hother by done. by eexists.
Qed.

(** A store with the counts and the handles of a tracked one. *)
Lemma tracked_same s s' :
  tracked s → (∀ c, load c s' = load c s) → handles s' = handles s → tracked s'.
Proof.
  intros [Hcount Hlive] Hl Hh. split.
  - intros c m. unfold count, nbound. rewrite Hl, Hh. apply Hcount.
  - intros h r. unfold count. rewrite Hl, Hh. apply Hlive.
Qed.

Lemma fresh_Returns {A} (m : gmap addr A) this (u : unit) :
  fresh m this = Returns u → m !! this = None.
Proof. unfold fresh. by destruct (m !! this). Qed.

Lemma tracked_new_owner this v s :
  tracked s → owners s !! this = None →
  tracked (set_owners <[this := RefCountable.mk v 0]> s).
Proof.
  intros Ht Hf. apply (tracked_new (counter_of this) s); try done.
  - simpl. by rewrite Hf.
  - simpl. by rewrite lookup_insert_eq.
  - intros [a|b] Hne; simpl; [|done]. rewrite lookup_insert_ne; [done|congruence].
Qed.

Lemma tracked_new_base this r s :
  tracked s → bases s !! this = None →
  tracked (set_bases <[this := RefCountableBase.mk r 0]> s).
Proof.
  intros Ht Hf. apply (tracked_new (base_counter_of this) s); try done.
  - simpl. by rewrite Hf.
  - simpl. by rewrite lookup_insert_eq.
  - intros [a|b] Hne; simpl; [done|]. rewrite lookup_insert_ne; [done|congruence].
Qed.

Lemma tracked_dtor dtor c s s' s_gone :
  (∀ n, load c s = Some n →
        dtor s = if decide (n ≠ 0) then Aborts (dangling_abort NDEBUG)
                 else Returns s_gone) →
  (load c s = None → dtor s = Undefined) →
  load c s_gone = None →
  (∀ c', c' ≠ c → load c' s_gone = load c' s) →
  handles s_gone = handles s →
  tracked s → dtor s = Returns s' → tracked s'.
Proof.
  intros Hspec Hundef Hnone Hother Hh Ht Hret.
  destruct (load c s) as [n|] eqn:Hn.
  - rewrite (Hspec n eq_refl) in Hret. case_decide as Hz; [done|].
    injection Hret as <-. apply (tracked_gone c s); try done.
    rewrite Hn. f_equal. lia.
  - rewrite Hundef in Hret; done.
Qed.

Lemma T_copy_assign_tracked dst src s s' :
  tracked s → T_copy_assign dst src s = Returns s' → tracked s'.
Proof.
  unfold T_copy_assign. intros Ht.
  destruct (read src s); [|done]. destruct (read dst s); [|done]. simpl.
  intros [= <-]. apply (tracked_same s); [done| |apply handles_write].
  intros c. apply load_write.
Qed.

Lemma T_move_assign_tracked dst src s s' :
  tracked s → T_move_assign moved_from dst src s = Returns s' → tracked s'.
Proof.
  unfold T_move_assign. intros Ht.
  destruct (read src s); [|done]. destruct (read dst s); [|done]. simpl.
  intros [= <-]. apply (tracked_same s); [done| |by rewrite !handles_write].
  intros c. by rewrite !load_write.
Qed.

Lemma hpp_exec_container_tracked (o : container_op T) s s' :
  tracked s → hpp_exec_container moved_from NDEBUG o s = Returns s' → tracked s'.
Proof.
  intros Ht. destruct o; simpl.
  - unfold Hpp.RefCountable_ctor. destruct (fresh _ _) eqn:Hf; [|done..].
    apply fresh_Returns in Hf. simpl. intros [= <-]. by apply tracked_new_owner.
  - unfold Hpp.RefCountable_ctor_args. destruct (fresh _ _) eqn:Hf; [|done..].
    apply fresh_Returns in Hf. simpl. intros [= <-]. by apply tracked_new_owner.
  - unfold Hpp.RefCountable_copy_ctor. destruct (fresh _ _) eqn:Hf; [|done..].
    apply fresh_Returns in Hf. simpl. destruct (owners s !! rhs); [|done]. simpl.
    intros [= <-]. by apply tracked_new_owner.
  - apply (tracked_dtor _ (counter_of this) s s' (set_owners (delete this) s)); try done.
    + intros n. apply RefCountable_dtor_spec.
    + unfold Hpp.RefCountable_dtor. by intros ->.
    + simpl. by rewrite lookup_delete_eq.
    + intros [a|b] Hne; simpl; [|done]. rewrite lookup_delete_ne; [done|congruence].
  - apply T_copy_assign_tracked, Ht.
  - apply T_move_assign_tracked, Ht.
  - apply T_copy_assign_tracked, Ht.
  - apply T_move_assign_tracked, Ht.
  - unfold Hpp.RefCountableBase_ctor. destruct (fresh _ _) eqn:Hf; [|done..].
    apply fresh_Returns in Hf. simpl. intros [= <-]. by apply tracked_new_base.
  - unfold Hpp.RefCountableBase_copy_ctor. destruct (fresh _ _) eqn:Hf; [|done..].
    apply fresh_Returns in Hf. simpl. destruct (bases s !! rhs); [|done]. simpl.
    intros [= <-]. by apply tracked_new_base.
  - unfold Hpp.RefCountableBase_move_ctor. destruct (fresh _ _) eqn:Hf; [|done..].
    apply fresh_Returns in Hf. simpl. destruct (bases s !! rhs); [|done]. simpl.
    intros [= <-]. by apply tracked_new_base.
  - apply (tracked_dtor _ (base_counter_of this) s s' (set_bases (delete this) s));
      try done.
    + intros n. apply RefCountableBase_dtor_spec.
    + unfold Hpp.RefCountableBase_dtor. by intros ->.
    + simpl. by rewrite lookup_delete_eq.
    + intros [a|b] Hne; simpl; [done|]. rewrite lookup_delete_ne; [done|congruence].
Qed.

Lemma RefCountable_move_ctor_tracked this rhs s s' :
  tracked s → Hpp.RefCountable_move_ctor moved_from this rhs s = Returns s' → tracked s'.
Proof.
  intros Ht. unfold Hpp.RefCountable_move_ctor.
  destruct (fresh _ _) eqn:Hf; [|done..]. apply fresh_Returns in Hf. simpl.
  destruct (owners s !! rhs) as [o|] eqn:Hrhs; [|done]. simpl. intros [= <-].
  apply (tracked_new (counter_of this) s); try done.
  - simpl. by rewrite Hf.
  - simpl. by rewrite lookup_insert_eq.
  - intros [c|c] Hne; simpl; [|done]. rewrite lookup_insert_ne by congruence.
    destruct (decide (rhs = c)) as [<-|].
    + by rewrite lookup_alter_eq, Hrhs.
    + by rewrite lookup_alter_ne.
Qed.

Lemma part000_assign_copy_tracked this rhs s s' :
  tracked s → Part000.RefCountable_assign_copy call this rhs s = Returns s' → tracked s'.
Proof.
  unfold Part000.RefCountable_assign_copy. intros Ht.
  destruct (read (value_of rhs) s) as [f|]; [|done].
  destruct (read (value_of this) s); [|done].
  intros [= <-]. apply (tracked_same s); [done| |done].
  intros c. apply (load_write (value_of this)).
Qed.

Lemma part000_exec_container_tracked (o : container_op T) s s' :
  tracked s → part000_exec_container moved_from NDEBUG call o s = Returns s' → tracked s'.
Proof.
  intros Ht Hret.
  assert ((∃ this rhs, o = assign_copy this rhs)
          ∨ part000_exec_container moved_from NDEBUG call o s
            = hpp_exec_container moved_from NDEBUG o s) as [(this & rhs & ->)|Heq].
  { destruct o; eauto. }
  - by apply (part000_assign_copy_tracked this rhs s).
  - rewrite Heq in Hret. by apply (hpp_exec_container_tracked o s).
Qed.

End InvariantSteps.

Section InvariantHandleSteps.
Context {T : Type}.
Implicit Types (s : state T) (x : RefCounted.t).

Lemma bind_tail_dead this x s :
  load (RefCounted.counter x) s = None →
  (c ← Hpp.counter_get this (set_handles <[this := x]> s);
   '(_, s2) ← fetch_add c 1 (set_handles <[this := x]> s);
   Returns s2) = Undefined.
Proof.
  intros Hn. unfold Hpp.counter_get. simpl. rewrite lookup_insert_eq. simpl.
  unfold fetch_add.
  change (load (RefCounted.counter x) (set_handles ?f s))
    with (load (RefCounted.counter x) s).
  by rewrite Hn.
Qed.

Lemma bind_tail_tracked this x s s' :
  tracked s →
  handles s !! this = None →
  (c ← Hpp.counter_get this (set_handles <[this := x]> s);
   '(_, s2) ← fetch_add c 1 (set_handles <[this := x]> s);
   Returns s2) = Returns s' →
  handles_fit s' →
  tracked s'.
Proof.
  intros Ht Hf. destruct (load (RefCounted.counter x) s) as [n|] eqn:Hn.
  - rewrite (bind_tail this x n s Hn). intros [= <-]. by apply tracked_bound.
  - by rewrite (bind_tail_dead this x s Hn).
Qed.

Lemma RefCounted_dtor_tracked this s s' :
  tracked s → Hpp.RefCounted_dtor this s = Returns s' → handles_fit s' → tracked s'.
Proof.
  intros Ht. destruct (handles s !! this) as [x|] eqn:Hx.
  - destruct (load (RefCounted.counter x) s) as [n|] eqn:Hn.
    + rewrite (RefCounted_dtor_spec this x n s Hx Hn). intros [= <-].
      by apply tracked_unbound.
    + unfold Hpp.RefCounted_dtor, Hpp.counter_get, fetch_sub. rewrite Hx. simpl.
      by rewrite Hn.
  - unfold Hpp.RefCounted_dtor, Hpp.counter_get. by rewrite Hx.
Qed.

Lemma RefCounted_assign_tracked this rhs s s' :
  tracked s → Hpp.RefCounted_assign this rhs s = Returns s' → handles_fit s' → tracked s'.
Proof.
  intros Ht.
  destruct (handles s !! this) as [x1|] eqn:H1;
    [|unfold Hpp.RefCounted_assign; by rewrite H1].
  destruct (handles s !! rhs) as [x2|] eqn:H2;
    [|unfold Hpp.RefCounted_assign; by rewrite H1, H2].
  destruct (decide (this = rhs)) as [->|Hne].
  - rewrite (RefCounted_assign_self rhs x1 s H1). by intros [= <-].
  - destruct (load (RefCounted.counter x1) s) as [n1|] eqn:Hn1.
    + destruct (load (RefCounted.counter x2)
                  (store (RefCounted.counter x1) (wrap (n1 - 1)) s)) as [n2|] eqn:Hn2.
      * rewrite (RefCounted_assign_spec this rhs x1 x2 n1 n2 s) by done.
        intros [= <-]. by apply (tracked_rebound this rhs).
      * destruct Ht as [_ Hlive]. destruct (Hlive rhs x2 H2) as [m Hm].
        destruct (is_Some_load_store (RefCounted.counter x1) (wrap (n1 - 1)) s
                    (RefCounted.counter x2)) as [? ?]; [by eexists|congruence].
    + unfold Hpp.RefCounted_assign, Hpp.counter_get, fetch_sub.
      rewrite H1, H2. simpl. rewrite decide_False by done. by rewrite Hn1.
Qed.

Lemma hpp_exec_handle_tracked (o : handle_op) s s' :
  counts_observers o = true →
  tracked s → hpp_exec_handle o s = Returns s' → handles_fit s' → tracked s'.
Proof.
  intros Hcounts Ht. destruct o; try discriminate Hcounts; simpl.
  - unfold Hpp.RefCounted_ctor_RefCountable.
    destruct (fresh _ _) eqn:Hf; [|done..]. apply fresh_Returns in Hf.
    by apply bind_tail_tracked.
  - unfold Hpp.RefCounted_ctor_const_RefCountable.
    destruct (fresh _ _) eqn:Hf; [|done..]. apply fresh_Returns in Hf.
    by apply bind_tail_tracked.
  - unfold Hpp.RefCounted_ctor_RefCountableBase.
    destruct (fresh _ _) eqn:Hf; [|done..]. apply fresh_Returns in Hf.
    destruct (bases s !! ref); [|done]. by apply bind_tail_tracked.
  - unfold Hpp.RefCounted_ctor_const_RefCountableBase.
    destruct (fresh _ _) eqn:Hf; [|done..]. apply fresh_Returns in Hf.
    destruct (bases s !! ref); [|done]. by apply bind_tail_tracked.
  - unfold Hpp.RefCounted_ctor_RefCounted.
    destruct (fresh _ _) eqn:Hf; [|done..]. apply fresh_Returns in Hf.
    destruct (handles s !! rhs); [|done]. by apply bind_tail_tracked.
  - unfold Hpp.RefCounted_ctor_move_RefCounted.
    destruct (fresh _ _) eqn:Hf; [|done..]. apply fresh_Returns in Hf.
    destruct (handles s !! rhs); [|done]. by apply bind_tail_tracked.
  - apply RefCounted_assign_tracked, Ht.
  - apply RefCounted_dtor_tracked, Ht.
Qed.

(** An operation adds one handle at most. *)
Lemma hpp_exec_handle_size (o : handle_op) s s' :
  hpp_exec_handle o s = Returns s' → (size (handles s') ≤ S (size (handles s)))%nat.
Proof.
  destruct (counts_observers o) eqn:Hcounts; cycle 1.
  { intros Hret. destruct (implicit_copy_Returns o s s' Hcounts Hret) as (this & x & ->).
    simpl. rewrite map_size_insert. destruct (handles s !! this); simpl; lia. }
  assert (∀ this x, handles s !! this = None →
            (c ← Hpp.counter_get this (set_handles <[this := x]> s);
             '(_, s2) ← fetch_add c 1 (set_handles <[this := x]> s);
             Returns s2) = Returns s' →
            (size (handles s') ≤ S (size (handles s)))%nat) as Htail.
  { intros this x Hf. destruct (load (RefCounted.counter x) s) as [n|] eqn:Hn.
    - rewrite (bind_tail this x n s Hn). intros [= <-]. unfold bound.
      rewrite handles_store. simpl. by rewrite map_size_insert_None.
    - by rewrite (bind_tail_dead this x s Hn). }
  destruct o; try discriminate Hcounts; simpl.
  - unfold Hpp.RefCounted_ctor_RefCountable.
    destruct (fresh _ _) eqn:Hf; [|done..]. apply fresh_Returns in Hf. by apply Htail.
  - unfold Hpp.RefCounted_ctor_const_RefCountable.
    destruct (fresh _ _) eqn:Hf; [|done..]. apply fresh_Returns in Hf. by apply Htail.
  - unfold Hpp.RefCounted_ctor_RefCountableBase.
    destruct (fresh _ _) eqn:Hf; [|done..]. apply fresh_Returns in Hf.
    destruct (bases s !! ref); [|done]. by apply Htail.
  - unfold Hpp.RefCounted_ctor_const_RefCountableBase.
    destruct (fresh _ _) eqn:Hf; [|done..]. apply fresh_Returns in Hf.
    destruct (bases s !! ref); [|done]. by apply Htail.
  - unfold Hpp.RefCounted_ctor_RefCounted.
    destruct (fresh _ _) eqn:Hf; [|done..]. apply fresh_Returns in Hf.
    destruct (handles s !! rhs); [|done]. by apply Htail.
  - unfold Hpp.RefCounted_ctor_move_RefCounted.
    destruct (fresh _ _) eqn:Hf; [|done..]. apply fresh_Returns in Hf.
    destruct (handles s !! rhs); [|done]. by apply Htail.
  - destruct (handles s !! this) as [x1|] eqn:H1;
      [|unfold Hpp.RefCounted_assign; by rewrite H1].
    destruct (handles s !! rhs) as [x2|] eqn:H2;
      [|unfold Hpp.RefCounted_assign; by rewrite H1, H2].
    destruct (decide (this = rhs)) as [->|Hne].
    { rewrite (RefCounted_assign_self rhs x1 s H1). intros [= <-]. lia. }
    destruct (load (RefCounted.counter x1) s) as [n1|] eqn:Hn1.
    + destruct (load (RefCounted.counter x2)
                  (store (RefCounted.counter x1) (wrap (n1 - 1)) s)) as [n2|] eqn:Hn2.
      * rewrite (RefCounted_assign_spec this rhs x1 x2 n1 n2 s) by done.
        intros [= <-]. unfold rebound. rewrite handles_store. simpl.
        rewrite handles_store, map_size_insert_Some by done. lia.
      * unfold Hpp.RefCounted_assign, Hpp.counter_get.
        rewrite H1, H2. simpl. rewrite decide_False by done.
        rewrite (fetch_sub_live _ _ n1) by done. simpl.
        rewrite handles_store, H2. simpl.
        rewrite !lookup_alter_eq, H1. simpl. unfold fetch_add.
        set (s3 := set_handles _ _).
        assert (load (RefCounted.counter x2) s3 = None) as ->; [|done].
        rewrite <- Hn2. by destruct (RefCounted.counter x2).
    + unfold Hpp.RefCounted_assign, Hpp.counter_get, fetch_sub.
      rewrite H1, H2. simpl. rewrite decide_False by done. by rewrite Hn1.
  - destruct (handles s !! this) as [x|] eqn:Hx.
    + destruct (load (RefCounted.counter x) s) as [n|] eqn:Hn.
      * rewrite (RefCounted_dtor_spec this x n s Hx Hn). intros [= <-].
        unfold unbound. simpl. rewrite handles_store.
        pose proof (map_size_delete this (handles s)) as Hd. rewrite Hx in Hd. lia.
      * unfold Hpp.RefCounted_dtor, Hpp.counter_get, fetch_sub. rewrite Hx. simpl.
        by rewrite Hn.
    + unfold Hpp.RefCounted_dtor, Hpp.counter_get. by rewrite Hx.
Qed.

End InvariantHandleSteps.

Section InvariantRuns.
Context {T : Type} (moved_from : T → T) (NDEBUG : bool) (call : T → T).
Implicit Types (s : state T).

Lemma T_copy_assign_handles dst src s s' :
  T_copy_assign dst src s = Returns s' → handles s' = handles s.
Proof.
  unfold T_copy_assign. destruct (read src s); [|done]. destruct (read dst s); [|done].
  simpl. intros [= <-]. apply handles_write.
Qed.

Lemma T_move_assign_handles dst src s s' :
  T_move_assign moved_from dst src s = Returns s' → handles s' = handles s.
Proof.
  unfold T_move_assign. destruct (read src s); [|done]. destruct (read dst s); [|done].
  simpl. intros [= <-]. by rewrite !handles_write.
Qed.

Lemma hpp_exec_container_handles (o : container_op T) s s' :
  hpp_exec_container moved_from NDEBUG o s = Returns s' → handles s' = handles s.
Proof.
  destruct o; simpl;
    try apply T_copy_assign_handles; try apply T_move_assign_handles.
  - unfold Hpp.RefCountable_ctor. destruct (fresh _ _); [|done..]. by intros [= <-].
  - unfold Hpp.RefCountable_ctor_args. destruct (fresh _ _); [|done..]. by intros [= <-].
  - unfold Hpp.RefCountable_copy_ctor. destruct (fresh _ _); [|done..]. simpl.
    destruct (owners s !! rhs); [|done]. by intros [= <-].
  - unfold Hpp.RefCountable_dtor. destruct (load _ s) as [n|]; [|done]. simpl.
    case_decide; [by destruct NDEBUG|]. by intros [= <-].
  - unfold Hpp.RefCountableBase_ctor. destruct (fresh _ _); [|done..]. by intros [= <-].
  - unfold Hpp.RefCountableBase_copy_ctor. destruct (fresh _ _); [|done..]. simpl.
    destruct (bases s !! rhs); [|done]. by intros [= <-].
  - unfold Hpp.RefCountableBase_move_ctor. destruct (fresh _ _); [|done..]. simpl.
    destruct (bases s !! rhs); [|done]. by intros [= <-].
  - unfold Hpp.RefCountableBase_dtor. destruct (load _ s) as [n|]; [|done]. simpl.
    case_decide; [by destruct NDEBUG|]. by intros [= <-].
Qed.

Lemma part000_exec_container_handles (o : container_op T) s s' :
  part000_exec_container moved_from NDEBUG call o s = Returns s' → handles s' = handles s.
Proof.
  intros Hret.
  assert ((∃ this rhs, o = assign_copy this rhs)
          ∨ part000_exec_container moved_from NDEBUG call o s
            = hpp_exec_container moved_from NDEBUG o s) as [(this & rhs & ->)|Heq].
  { destruct o; eauto. }
  - simpl in Hret. unfold Part000.RefCountable_assign_copy in Hret.
    destruct (read (value_of rhs) s); [|done].
    destruct (read (value_of this) s); [|done]. by injection Hret as <-.
  - rewrite Heq in Hret. by apply (hpp_exec_container_handles o).
Qed.

Lemma hpp_exec_tracked (o : op T) s s' :
  op_counts_observers o = true →
  tracked s → hpp_exec moved_from NDEBUG o s = Returns s' → handles_fit s' → tracked s'.
Proof.
  destruct o as [o|o]; simpl.
  - intros _ Ht Hret _. by apply (hpp_exec_container_tracked moved_from NDEBUG o s).
  - apply hpp_exec_handle_tracked.
Qed.

Lemma part000_exec_tracked (o : op T) s s' :
  op_counts_observers o = true →
  tracked s → part000_exec moved_from NDEBUG call o s = Returns s' → handles_fit s' →
  tracked s'.
Proof.
  destruct o as [o|o]; simpl.
  - intros _ Ht Hret _.
    by apply (part000_exec_container_tracked moved_from NDEBUG call o s).
  - rewrite part000_exec_handle_eq. apply hpp_exec_handle_tracked.
Qed.

Lemma hpp_exec_size (o : op T) s s' :
  hpp_exec moved_from NDEBUG o s = Returns s' →
  (size (handles s') ≤ S (size (handles s)))%nat.
Proof.
  destruct o as [o|o]; simpl.
  - intros Hret. rewrite (hpp_exec_container_handles o s s' Hret). lia.
  - apply hpp_exec_handle_size.
Qed.

Lemma part000_exec_size (o : op T) s s' :
  part000_exec moved_from NDEBUG call o s = Returns s' →
  (size (handles s') ≤ S (size (handles s)))%nat.
Proof.
  destruct o as [o|o]; simpl.
  - intros Hret. rewrite (part000_exec_container_handles o s s' Hret). lia.
  - rewrite part000_exec_handle_eq. apply hpp_exec_handle_size.
Qed.

Lemma run_tracked (exec : op T → state T → result (state T)) :
  (∀ o s s', op_counts_observers o = true →
             tracked s → exec o s = Returns s' → handles_fit s' → tracked s') →
  (∀ o s s', exec o s = Returns s' → (size (handles s') ≤ S (size (handles s)))%nat) →
  ∀ os s s',
    counting_program os →
    tracked s →
    Z.of_nat (size (handles s)) + Z.of_nat (length os) ≤ SIZE_MAX →
    run exec os s = Returns s' →
    tracked s'.
Proof.
  intros Hstep Hsize os. unfold counting_program.
  induction os as [|o os IH]; intros s s' Hcounts Ht Hfit; simpl.
  - by intros [= <-].
  - simpl in Hcounts. apply andb_prop in Hcounts as [Ho' Hos].
    destruct (exec o s) as [s1| |] eqn:Ho; [|done..]. simpl.
    pose proof (Hsize o s s1 Ho) as Hs1. simpl in Hfit.
    apply IH.
    + done.
    + apply (Hstep o s s1); [done..|]. unfold handles_fit. lia.
    + lia.
Qed.

End InvariantRuns.

(** X20: every operation on handles that runs a member the class writes --
    the constructors from a container, from a handle that is not const and
    from an rvalue handle, the assignment called by name, the destructor --
    of either source file takes a store in which every observer count is
    the number of live handles bound (and every handle is bound to a live
    container) to one in which that holds again, given that the handles of
    the new store fit one address space; hence the equality holds in every
    store that a sequence of such operations and of operations on
    containers reaches from the empty store. *)
Theorem count_is_number_of_bound_handles {T : Type} (moved_from : T → T)
    (NDEBUG : bool) (call : T → T) :
  (∀ (o : handle_op) (s s' : state T),
     counts_observers o = true →
     tracked s →
     hpp_exec_handle o s = Returns s' ∨ part000_exec_handle o s = Returns s' →
     handles_fit s' →
     tracked s'
     ∧ ∀ c n, count s' c = Some n → n = Z.of_nat (nbound s' c))
  ∧ (∀ (os : list (op T)) (s : state T),
     counting_program os →
     run (hpp_exec moved_from NDEBUG) os empty_state = Returns s
     ∨ run (part000_exec moved_from NDEBUG call) os empty_state = Returns s →
     Z.of_nat (length os) ≤ SIZE_MAX →
     ∀ c n, count s c = Some n → n = Z.of_nat (nbound s c)).
Proof.
  split.
  - intros o s s' Hcounts Ht Hret Hfit.
    assert (tracked s') as Ht'.
    { destruct Hret as [Hret|Hret].
      - by apply (hpp_exec_handle_tracked o s).
      - rewrite part000_exec_handle_eq in Hret. by apply (hpp_exec_handle_tracked o s). }
    split; [done|]. apply Ht'.
  - intros os s Hcounts Hret Hlen.
    assert (tracked s) as [Hcount _]; [|done].
    destruct Hret as [Hret|Hret].
    + apply (run_tracked (hpp_exec moved_from NDEBUG)) with (os := os) (s := empty_state);
        [apply hpp_exec_tracked|apply hpp_exec_size|done|apply tracked_empty| |done].
      simpl. rewrite map_size_empty. lia.
    + apply (run_tracked (part000_exec moved_from NDEBUG call))
        with (os := os) (s := empty_state);
        [apply part000_exec_tracked|apply part000_exec_size|done|apply tracked_empty| |done].
      simpl. rewrite map_size_empty. lia.
Qed.

(** ** The theorems at work on concrete stores *)

Lemma tracked_one_container : tracked one_container.
Proof. exact (tracked_new_owner 1%nat 42 empty_state tracked_empty eq_refl). Qed.

Lemma container_dtor_aborts_iff_observed_witness :
  count observed_once (counter_of 1%nat) = Some 1
  ∧ (∃ how, Hpp.RefCountable_dtor true 1%nat observed_once = Aborts how)
  ∧ count one_container (counter_of 1%nat) = Some 0
  ∧ Hpp.RefCountable_dtor true 1%nat one_container = Returns empty_state.
Proof.
  split; [reflexivity|]. split.
  - destruct (container_dtor_aborts_iff_observed true observed_once 1%nat 1) as [H _].
    destruct (H eq_refl) as [[Hiff _] _]. apply Hiff. discriminate.
  - split; [reflexivity|].
    destruct (container_dtor_aborts_iff_observed true one_container 1%nat 0) as [H _].
    destruct (H eq_refl) as [[_ Hiff] _]. apply Hiff. reflexivity.
Defined.

Lemma count_is_number_of_bound_handles_witness :
  hpp_exec_handle (bind_RefCountable 10%nat 1%nat) one_container = Returns observed_once
  ∧ tracked observed_once
  ∧ Z.of_nat (nbound observed_once (counter_of 1%nat)) = 1.
Proof.
  split; [reflexivity|].
  destruct (count_is_number_of_bound_handles (T:=Z) id true id) as [Hstep _].
  destruct (Hstep (bind_RefCountable 10%nat 1%nat) one_container observed_once
              eq_refl tracked_one_container (or_introl eq_refl)) as [Ht Hc].
  - unfold handles_fit. vm_compute. discriminate.
  - split; [exact Ht|]. symmetry. apply Hc. reflexivity.
Defined.

Lemma RefCounted_ctor_increments_count_witness :
  handles one_container !! 10%nat = None
  ∧ ∃ s', Hpp.RefCounted_ctor_RefCountable 10%nat 1%nat one_container = Returns s'
      ∧ count s' (counter_of 1%nat) = Some 1.
Proof.
  split; [reflexivity|].
  destruct (RefCounted_ctor_increments_count one_container 10%nat eq_refl) as [H _].
  destruct (H 1%nat) as [Hbind _].
  destruct (Hbind 0 eq_refl) as (s' & Hret & _ & _ & Hexact & _).
  exists s'. split; [exact Hret|]. apply Hexact. vm_compute. split; [discriminate|reflexivity].
Defined.

Lemma RefCounted_dtor_decrements_count_witness :
  handles observed_once !! 10%nat = Some (handle_on 1)
  ∧ ∃ s', Hpp.RefCounted_dtor 10%nat observed_once = Returns s'
      ∧ handles s' !! 10%nat = None
      ∧ count s' (counter_of 1%nat) = Some 0.
Proof.
  split; [reflexivity|].
  destruct (RefCounted_dtor_decrements_count observed_once 10%nat (handle_on 1) eq_refl)
    as [Hunbind _].
  destruct (Hunbind 1 eq_refl) as (s' & Hret & Hgone & _ & Hexact & _).
  exists s'. split; [exact Hret|]. split; [exact Hgone|]. apply Hexact.
  vm_compute. split; [reflexivity|discriminate].
Defined.

Lemma RefCounted_assign_moves_one_count_witness :
  ∃ s', Hpp.RefCounted_assign 10%nat 11%nat two_observed = Returns s'
    ∧ handles s' !! 10%nat = Some (handle_on 2)
    ∧ count s' (counter_of 1%nat) = Some 0
    ∧ count s' (counter_of 2%nat) = Some 2
    ∧ total_count s' = total_count two_observed.
Proof.
  destruct (RefCounted_assign_moves_one_count two_observed 10%nat 11%nat
              (handle_on 1) (handle_on 2) 1 1 eq_refl eq_refl eq_refl eq_refl)
    as (_ & Hmove & _).
  destruct Hmove as (Hret & _ & Hh & _ & _ & Hexact & _); [discriminate..|].
  destruct Hexact as (Ha & Hb & Htotal).
  - vm_compute. split; [reflexivity|discriminate].
  - vm_compute. split; [discriminate|reflexivity].
  - eexists. split; [exact Hret|]. split; [exact Hh|].
    split; [exact Ha|]. split; [exact Hb|exact Htotal].
Defined.

Lemma container_copy_starts_unobserved_witness :
  owners observed_once !! 2%nat = None
  ∧ ∃ s', Hpp.RefCountable_copy_ctor 2%nat 1%nat observed_once = Returns s'
      ∧ count s' (counter_of 2%nat) = Some 0
      ∧ count s' (counter_of 1%nat) = Some 1.
Proof.
  split; [reflexivity|].
  destruct (container_copy_starts_unobserved id observed_once 2%nat 1%nat 1) as [H _].
  destruct (H 42 eq_refl eq_refl) as [(s' & Hret & _ & Hnew & _ & Hsrc & _) _].
  exists s'. split; [exact Hret|]. split; [exact Hnew|exact Hsrc].
Defined.


Lemma RefCounted_assign_same_target_witness :
  ∃ s', Hpp.RefCounted_assign 10%nat 11%nat observed_twice = Returns s'
    ∧ Hpp.RefCounted_copy_assign 10%nat 11%nat observed_twice = Returns s'
    ∧ count s' (counter_of 1%nat) = Some 2
    ∧ RefCounted.counter <$> handles s' !! 10%nat = Some (counter_of 1%nat).
Proof.
  destruct (RefCounted_assign_same_target observed_twice 10%nat 11%nat
              (handle_on 1) (handle_on 1) 2)
    as (s' & Hret & _ & Hn & _ & Hh & Himplicit & _); try reflexivity.
  - discriminate.
  - vm_compute. split; discriminate.
  - exists s'. split; [exact Hret|]. split; [exact Himplicit|].
    split; [exact Hn|exact Hh].
Defined.

(** ** Further properties of the two files *)


(** X1: constructing an owning container on free storage, by any of the
    constructors from arguments of either file, returns; the container
    holds the constructed value with an observer count of zero, no other
    count and no handle changes, and destroying the container at once
    returns and leaves the store exactly as it was before the
    construction. *)
Theorem new_RefCountable_is_unobserved {T : Type} (NDEBUG : bool) (s : state T)
    (this : addr) (v : T) :
  owners s !! this = None →
  ∃ s1,
    Hpp.RefCountable_ctor this v s = Returns s1
    ∧ Hpp.RefCountable_ctor_args this v s = Returns s1
    ∧ Part000.RefCountable_ctor this v s = Returns s1
    ∧ read (value_of this) s1 = Some v
    ∧ count s1 (counter_of this) = Some 0
    ∧ (∀ c, c ≠ counter_of this → count s1 c = count s c)
    ∧ handles s1 = handles s
    ∧ Hpp.RefCountable_dtor NDEBUG this s1 = Returns s
    ∧ Part000.RefCountable_dtor NDEBUG this s1 = Returns s.
Proof.
  intros Hf. exists (set_owners <[this := RefCountable.mk v 0]> s).
  assert (Hpp.RefCountable_dtor NDEBUG this
            (set_owners <[this := RefCountable.mk v 0]> s) = Returns s) as Hd.
  { rewrite (RefCountable_dtor_spec NDEBUG this _ 0).
    - rewrite decide_False by lia. by rewrite set_owners_delete_insert.
    - unfold count. simpl. by rewrite lookup_insert_eq. }
  split_and!; try done.
  - unfold Hpp.RefCountable_ctor. by rewrite fresh_None.
  - unfold Hpp.RefCountable_ctor_args. by rewrite fresh_None.
  - unfold Part000.RefCountable_ctor. by rewrite fresh_None.
  - simpl. by rewrite lookup_insert_eq.
  - unfold count. simpl. by rewrite lookup_insert_eq.
  - intros [a|b] Hne; unfold count; simpl; [|done].
    rewrite lookup_insert_ne; [done|congruence].
Qed.

(** X2: constructing a reference-holding container on free storage, in
    either file, returns; the container refers to the given value with an
    observer count of zero, no value of type [T], no other count and no
    handle changes, and destroying it at once returns and leaves the store
    exactly as it was: the value referred to is not destroyed with it. *)
Theorem new_RefCountableBase_is_unobserved {T : Type} (NDEBUG : bool) (s : state T)
    (this : addr) (value : tref) :
  bases s !! this = None →
  ∃ s1,
    Hpp.RefCountableBase_ctor this value s = Returns s1
    ∧ Part000.RefCountableBase_ctor this value s = Returns s1
    ∧ bases s1 !! this = Some (RefCountableBase.mk value 0)
    ∧ count s1 (base_counter_of this) = Some 0
    ∧ (∀ r, read r s1 = read r s)
    ∧ (∀ c, c ≠ base_counter_of this → count s1 c = count s c)
    ∧ handles s1 = handles s
    ∧ Hpp.RefCountableBase_dtor NDEBUG this s1 = Returns s
    ∧ Part000.RefCountableBase_dtor NDEBUG this s1 = Returns s.
Proof.
  intros Hf. exists (set_bases <[this := RefCountableBase.mk value 0]> s).
  assert (Hpp.RefCountableBase_dtor NDEBUG this
            (set_bases <[this := RefCountableBase.mk value 0]> s) = Returns s) as Hd.
  { rewrite (RefCountableBase_dtor_spec NDEBUG this _ 0).
    - rewrite decide_False by lia. by rewrite set_bases_delete_insert.
    - unfold count. simpl. by rewrite lookup_insert_eq. }
  split_and!; try done.
  - unfold Hpp.RefCountableBase_ctor. by rewrite fresh_None.
  - unfold Part000.RefCountableBase_ctor. by rewrite fresh_None.
  - simpl. by rewrite lookup_insert_eq.
  - unfold count. simpl. by rewrite lookup_insert_eq.
  - intros [a|b] Hne; unfold count; simpl; [done|].
    rewrite lookup_insert_ne; [done|congruence].
Qed.

(** X3: each of the four assignment operators of the owning container in
    RefCountable.hpp -- from a container by copy or by move, from a [T] by
    copy or by move -- returns, leaves the value of the right-hand side in
    the container, and changes no observer count and no handle; a [T]
    assigned from by copy keeps its value, one moved from is left in its
    moved-from state. *)
Theorem hpp_assignment_keeps_observers {T : Type} (moved_from : T → T) (s : state T)
    (this : addr) (r : tref) (w : T) :
  is_Some (owners s !! this) →
  read r s = Some w →
  (∀ rhs, r = value_of rhs →
     assigns_value (Hpp.RefCountable_assign_copy this rhs) s this w
     ∧ assigns_value (Hpp.RefCountable_assign_move moved_from this rhs) s this w)
  ∧ assigns_value (Hpp.RefCountable_assign_value this r) s this w
  ∧ assigns_value (Hpp.RefCountable_assign_rvalue moved_from this r) s this w
  ∧ (r ≠ value_of this →
     (∀ s', Hpp.RefCountable_assign_value this r s = Returns s' → read r s' = Some w)
     ∧ (∀ s', Hpp.RefCountable_assign_rvalue moved_from this r s = Returns s' →
          read r s' = Some (moved_from w))).
Proof.
  intros Hthis Hr.
  destruct (hpp_assignments_replace_value moved_from s this this r w w Hthis) as [_ H2].
  destruct (H2 Hr) as [Hv Hm].
  assert (is_Some (read (value_of this) s)) as [u Hu].
  { simpl. destruct Hthis as [o ->]. by eexists. }
  split_and!; try done.
  - intros rhs ->. by split.
  - intros Hne. split; intros s'.
    + unfold Hpp.RefCountable_assign_value, T_copy_assign. rewrite Hr, Hu.
      intros [= <-]. rewrite <- Hr. apply (read_write_ne (value_of this)). congruence.
    + unfold Hpp.RefCountable_assign_rvalue, T_move_assign. rewrite Hr, Hu.
      intros [= <-].
      etrans; [apply (read_write_ne (value_of this)); congruence|].
      apply read_write_eq. by eexists.
Qed.

(** X4: in part_000 the assignments from a container by move and from a
    [T] by copy or by move leave the value of the right-hand side in the
    container; the copy assignment from a container leaves in it what
    invoking the value of the right-hand side returns, and leaves the
    right-hand side, when it is another container, as it was.  None of the
    four changes an observer count or a handle. *)
Theorem part000_assignment_keeps_observers {T : Type} (moved_from call : T → T)
    (s : state T) (this : addr) (r : tref) (w : T) :
  is_Some (owners s !! this) →
  read r s = Some w →
  (∀ rhs, r = value_of rhs →
     assigns_value (Part000.RefCountable_assign_copy call this rhs) s this (call w)
     ∧ assigns_value (Part000.RefCountable_assign_move moved_from this rhs) s this w
     ∧ (rhs ≠ this →
        ∀ s', Part000.RefCountable_assign_copy call this rhs s = Returns s' →
              read (value_of rhs) s' = Some w))
  ∧ assigns_value (Part000.RefCountable_assign_value this r) s this w
  ∧ assigns_value (Part000.RefCountable_assign_rvalue moved_from this r) s this w.
Proof.
  intros Hthis Hr.
  assert (is_Some (read (value_of this) s)) as [u Hu].
  { simpl. destruct Hthis as [o ->]. by eexists. }
  split_and!.
  - intros rhs ->.
    destruct (part000_assignments moved_from call s this rhs (value_of rhs) w w Hthis)
      as [H1 _].
    destruct (H1 Hr) as [Hc Hm]. split_and!; try done.
    intros Hne s'. unfold Part000.RefCountable_assign_copy. rewrite Hr, Hu.
    intros [= <-]. rewrite <- Hr. apply (read_write_ne (value_of this)). congruence.
  - by apply (part000_assignments moved_from call s this this r w w Hthis).
  - by apply (part000_assignments moved_from call s this this r w w Hthis).
Qed.

(** X5: a handle bound to an owning container gives, through [get()], the
    reference that the container's own [get()] gives, and after any of the
    assignments of RefCountable.hpp to the container the value read through
    the handle is the value assigned: the handle observes the container, not
    the value it held when the handle was bound. *)
Theorem handle_observes_assignment {T : Type} (moved_from : T → T) (s : state T)
    (h c : addr) (x : RefCounted.t) (r : tref) (w : T) :
  handles s !! h = Some x →
  RefCounted.value x = value_of c →
  is_Some (owners s !! c) →
  read r s = Some w →
  (∀ rhs, r = value_of rhs →
     observes_after (Hpp.RefCountable_assign_copy c rhs) s h c w
     ∧ observes_after (Hpp.RefCountable_assign_move moved_from c rhs) s h c w)
  ∧ observes_after (Hpp.RefCountable_assign_value c r) s h c w
  ∧ observes_after (Hpp.RefCountable_assign_rvalue moved_from c r) s h c w.
Proof.
  intros Hh Hx Hc Hr.
  assert (∀ f, assigns_value f s c w → observes_after f s h c w) as Hobs.
  { intros f (s' & Hret & Hread & _ & Hhs). exists s', (value_of c).
    assert (is_Some (owners s' !! c)) as [o Ho].
    { simpl in Hread. destruct (owners s' !! c); [by eexists|done]. }
    split_and!; try done.
    - unfold Hpp.RefCounted_get. by rewrite Hhs, Hh, <- Hx.
    - unfold Part000.RefCounted_get_const. by rewrite Hhs, Hh, <- Hx.
    - unfold Hpp.RefCountable_get. by rewrite Ho.
    - unfold Part000.RefCountable_get_const. by rewrite Ho. }
  destruct (hpp_assignments_replace_value moved_from s c c r w w Hc) as [_ H2].
  destruct (H2 Hr) as [Hv Hm].
  split_and!.
  - intros rhs ->. split; apply Hobs; [apply Hv|apply Hm].
  - apply Hobs, Hv.
  - apply Hobs, Hm.
Qed.

Section Frames.
Context {T : Type}.
Implicit Types (s : state T) (x : RefCounted.t).

(** What an operation on handles that returns has made of the store. *)
Lemma hpp_exec_handle_Returns (o : handle_op) s s' :
  counts_observers o = true →
  hpp_exec_handle o s = Returns s' →
  s' = s
  ∨ (∃ this x n,
       handles s !! this = None ∧ load (RefCounted.counter x) s = Some n
       ∧ s' = bound this x n s)
  ∨ (∃ this x n,
       handles s !! this = Some x ∧ load (RefCounted.counter x) s = Some n
       ∧ s' = unbound this (RefCounted.counter x) n s)
  ∨ (∃ this rhs x1 x2 n1 n2,
       this ≠ rhs ∧ handles s !! this = Some x1 ∧ handles s !! rhs = Some x2
       ∧ load (RefCounted.counter x1) s = Some n1
       ∧ load (RefCounted.counter x2)
           (store (RefCounted.counter x1) (wrap (n1 - 1)) s) = Some n2
       ∧ s' = rebound this (RefCounted.counter x1) n1 x2 n2 s).
Proof.
  assert (∀ this x, handles s !! this = None →
            (c ← Hpp.counter_get this (set_handles <[this := x]> s);
             '(_, s2) ← fetch_add c 1 (set_handles <[this := x]> s);
             Returns s2) = Returns s' →
            ∃ this x n,
              handles s !! this = None ∧ load (RefCounted.counter x) s = Some n
              ∧ s' = bound this x n s) as Htail.
  { intros this x Hf. destruct (load (RefCounted.counter x) s) as [n|] eqn:Hn.
    - rewrite (bind_tail this x n s Hn). intros [= <-]. by exists this, x, n.
    - by rewrite (bind_tail_dead this x s Hn). }
  intros Hcounts. destruct o; try discriminate Hcounts; simpl.
  - unfold Hpp.RefCounted_ctor_RefCountable.
    destruct (fresh _ _) eqn:Hf; [|done..]. apply fresh_Returns in Hf.
    intros Hret. right; left. eapply (Htail this); [exact Hf|exact Hret].
  - unfold Hpp.RefCounted_ctor_const_RefCountable.
    destruct (fresh _ _) eqn:Hf; [|done..]. apply fresh_Returns in Hf.
    intros Hret. right; left. eapply (Htail this); [exact Hf|exact Hret].
  - unfold Hpp.RefCounted_ctor_RefCountableBase.
    destruct (fresh _ _) eqn:Hf; [|done..]. apply fresh_Returns in Hf.
    destruct (bases s !! ref); [|done].
    intros Hret. right; left. eapply (Htail this); [exact Hf|exact Hret].
  - unfold Hpp.RefCounted_ctor_const_RefCountableBase.
    destruct (fresh _ _) eqn:Hf; [|done..]. apply fresh_Returns in Hf.
    destruct (bases s !! ref); [|done].
    intros Hret. right; left. eapply (Htail this); [exact Hf|exact Hret].
  - unfold Hpp.RefCounted_ctor_RefCounted.
    destruct (fresh _ _) eqn:Hf; [|done..]. apply fresh_Returns in Hf.
    destruct (handles s !! rhs); [|done].
    intros Hret. right; left. eapply (Htail this); [exact Hf|exact Hret].
  - unfold Hpp.RefCounted_ctor_move_RefCounted.
    destruct (fresh _ _) eqn:Hf; [|done..]. apply fresh_Returns in Hf.
    destruct (handles s !! rhs); [|done].
    intros Hret. right; left. eapply (Htail this); [exact Hf|exact Hret].
  - destruct (handles s !! this) as [x1|] eqn:H1;
      [|unfold Hpp.RefCounted_assign; by rewrite H1].
    destruct (handles s !! rhs) as [x2|] eqn:H2;
      [|unfold Hpp.RefCounted_assign; by rewrite H1, H2].
    destruct (decide (this = rhs)) as [->|Hne].
    { rewrite (RefCounted_assign_self rhs x1 s H1). intros [= <-]. by left. }
    destruct (load (RefCounted.counter x1) s) as [n1|] eqn:Hn1.
    + destruct (load (RefCounted.counter x2)
                  (store (RefCounted.counter x1) (wrap (n1 - 1)) s)) as [n2|] eqn:Hn2.
      * rewrite (RefCounted_assign_spec this rhs x1 x2 n1 n2 s) by done.
        intros [= <-]. do 3 right. by exists this, rhs, x1, x2, n1, n2.
      * unfold Hpp.RefCounted_assign, Hpp.counter_get.
        rewrite H1, H2. simpl. rewrite decide_False by done.
        rewrite (fetch_sub_live _ _ n1) by done. simpl.
        rewrite handles_store, H2. simpl.
        rewrite !lookup_alter_eq, H1. simpl. unfold fetch_add.
        set (s3 := set_handles _ _).
        assert (load (RefCounted.counter x2) s3 = None) as ->; [|done].
        rewrite <- Hn2. by destruct (RefCounted.counter x2).
    + unfold Hpp.RefCounted_assign, Hpp.counter_get, fetch_sub.
      rewrite H1, H2. simpl. rewrite decide_False by done. by rewrite Hn1.
  - destruct (handles s !! this) as [x|] eqn:Hx.
    + destruct (load (RefCounted.counter x) s) as [n|] eqn:Hn.
      * rewrite (RefCounted_dtor_spec this x n s Hx Hn). intros [= <-].
        right; right; left. by exists this, x, n.
      * unfold Hpp.RefCounted_dtor, Hpp.counter_get, fetch_sub. rewrite Hx. simpl.
        by rewrite Hn.
    + unfold Hpp.RefCounted_dtor, Hpp.counter_get. by rewrite Hx.
Qed.

End Frames.

Section FrameFacts.
Context {T : Type}.
Implicit Types (s : state T) (x : RefCounted.t).

Lemma same_values_refl s : same_values s s.
Proof. by split_and!. Qed.

Lemma same_values_trans s1 s2 s3 :
  same_values s1 s2 → same_values s2 s3 → same_values s1 s3.
Proof.
  intros (Hr & Ho & Hb & Hc) (Hr' & Ho' & Hb' & Hc'). split_and!.
  - intros r. by rewrite Hr.
  - by rewrite Ho.
  - intros b. by rewrite Hb.
  - intros c. by rewrite Hc.
Qed.

Lemma same_values_store c n s : same_values (store c n s) s.
Proof.
  split_and!.
  - intros r. apply read_store.
  - apply objects_store.
  - intros b. apply bases_value_store.
  - intros c'. unfold count. destruct (decide (c = c')) as [->|Hne].
    + rewrite load_store_eq. by destruct (load c' s); split; intros [? ?]; try done; eexists.
    + by rewrite load_store_ne.
Qed.

Lemma same_values_set_handles f s : same_values (set_handles f s) s.
Proof.
  by split_and!.
Qed.

Lemma same_values_bound this x n s : same_values (bound this x n s) s.
Proof.
  unfold bound. eapply same_values_trans;
    [apply same_values_store|apply same_values_set_handles].
Qed.

Lemma same_values_unbound this c n s : same_values (unbound this c n s) s.
Proof.
  unfold unbound. eapply same_values_trans;
    [apply same_values_set_handles|apply same_values_store].
Qed.

Lemma counts_kept_same s s' : (∀ c, load c s' = load c s) → counts_kept s s'.
Proof. intros Hl c n n'. unfold count. rewrite Hl. congruence. Qed.

Lemma counts_kept_new c s s' :
  load c s = None → (∀ c', c' ≠ c → load c' s' = load c' s) → counts_kept s s'.
Proof.
  intros Hnone Hother c' n n'. unfold count.
  destruct (decide (c' = c)) as [->|Hne]; [congruence|].
  rewrite Hother by done. congruence.
Qed.

Lemma counts_kept_gone c s s' :
  load c s' = None → (∀ c', c' ≠ c → load c' s' = load c' s) → counts_kept s s'.
Proof.
  intros Hnone Hother c' n n'. unfold count.
  destruct (decide (c' = c)) as [->|Hne]; [congruence|].
  rewrite Hother by done. congruence.
Qed.

Lemma T_copy_assign_counts dst src s s' :
  T_copy_assign dst src s = Returns s' → counts_kept s s'.
Proof.
  unfold T_copy_assign. destruct (read src s); [|done]. destruct (read dst s); [|done].
  simpl. intros [= <-]. apply counts_kept_same. intros c. apply load_write.
Qed.

Lemma T_move_assign_counts moved_from dst src s s' :
  T_move_assign moved_from dst src s = Returns s' → counts_kept s s'.
Proof.
  unfold T_move_assign. destruct (read src s); [|done]. destruct (read dst s); [|done].
  simpl. intros [= <-]. apply counts_kept_same. intros c. by rewrite !load_write.
Qed.

Lemma hpp_exec_container_counts moved_from NDEBUG (o : container_op T) s s' :
  hpp_exec_container moved_from NDEBUG o s = Returns s' → counts_kept s s'.
Proof.
  assert (∀ this o', owners s !! this = None →
            counts_kept s (set_owners <[this := o']> s)) as Hnew.
  { intros this o' Hf. apply (counts_kept_new (counter_of this)).
    - simpl. by rewrite Hf.
    - intros [a|b] Hne; simpl; [|done]. rewrite lookup_insert_ne; [done|congruence]. }
  assert (∀ this o', bases s !! this = None →
            counts_kept s (set_bases <[this := o']> s)) as Hnewb.
  { intros this o' Hf. apply (counts_kept_new (base_counter_of this)).
    - simpl. by rewrite Hf.
    - intros [a|b] Hne; simpl; [done|]. rewrite lookup_insert_ne; [done|congruence]. }
  destruct o; simpl;
    try apply T_copy_assign_counts; try apply T_move_assign_counts.
  - unfold Hpp.RefCountable_ctor. destruct (fresh _ _) eqn:Hf; [|done..].
    apply fresh_Returns in Hf. intros [= <-]. by apply Hnew.
  - unfold Hpp.RefCountable_ctor_args. destruct (fresh _ _) eqn:Hf; [|done..].
    apply fresh_Returns in Hf. intros [= <-]. by apply Hnew.
  - unfold Hpp.RefCountable_copy_ctor. destruct (fresh _ _) eqn:Hf; [|done..].
    apply fresh_Returns in Hf. simpl. destruct (owners s !! rhs); [|done].
    intros [= <-]. by apply Hnew.
  - unfold Hpp.RefCountable_dtor. destruct (load _ s) as [n|]; [|done]. simpl.
    case_decide; [by destruct NDEBUG|]. intros [= <-].
    apply (counts_kept_gone (counter_of this)).
    + simpl. by rewrite lookup_delete_eq.
    + intros [a|b] Hne; simpl; [|done]. rewrite lookup_delete_ne; [done|congruence].
  - unfold Hpp.RefCountableBase_ctor. destruct (fresh _ _) eqn:Hf; [|done..].
    apply fresh_Returns in Hf. intros [= <-]. by apply Hnewb.
  - unfold Hpp.RefCountableBase_copy_ctor. destruct (fresh _ _) eqn:Hf; [|done..].
    apply fresh_Returns in Hf. simpl. destruct (bases s !! rhs); [|done].
    intros [= <-]. by apply Hnewb.
  - unfold Hpp.RefCountableBase_move_ctor. destruct (fresh _ _) eqn:Hf; [|done..].
    apply fresh_Returns in Hf. simpl. destruct (bases s !! rhs); [|done].
    intros [= <-]. by apply Hnewb.
  - unfold Hpp.RefCountableBase_dtor. destruct (load _ s) as [n|]; [|done]. simpl.
    case_decide; [by destruct NDEBUG|]. intros [= <-].
    apply (counts_kept_gone (base_counter_of this)).
    + simpl. by rewrite lookup_delete_eq.
    + intros [a|b] Hne; simpl; [done|]. rewrite lookup_delete_ne; [done|congruence].
Qed.

End FrameFacts.

(** X6: no operation on handles -- none of the constructors, nor the
    assignment, nor the destructor, in either file, the copy constructor and
    the copy assignment that the language declares included -- changes a
    value of type [T], the value a reference-holding container refers to,
    or which containers are alive: handles touch observer counts and their
    own two references only. *)
Theorem handle_ops_leave_values {T : Type} (o : handle_op) (s s' : state T) :
  hpp_exec_handle o s = Returns s' ∨ part000_exec_handle o s = Returns s' →
  same_values s' s.
Proof.
  intros Hret.
  assert (hpp_exec_handle o s = Returns s') as Hhpp.
  { destruct Hret as [?|Hret]; [done|]. by rewrite part000_exec_handle_eq in Hret. }
  destruct (counts_observers o) eqn:Hcounts; cycle 1.
  { destruct (implicit_copy_Returns o s s' Hcounts Hhpp) as (this & x & ->).
    apply same_values_set_handles. }
  destruct (hpp_exec_handle_Returns o s s' Hcounts Hhpp)
    as [->|[(this & x & n & _ & _ & ->)|[(this & x & n & _ & _ & ->)|
        (this & rhs & x1 & x2 & n1 & n2 & _ & _ & _ & _ & _ & ->)]]].
  - apply same_values_refl.
  - apply same_values_bound.
  - apply same_values_unbound.
  - rewrite rebound_bound_unbound. eapply same_values_trans;
      [apply same_values_bound|apply same_values_unbound].
Qed.

(** X7: no operation on containers -- construction, copy and move
    construction, the four assignments, destruction, of either kind of
    container and in either file -- binds, rebinds or ends a handle, and
    none changes the observer count of a container that is alive before and
    after it: counts are changed by handles only. *)
Theorem container_ops_leave_observers {T : Type} (moved_from : T → T) (NDEBUG : bool)
    (call : T → T) (s s' : state T) :
  (∀ o, hpp_exec_container moved_from NDEBUG o s = Returns s'
        ∨ part000_exec_container moved_from NDEBUG call o s = Returns s' →
        handles s' = handles s ∧ counts_kept s s')
  ∧ (∀ this rhs, Hpp.RefCountable_move_ctor moved_from this rhs s = Returns s' →
        handles s' = handles s ∧ counts_kept s s').
Proof.
  split.
  - intros o [Hret|Hret].
    + split; [by apply (hpp_exec_container_handles moved_from NDEBUG o)|].
      by apply (hpp_exec_container_counts moved_from NDEBUG o).
    + split; [by apply (part000_exec_container_handles moved_from NDEBUG call o)|].
      assert ((∃ this rhs, o = assign_copy this rhs)
              ∨ part000_exec_container moved_from NDEBUG call o s
                = hpp_exec_container moved_from NDEBUG o s) as [(this & rhs & ->)|Heq].
      { destruct o; eauto. }
      * simpl in Hret. unfold Part000.RefCountable_assign_copy in Hret.
        destruct (read (value_of rhs) s); [|done].
        destruct (read (value_of this) s); [|done]. injection Hret as <-.
        apply counts_kept_same. intros c. apply (load_write (value_of this)).
      * rewrite Heq in Hret. by apply (hpp_exec_container_counts moved_from NDEBUG o).
  - intros this rhs. unfold Hpp.RefCountable_move_ctor.
    destruct (fresh _ _) eqn:Hf; [|done..]. apply fresh_Returns in Hf. simpl.
    destruct (owners s !! rhs) as [o|] eqn:Hrhs; [|done]. simpl. intros [= <-].
    split; [done|]. apply (counts_kept_new (counter_of this)).
    + simpl. by rewrite Hf.
    + intros [c|c] Hne; simpl; [|done]. rewrite lookup_insert_ne by congruence.
      destruct (decide (rhs = c)) as [<-|].
      * by rewrite lookup_alter_eq, Hrhs.
      * by rewrite lookup_alter_ne.
Qed.

Section Detection.
Context {T : Type}.
Implicit Types (s : state T).

Lemma nbound_pos_iff s c : nbound s c ≠ 0%nat ↔ observed s c.
Proof.
  unfold nbound, bound_to, observed. rewrite map_size_ne_0_lookup. split.
  - intros (h & x & Hx). apply map_lookup_filter_Some in Hx as [Hx Hc]. by exists h, x.
  - intros (h & x & Hx & Hc). exists h, x. by apply map_lookup_filter_Some.
Qed.

Lemma count_pos_iff s c n :
  tracked s → count s c = Some n → n ≠ 0 ↔ observed s c.
Proof.
  intros [Hcount _] Hn. rewrite <- nbound_pos_iff. rewrite (Hcount c n Hn). lia.
Qed.

Lemma dtor_detects (dtor : state T → result (state T)) NDEBUG s s_gone c n :
  tracked s →
  count s c = Some n →
  dtor s = (if decide (n ≠ 0) then Aborts (dangling_abort NDEBUG) else Returns s_gone) →
  ((∃ how, dtor s = Aborts how) ↔ observed s c)
  ∧ (dtor s = Returns s_gone ↔ ¬ observed s c).
Proof.
  intros Ht Hn ->. rewrite <- (count_pos_iff s c n Ht Hn).
  case_decide as Hz; split; split; try done.
  - eauto.
  - intros [? [=]].
  - intros _. lia.
Qed.

End Detection.

(** X8: in a store where every count is the number of bound handles, the
    destructor of a container -- owning or reference-holding, in either
    file -- aborts the process exactly when some live handle is bound to
    that container, and returns, removing the container only, exactly when
    none is: a dangling handle never goes unnoticed, and a container without
    observers is never refused. *)
Theorem dtor_aborts_iff_handle_bound {T : Type} (NDEBUG : bool) (s : state T)
    (this : addr) :
  tracked s →
  (is_Some (owners s !! this) →
     ((∃ how, Hpp.RefCountable_dtor NDEBUG this s = Aborts how)
      ↔ observed s (counter_of this))
     ∧ ((∃ how, Part000.RefCountable_dtor NDEBUG this s = Aborts how)
        ↔ observed s (counter_of this))
     ∧ (Hpp.RefCountable_dtor NDEBUG this s = Returns (set_owners (delete this) s)
        ↔ ¬ observed s (counter_of this))
     ∧ (Part000.RefCountable_dtor NDEBUG this s = Returns (set_owners (delete this) s)
        ↔ ¬ observed s (counter_of this)))
  ∧ (is_Some (bases s !! this) →
     ((∃ how, Hpp.RefCountableBase_dtor NDEBUG this s = Aborts how)
      ↔ observed s (base_counter_of this))
     ∧ ((∃ how, Part000.RefCountableBase_dtor NDEBUG this s = Aborts how)
        ↔ observed s (base_counter_of this))
     ∧ (Hpp.RefCountableBase_dtor NDEBUG this s = Returns (set_bases (delete this) s)
        ↔ ¬ observed s (base_counter_of this))
     ∧ (Part000.RefCountableBase_dtor NDEBUG this s = Returns (set_bases (delete this) s)
        ↔ ¬ observed s (base_counter_of this))).
Proof.
  intros Ht. split; intros [o Ho].
  - assert (count s (counter_of this) = Some (RefCountable.counter o)) as Hn.
    { unfold count. simpl. by rewrite Ho. }
    destruct (dtor_detects (Hpp.RefCountable_dtor NDEBUG this) NDEBUG s
                (set_owners (delete this) s) _ _ Ht Hn
                (RefCountable_dtor_spec NDEBUG this s _ Hn)) as [Ha Hr].
    by split_and!.
  - assert (count s (base_counter_of this) = Some (RefCountableBase.counter o)) as Hn.
    { unfold count. simpl. by rewrite Ho. }
    destruct (dtor_detects (Hpp.RefCountableBase_dtor NDEBUG this) NDEBUG s
                (set_bases (delete this) s) _ _ Ht Hn
                (RefCountableBase_dtor_spec NDEBUG this s _ Hn)) as [Ha Hr].
    by split_and!.
Qed.

(** X9: in every store that a sequence of operations on containers and
    handles reaches from the empty store -- fewer than 2^64 operations, with
    either file, none of them a copy from a const handle or an assignment
    [h1 = h2], the two operations that run a member the class does not
    write -- every live handle is bound to a container that is alive and
    whose observer count is above zero, and no observer count exceeds the
    number of live handles. *)
Theorem no_handle_outlives_its_container {T : Type} (moved_from : T → T)
    (NDEBUG : bool) (call : T → T) (os : list (op T)) (s : state T) :
  counting_program os →
  run (hpp_exec moved_from NDEBUG) os empty_state = Returns s
  ∨ run (part000_exec moved_from NDEBUG call) os empty_state = Returns s →
  Z.of_nat (length os) ≤ SIZE_MAX →
  (∀ h x, handles s !! h = Some x →
     ∃ n, count s (RefCounted.counter x) = Some n ∧ 0 < n)
  ∧ (∀ c n, count s c = Some n → 0 ≤ n ≤ Z.of_nat (size (handles s))).
Proof.
  intros Hcounts Hret Hlen.
  assert (tracked s) as Ht.
  { destruct Hret as [Hret|Hret].
    - apply (run_tracked (hpp_exec moved_from NDEBUG)) with (os := os) (s := empty_state);
        [apply hpp_exec_tracked|apply hpp_exec_size|done|apply tracked_empty| |done].
      simpl. rewrite map_size_empty. lia.
    - apply (run_tracked (part000_exec moved_from NDEBUG call))
        with (os := os) (s := empty_state);
        [apply part000_exec_tracked|apply part000_exec_size|done|apply tracked_empty| |done].
      simpl. rewrite map_size_empty. lia. }
  destruct Ht as [Hcount Hlive]. split.
  - intros h x Hx. destruct (Hlive h x Hx) as [n Hn]. exists n. split; [done|].
    pose proof (Hcount _ _ Hn) as Hnb.
    pose proof (size_bound_to_pos (RefCounted.counter x) (handles s) h x Hx eq_refl).
    unfold nbound in Hnb. lia.
  - intros c n Hn. pose proof (Hcount _ _ Hn) as Hnb.
    pose proof (size_bound_to_le c (handles s)). unfold nbound in Hnb. lia.
Qed.

Section Programs.
Context {T : Type} (moved_from : T → T) (NDEBUG : bool) (call : T → T).
Implicit Types (s : state T).

Lemma run_app (exec : op T → state T → result (state T)) os1 os2 s :
  run exec (os1 ++ os2) s = (s1 ← run exec os1 s; run exec os2 s1).
Proof.
  revert s. induction os1 as [|o os1 IH]; intros s; simpl; [done|].
  destruct (exec o s); simpl; auto.
Qed.

(** The two files run a program without a copy assignment of containers
    alike. *)
Lemma run_agree (os : list (op T)) s :
  forallb (λ o, negb (is_copy_assignment o)) os = true →
  run (part000_exec moved_from NDEBUG call) os s = run (hpp_exec moved_from NDEBUG) os s.
Proof.
  revert s. induction os as [|o os IH]; intros s; simpl; [done|].
  intros [Ho Hos]%andb_prop.
  rewrite (part000_exec_eq moved_from NDEBUG call o s).
  - destruct (hpp_exec moved_from NDEBUG o s); simpl; auto.
  - intros this rhs ->. done.
Qed.

Lemma bind_all_no_copy hs ref :
  forallb (λ o : op T, negb (is_copy_assignment o)) (bind_all hs ref) = true.
Proof. induction hs; simpl; auto. Qed.

Lemma nested_handles_no_copy hs ref :
  forallb (λ o : op T, negb (is_copy_assignment o)) (nested_handles hs ref) = true.
Proof.
  induction hs as [|h hs IH]; simpl; [done|].
  rewrite forallb_app, IH. done.
Qed.

Lemma wrap_wrap_add n k : wrap (wrap (n + 1) + k) = wrap (n + (1 + k)).
Proof.
  unfold wrap. rewrite Zplus_mod_idemp_l. f_equal. lia.
Qed.

Lemma run_bind_all hs ref s n :
  NoDup hs →
  (∀ h, h ∈ hs → handles s !! h = None) →
  load (counter_of ref) s = Some n →
  0 ≤ n ≤ SIZE_MAX →
  ∃ s', run (hpp_exec moved_from NDEBUG) (bind_all hs ref) s = Returns s'
    ∧ load (counter_of ref) s' = Some (wrap (n + Z.of_nat (length hs)))
    ∧ (∀ h, h ∈ hs → handles s' !! h = Some (handle_on ref))
    ∧ (∀ h, h ∉ hs → handles s' !! h = handles s !! h)
    ∧ (∀ c, c ≠ counter_of ref → load c s' = load c s).
Proof.
  intros Hnd. revert s n. induction Hnd as [|h hs Hh Hnd IH]; intros s n Hfresh Hn Hr.
  - exists s. split_and!; try done.
    + rewrite Hn. f_equal. simpl. rewrite Z.add_0_r. symmetry. by apply wrap_id.
    + intros h Hh. by apply not_elem_of_nil in Hh.
  - assert (handles s !! h = None) as Hf by (apply Hfresh; left).
    pose proof (RefCounted_ctor_RefCountable_spec h ref n s Hf Hn) as Hctor.
    fold (handle_on ref) in Hctor.
    destruct (IH (bound h (handle_on ref) n s) (wrap (n + 1)))
      as (s' & Hrun & Hc & Hin & Hout & Hoth).
    + intros h' Hh'. rewrite handles_bound_lookup.
      rewrite decide_False by (intros ->; done). apply Hfresh. by right.
    + by apply (load_bound h (handle_on ref)).
    + apply wrap_range.
    + exists s'. split_and!.
      * simpl. rewrite Hctor. simpl. exact Hrun.
      * rewrite Hc. f_equal. rewrite wrap_wrap_add. f_equal. simpl length. lia.
      * intros h' [->|Hh']%elem_of_cons.
        -- rewrite (Hout h Hh), handles_bound_lookup. by rewrite decide_True.
        -- by apply Hin.
      * intros h' Hh'%not_elem_of_cons. destruct Hh' as [Hne Hh'].
        rewrite (Hout h' Hh'), handles_bound_lookup. by rewrite decide_False.
      * intros c Hne. rewrite (Hoth c Hne). unfold bound.
        rewrite load_store_ne by (simpl; congruence). by destruct c.
Qed.

Lemma run_nested_handles hs ref s n :
  NoDup hs →
  (∀ h, h ∈ hs → handles s !! h = None) →
  load (counter_of ref) s = Some n →
  0 ≤ n ≤ SIZE_MAX →
  run (hpp_exec moved_from NDEBUG) (nested_handles hs ref) s = Returns s.
Proof.
  intros Hnd. revert s n. induction Hnd as [|h hs Hh Hnd IH]; intros s n Hfresh Hn Hr.
  - done.
  - assert (handles s !! h = None) as Hf by (apply Hfresh; left).
    pose proof (RefCounted_ctor_RefCountable_spec h ref n s Hf Hn) as Hctor.
    fold (handle_on ref) in Hctor.
    simpl. rewrite Hctor. simpl. rewrite run_app.
    rewrite (IH (bound h (handle_on ref) n s) (wrap (n + 1))).
    + simpl.
      rewrite (RefCounted_dtor_spec h (handle_on ref) (wrap (n + 1))).
      * simpl. f_equal. by apply (unbound_bound h (handle_on ref)).
      * rewrite handles_bound_lookup. by rewrite decide_True.
      * by apply (load_bound h (handle_on ref)).
    + intros h' Hh'. rewrite handles_bound_lookup.
      rewrite decide_False by (intros ->; done). apply Hfresh. by right.
    + by apply (load_bound h (handle_on ref)).
    + apply wrap_range.
Qed.

End Programs.

(** X10: binding [k] handles at distinct free addresses to one owning
    container, one after the other, returns and takes the observer count of
    the container from [n] to [n + k] in the arithmetic of [size_t], which
    is [n + k] itself when that does not exceed [SIZE_MAX]; every one of the
    handles is bound to the container, and no other handle and no other
    count changes.  Both files agree. *)
Theorem binding_handles_adds_up {T : Type} (moved_from : T → T) (NDEBUG : bool)
    (call : T → T) (hs : list addr) (ref : addr) (s : state T) (n : Z) :
  NoDup hs →
  (∀ h, h ∈ hs → handles s !! h = None) →
  count s (counter_of ref) = Some n →
  0 ≤ n ≤ SIZE_MAX →
  ∃ s', run (hpp_exec moved_from NDEBUG) (bind_all hs ref) s = Returns s'
    ∧ run (part000_exec moved_from NDEBUG call) (bind_all hs ref) s = Returns s'
    ∧ count s' (counter_of ref) = Some (wrap (n + Z.of_nat (length hs)))
    ∧ (n + Z.of_nat (length hs) ≤ SIZE_MAX →
       count s' (counter_of ref) = Some (n + Z.of_nat (length hs)))
    ∧ (∀ h, h ∈ hs → handles s' !! h = Some (handle_on ref))
    ∧ (∀ h, h ∉ hs → handles s' !! h = handles s !! h)
    ∧ (∀ c, c ≠ counter_of ref → count s' c = count s c).
Proof.
  intros Hnd Hfresh Hn Hr.
  destruct (run_bind_all moved_from NDEBUG hs ref s n Hnd Hfresh Hn Hr)
    as (s' & Hrun & Hc & Hin & Hout & Hoth).
  exists s'. split_and!; try done.
  - rewrite run_agree; [done|apply bind_all_no_copy].
  - intros Hle. unfold count. rewrite Hc. f_equal. apply wrap_id. lia.
Qed.

(** X11: handles with nested lifetimes on one owning container -- each
    bound after, and destroyed before, the one around it, as the objects of
    nested scopes are -- leave the store exactly as it was, whatever their
    number and whatever the observer count of the container was before:
    the program returns the store it started from.  Both files agree. *)
Theorem nested_handles_restore_store {T : Type} (moved_from : T → T) (NDEBUG : bool)
    (call : T → T) (hs : list addr) (ref : addr) (s : state T) (n : Z) :
  NoDup hs →
  (∀ h, h ∈ hs → handles s !! h = None) →
  count s (counter_of ref) = Some n →
  0 ≤ n ≤ SIZE_MAX →
  run (hpp_exec moved_from NDEBUG) (nested_handles hs ref) s = Returns s
  ∧ run (part000_exec moved_from NDEBUG call) (nested_handles hs ref) s = Returns s.
Proof.
  intros Hnd Hfresh Hn Hr.
  pose proof (run_nested_handles moved_from NDEBUG hs ref s n Hnd Hfresh Hn Hr) as Hrun.
  split; [done|]. rewrite run_agree; [done|apply nested_handles_no_copy].
Qed.

(** X12: the two files run every program that holds no copy assignment of
    one container to another to the same outcome -- the same store, the same
    abort, or the same undefined behaviour -- from every store and for
    every value type; and for a value type whose call operator returns the
    value it is called on, they run every program alike. *)
Theorem sources_agree_but_for_copy_assignment {T : Type} (moved_from : T → T)
    (NDEBUG : bool) (call : T → T) (os : list (op T)) (s : state T) :
  (forallb (λ o, negb (is_copy_assignment o)) os = true →
     run (part000_exec moved_from NDEBUG call) os s
     = run (hpp_exec moved_from NDEBUG) os s)
  ∧ ((∀ v, call v = v) →
     run (part000_exec moved_from NDEBUG call) os s
     = run (hpp_exec moved_from NDEBUG) os s).
Proof.
  split.
  - apply run_agree.
  - apply run_eq_of_call_id.
Qed.

Section Rebinding.
Context {T : Type}.
Implicit Types (s : state T) (x : RefCounted.t).

(** Two stores that hold the same values, counts, references and handles are
    the same store. *)
Lemma state_ext s' s :
  (∀ r, read r s' = read r s) →
  (∀ b, RefCountableBase.value <$> bases s' !! b = RefCountableBase.value <$> bases s !! b) →
  (∀ c, load c s' = load c s) →
  handles s' = handles s →
  s' = s.
Proof.
  destruct s' as [os' bs' ts' hs'], s as [os bs ts hs]. simpl.
  intros Hread Hb Hload ->. f_equal.
  - apply map_eq. intros a.
    pose proof (Hread (value_of a)) as Hv. pose proof (Hload (counter_of a)) as Hc.
    simpl in Hv, Hc. destruct (os' !! a) as [[v' n']|], (os !! a) as [[v n]|];
      simpl in *; congruence.
  - apply map_eq. intros b.
    pose proof (Hb b) as Hv. pose proof (Hload (base_counter_of b)) as Hc.
    simpl in Hv, Hc. destruct (bs' !! b) as [[v' n']|], (bs !! b) as [[v n]|];
      simpl in *; congruence.
  - apply map_eq. intros o. apply (Hread (object_at o)).
Qed.

(** The assignment of a handle, by what it leaves in the counters. *)
Lemma RefCounted_assign_loads this rhs x1 x2 a b s :
  this ≠ rhs →
  handles s !! this = Some x1 →
  handles s !! rhs = Some x2 →
  load (RefCounted.counter x1) s = Some a →
  load (RefCounted.counter x2) s = Some b →
  ∃ s', Hpp.RefCounted_assign this rhs s = Returns s'
    ∧ handles s' = <[this := x2]> (handles s)
    ∧ same_values s' s
    ∧ (RefCounted.counter x1 ≠ RefCounted.counter x2 →
       load (RefCounted.counter x1) s' = Some (wrap (a - 1))
       ∧ load (RefCounted.counter x2) s' = Some (wrap (b + 1)))
    ∧ (RefCounted.counter x1 = RefCounted.counter x2 →
       load (RefCounted.counter x1) s' = Some (wrap (wrap (a - 1) + 1)))
    ∧ (∀ c, c ≠ RefCounted.counter x1 → c ≠ RefCounted.counter x2 →
       load c s' = load c s).
Proof.
  intros Hne H1 H2 Ha Hb.
  set (b' := if decide (RefCounted.counter x1 = RefCounted.counter x2)
             then wrap (a - 1) else b).
  assert (load (RefCounted.counter x2)
            (store (RefCounted.counter x1) (wrap (a - 1)) s) = Some b') as Hb'.
  { unfold b'. case_decide as Hc.
    - rewrite <- Hc. by rewrite load_store_eq, Ha.
    - by rewrite load_store_ne. }
  exists (rebound this (RefCounted.counter x1) a x2 b' s). split_and!.
  - by apply (RefCounted_assign_spec this rhs x1 x2).
  - unfold rebound. by rewrite handles_store; simpl; rewrite handles_store.
  - rewrite rebound_bound_unbound. eapply same_values_trans;
      [apply same_values_bound|apply same_values_unbound].
  - intros Hc. split.
    + apply (count_rebound_old this); [done|by eexists].
    + pose proof (count_rebound_new this (RefCounted.counter x1) a x2 b' s) as Hn.
      unfold count in Hn. rewrite Hn by (by eexists).
      unfold b'. by rewrite decide_False.
  - intros Hc.
    pose proof (count_rebound_new this (RefCounted.counter x1) a x2 b' s) as Hn.
    unfold count in Hn. rewrite <- Hc in Hn. rewrite Hn by (by eexists).
    unfold b'. by rewrite decide_True.
  - intros c Hc1 Hc2. by apply (count_rebound_other this).
Qed.

End Rebinding.

(** X13: rebinding a handle and binding it back restores the store: after
    [this = rhs; this = back;], where [back] is a handle bound as [this]
    was, every observer count, every handle and every value is as before
    the two assignments -- the second assignment returns the very store the
    first one started from.  This holds of the assignment operator that the
    class writes, called by name, and of the copy assignment that
    [this = rhs] runs.  Both files agree. *)
Theorem rebinding_back_restores_store {T : Type} (s : state T) (this rhs back : addr)
    (x1 x2 : RefCounted.t) (a b : Z) :
  this ≠ rhs → this ≠ back →
  handles s !! this = Some x1 →
  handles s !! rhs = Some x2 →
  handles s !! back = Some x1 →
  count s (RefCounted.counter x1) = Some a →
  count s (RefCounted.counter x2) = Some b →
  0 ≤ a ≤ SIZE_MAX → 0 ≤ b ≤ SIZE_MAX →
  (∃ s1,
     Hpp.RefCounted_assign this rhs s = Returns s1
     ∧ Hpp.RefCounted_assign this back s1 = Returns s
     ∧ Part000.RefCounted_assign this rhs s = Returns s1
     ∧ Part000.RefCounted_assign this back s1 = Returns s)
  ∧ (∃ s1,
     Hpp.RefCounted_copy_assign this rhs s = Returns s1
     ∧ Hpp.RefCounted_copy_assign this back s1 = Returns s
     ∧ Part000.RefCounted_copy_assign this rhs s = Returns s1
     ∧ Part000.RefCounted_copy_assign this back s1 = Returns s).
Proof.
  intros Hne Hneb H1 H2 Hback Ha Hb Hra Hrb. unfold count in Ha, Hb.
  split; cycle 1.
  { exists (set_handles <[this := x2]> s).
    assert (Hpp.RefCounted_copy_assign this back (set_handles <[this := x2]> s)
            = Returns s) as Hback2.
    { rewrite (RefCounted_copy_assign_spec this back x2 x1).
      - f_equal. destruct s as [os bs ts hs]. unfold set_handles. simpl in *. f_equal.
        rewrite insert_insert_eq. by apply insert_id.
      - simpl. apply lookup_insert_eq.
      - simpl. by rewrite lookup_insert_ne. }
    pose proof (RefCounted_copy_assign_spec this rhs x1 x2 s H1 H2) as Hfirst.
    by split_and!. }
  destruct (RefCounted_assign_loads this rhs x1 x2 a b s Hne H1 H2 Ha Hb)
    as (s1 & Hret1 & Hh1 & Hv1 & Hdiff1 & Hsame1 & Hoth1).
  assert (handles s1 !! this = Some x2) as H1'.
  { rewrite Hh1. apply lookup_insert_eq. }
  assert (handles s1 !! back = Some x1) as Hback'.
  { rewrite Hh1. by rewrite lookup_insert_ne. }
  assert (Hpp.RefCounted_assign this back s1 = Returns s) as Hret2.
  { destruct (decide (RefCounted.counter x1 = RefCounted.counter x2)) as [Hc|Hc].
    - pose proof (Hsame1 Hc) as Hl. rewrite wrap_sub_add in Hl by done.
      assert (load (RefCounted.counter x2) s1 = Some a) as Hl2 by (by rewrite <- Hc).
      destruct (RefCounted_assign_loads this back x2 x1 a a s1 Hneb H1' Hback' Hl2 Hl)
        as (s2 & Hret2 & Hh2 & Hv2 & _ & Hsame2 & Hoth2).
      rewrite Hret2. f_equal.
      destruct Hv1 as (Hr1 & _ & Hb1 & _), Hv2 as (Hr2 & _ & Hb2 & _).
      apply state_ext.
      + intros r. by rewrite Hr2.
      + intros c. by rewrite Hb2.
      + intros c. destruct (decide (c = RefCounted.counter x2)) as [->|Hn2].
        * rewrite (Hsame2 (eq_sym Hc)), wrap_sub_add by done. by rewrite <- Hc.
        * rewrite Hoth2, Hoth1 by congruence. done.
      + rewrite Hh2, Hh1, insert_insert_eq. by apply insert_id.
    - destruct (Hdiff1 Hc) as [Hl1 Hl2].
      destruct (RefCounted_assign_loads this back x2 x1 (wrap (b + 1)) (wrap (a - 1)) s1
                  Hneb H1' Hback' Hl2 Hl1)
        as (s2 & Hret2 & Hh2 & Hv2 & Hdiff2 & _ & Hoth2).
      rewrite Hret2. f_equal.
      destruct Hv1 as (Hr1 & _ & Hb1 & _), Hv2 as (Hr2 & _ & Hb2 & _).
      destruct Hdiff2 as [Hl2' Hl1']; [congruence|].
      apply state_ext.
      + intros r. by rewrite Hr2.
      + intros c. by rewrite Hb2.
      + intros c. destruct (decide (c = RefCounted.counter x2)) as [->|Hn2].
        * by rewrite Hl2', wrap_add_sub.
        * destruct (decide (c = RefCounted.counter x1)) as [->|Hn1].
          -- by rewrite Hl1', wrap_sub_add.
          -- by rewrite Hoth2, Hoth1.
      + rewrite Hh2, Hh1, insert_insert_eq. by apply insert_id. }
  exists s1. by split_and!.
Qed.

(** X14: the arithmetic on the observer count is unchecked.  Destroying a
    handle bound to a container whose count is zero returns and leaves the
    count at [SIZE_MAX], after which the destructor of the container aborts;
    binding a handle to a container whose count is [SIZE_MAX] returns and
    leaves the count at zero, after which the destructor of the container
    returns although the handle is bound to it.  Both files agree. *)
Theorem counter_arithmetic_is_unchecked {T : Type} (NDEBUG : bool) (s : state T)
    (h c : addr) :
  (∀ x, handles s !! h = Some x → RefCounted.counter x = counter_of c →
     count s (counter_of c) = Some 0 →
     ∃ s', Hpp.RefCounted_dtor h s = Returns s'
       ∧ Part000.RefCounted_dtor h s = Returns s'
       ∧ count s' (counter_of c) = Some SIZE_MAX
       ∧ (∃ how, Hpp.RefCountable_dtor NDEBUG c s' = Aborts how)
       ∧ (∃ how, Part000.RefCountable_dtor NDEBUG c s' = Aborts how))
  ∧ (handles s !! h = None → count s (counter_of c) = Some SIZE_MAX →
     ∃ s', Hpp.RefCounted_ctor_RefCountable h c s = Returns s'
       ∧ Part000.RefCounted_ctor_RefCountable h c s = Returns s'
       ∧ count s' (counter_of c) = Some 0
       ∧ handles s' !! h = Some (handle_on c)
       ∧ Hpp.RefCountable_dtor NDEBUG c s' = Returns (set_owners (delete c) s')
       ∧ Part000.RefCountable_dtor NDEBUG c s' = Returns (set_owners (delete c) s')).
Proof.
  split.
  - intros x Hx Hc Hn. unfold count in Hn. rewrite <- Hc in Hn.
    pose proof (RefCounted_dtor_spec h x 0 s Hx Hn) as Hd.
    assert (count (unbound h (RefCounted.counter x) 0 s) (counter_of c) = Some SIZE_MAX)
      as Hn'.
    { unfold count. rewrite <- Hc, load_unbound, load_store_eq, Hn. done. }
    assert (Hpp.RefCountable_dtor NDEBUG c (unbound h (RefCounted.counter x) 0 s)
            = Aborts (dangling_abort NDEBUG)) as Ha.
    { rewrite (RefCountable_dtor_spec NDEBUG c _ SIZE_MAX Hn').
      by rewrite decide_True. }
    eexists. split_and!; [exact Hd|exact Hd|exact Hn'|eauto|eauto].
  - intros Hf Hn. unfold count in Hn.
    pose proof (RefCounted_ctor_RefCountable_spec h c SIZE_MAX s Hf Hn) as Hb.
    fold (handle_on c) in Hb.
    assert (count (bound h (handle_on c) SIZE_MAX s) (counter_of c) = Some 0) as Hn'.
    { unfold count. etrans; [exact (load_bound h (handle_on c) SIZE_MAX s Hn)|done]. }
    assert (Hpp.RefCountable_dtor NDEBUG c (bound h (handle_on c) SIZE_MAX s)
            = Returns (set_owners (delete c) (bound h (handle_on c) SIZE_MAX s))) as Hd.
    { rewrite (RefCountable_dtor_spec NDEBUG c _ 0 Hn'). rewrite decide_False; [done|lia]. }
    eexists. split_and!; [exact Hb|exact Hb|exact Hn'| |exact Hd|exact Hd].
    rewrite handles_bound_lookup. by rewrite decide_True.
Qed.

Section Accounting.
Context {T : Type} (moved_from : T → T) (NDEBUG : bool) (call : T → T).
Implicit Types (s : state T) (x : RefCounted.t).

Lemma sum_insert_fresh {A} (g : A → Z) (m : gmap addr A) a (y : A) :
  m !! a = None →
  map_fold (λ _ o acc, g o + acc) 0 (<[a := y]> m)
  = g y + map_fold (λ _ o acc, g o + acc) 0 m.
Proof.
  intros Ha. rewrite map_fold_insert_L; [done| |done]. intros. lia.
Qed.

Lemma sum_delete {A} (g : A → Z) (m : gmap addr A) a (y : A) :
  m !! a = Some y →
  map_fold (λ _ o acc, g o + acc) 0 (delete a m)
  = map_fold (λ _ o acc, g o + acc) 0 m - g y.
Proof.
  intros Ha. rewrite (map_fold_delete_L _ _ a y m); [lia| |done]. intros. lia.
Qed.

Lemma sum_alter_same {A} (g : A → Z) (f : A → A) (m : gmap addr A) a :
  (∀ y, g (f y) = g y) →
  map_fold (λ _ o acc, g o + acc) 0 (alter f a m)
  = map_fold (λ _ o acc, g o + acc) 0 m.
Proof.
  intros Hg. destruct (m !! a) as [y|] eqn:Ha.
  - rewrite (sum_alter g f m a y Ha), Hg. lia.
  - by rewrite alter_id'.
Qed.

Lemma total_count_write r v s : total_count (write r v s) = total_count s.
Proof.
  destruct r as [a|o]; [|done]. unfold total_count. simpl.
  by rewrite (sum_alter_same RefCountable.counter).
Qed.

Lemma total_count_new_owner this v s :
  owners s !! this = None →
  total_count (set_owners <[this := RefCountable.mk v 0]> s) = total_count s.
Proof.
  intros Hf. unfold total_count. simpl.
  by rewrite (sum_insert_fresh RefCountable.counter).
Qed.

Lemma total_count_new_base this r s :
  bases s !! this = None →
  total_count (set_bases <[this := RefCountableBase.mk r 0]> s) = total_count s.
Proof.
  intros Hf. unfold total_count. simpl.
  rewrite (sum_insert_fresh RefCountableBase.counter) by done. simpl. lia.
Qed.

Lemma total_count_bound this x n s :
  load (RefCounted.counter x) s = Some n →
  total_count (bound this x n s) = total_count s - n + wrap (n + 1).
Proof.
  intros Hn. unfold bound. rewrite (total_count_store _ n); [done|].
  by destruct (RefCounted.counter x).
Qed.

Lemma total_count_unbound this c n s :
  load c s = Some n →
  total_count (unbound this c n s) = total_count s - n + wrap (n - 1).
Proof.
  intros Hn. unfold unbound.
  change (total_count (set_handles ?f ?s')) with (total_count s').
  by rewrite (total_count_store _ n).
Qed.

End Accounting.

Section AccountingSteps.
Context {T : Type} (moved_from : T → T) (NDEBUG : bool) (call : T → T).
Implicit Types (s : state T) (x : RefCounted.t).

Lemma accounted_bound this x n s :
  tracked s → accounted_for s →
  handles s !! this = None →
  load (RefCounted.counter x) s = Some n →
  handles_fit (bound this x n s) →
  accounted_for (bound this x n s).
Proof.
  intros [Hcount _] Hacc Hf Hn Hfit. unfold accounted_for in *.
  rewrite (total_count_bound this x n s Hn).
  unfold handles_fit, bound in *. rewrite handles_store in *. simpl in *.
  rewrite map_size_insert_None in * by done.
  pose proof (Hcount _ _ Hn) as Hnb. unfold nbound in Hnb.
  pose proof (size_bound_to_le (RefCounted.counter x) (handles s)).
  rewrite wrap_id; lia.
Qed.

Lemma accounted_unbound this x n s :
  tracked s → accounted_for s →
  handles s !! this = Some x →
  load (RefCounted.counter x) s = Some n →
  handles_fit (unbound this (RefCounted.counter x) n s) →
  accounted_for (unbound this (RefCounted.counter x) n s).
Proof.
  intros [Hcount _] Hacc Hx Hn Hfit. unfold accounted_for in *.
  rewrite (total_count_unbound this _ n s Hn).
  unfold handles_fit, unbound in *. simpl in *. rewrite handles_store in *.
  pose proof (map_size_delete this (handles s)) as Hd. rewrite Hx in Hd.
  pose proof (Hcount _ _ Hn) as Hnb. unfold nbound in Hnb.
  pose proof (size_bound_to_le (RefCounted.counter x) (handles s)).
  pose proof (size_bound_to_pos (RefCounted.counter x) (handles s) this x Hx eq_refl).
  rewrite wrap_id; lia.
Qed.

Lemma hpp_exec_handle_accounted (o : handle_op) s s' :
  counts_observers o = true →
  tracked s → accounted_for s →
  hpp_exec_handle o s = Returns s' → handles_fit s' → accounted_for s'.
Proof.
  intros Hcounts Ht Hacc Hret Hfit.
  destruct (hpp_exec_handle_Returns o s s' Hcounts Hret)
    as [->|[(this & x & n & Hf & Hn & ->)|[(this & x & n & Hx & Hn & ->)|
        (this & rhs & x1 & x2 & n1 & n2 & Hne & H1 & H2 & Hn1 & Hn2 & ->)]]].
  - done.
  - by apply accounted_bound.
  - by apply accounted_unbound.
  - rewrite rebound_bound_unbound in *.
    assert (handles (unbound this (RefCounted.counter x1) n1 s) !! this = None) as Hf.
    { unfold unbound. simpl. apply lookup_delete_eq. }
    assert (handles_fit (unbound this (RefCounted.counter x1) n1 s)) as Hfit1.
    { unfold handles_fit, bound in *. rewrite handles_store in Hfit.
      change (handles (set_handles ?f ?s0)) with (f (handles s0)) in Hfit.
      rewrite map_size_insert_None in Hfit; [lia|done]. }
    apply accounted_bound; try done.
    + by apply tracked_unbound.
    + by apply accounted_unbound.
Qed.

Lemma T_copy_assign_total dst src s s' :
  T_copy_assign dst src s = Returns s' → total_count s' = total_count s.
Proof.
  unfold T_copy_assign. destruct (read src s); [|done]. destruct (read dst s); [|done].
  simpl. intros [= <-]. apply total_count_write.
Qed.

Lemma T_move_assign_total dst src s s' :
  T_move_assign moved_from dst src s = Returns s' → total_count s' = total_count s.
Proof.
  unfold T_move_assign. destruct (read src s); [|done]. destruct (read dst s); [|done].
  simpl. intros [= <-]. by rewrite !total_count_write.
Qed.

Lemma hpp_exec_container_total (o : container_op T) s s' :
  hpp_exec_container moved_from NDEBUG o s = Returns s' → total_count s' = total_count s.
Proof.
  destruct o; simpl;
    try apply T_copy_assign_total; try apply T_move_assign_total.
  - unfold Hpp.RefCountable_ctor. destruct (fresh _ _) eqn:Hf; [|done..].
    apply fresh_Returns in Hf. intros [= <-]. by apply total_count_new_owner.
  - unfold Hpp.RefCountable_ctor_args. destruct (fresh _ _) eqn:Hf; [|done..].
    apply fresh_Returns in Hf. intros [= <-]. by apply total_count_new_owner.
  - unfold Hpp.RefCountable_copy_ctor. destruct (fresh _ _) eqn:Hf; [|done..].
    apply fresh_Returns in Hf. simpl. destruct (owners s !! rhs); [|done].
    intros [= <-]. by apply total_count_new_owner.
  - unfold Hpp.RefCountable_dtor. simpl.
    destruct (owners s !! this) as [[v n]|] eqn:Ho; [|done]. simpl.
    case_decide as Hz; [by destruct NDEBUG|]. intros [= <-].
    unfold total_count. simpl.
    rewrite (sum_delete RefCountable.counter _ this (RefCountable.mk v n)) by done.
    simpl. lia.
  - unfold Hpp.RefCountableBase_ctor. destruct (fresh _ _) eqn:Hf; [|done..].
    apply fresh_Returns in Hf. intros [= <-]. by apply total_count_new_base.
  - unfold Hpp.RefCountableBase_copy_ctor. destruct (fresh _ _) eqn:Hf; [|done..].
    apply fresh_Returns in Hf. simpl. destruct (bases s !! rhs); [|done].
    intros [= <-]. by apply total_count_new_base.
  - unfold Hpp.RefCountableBase_move_ctor. destruct (fresh _ _) eqn:Hf; [|done..].
    apply fresh_Returns in Hf. simpl. destruct (bases s !! rhs); [|done].
    intros [= <-]. by apply total_count_new_base.
  - unfold Hpp.RefCountableBase_dtor. simpl.
    destruct (bases s !! this) as [[v n]|] eqn:Ho; [|done]. simpl.
    case_decide as Hz; [by destruct NDEBUG|]. intros [= <-].
    unfold total_count. simpl.
    rewrite (sum_delete RefCountableBase.counter _ this (RefCountableBase.mk v n)) by done.
    simpl. lia.
Qed.

Lemma part000_exec_container_total (o : container_op T) s s' :
  part000_exec_container moved_from NDEBUG call o s = Returns s' →
  total_count s' = total_count s.
Proof.
  intros Hret.
  assert ((∃ this rhs, o = assign_copy this rhs)
          ∨ part000_exec_container moved_from NDEBUG call o s
            = hpp_exec_container moved_from NDEBUG o s) as [(this & rhs & ->)|Heq].
  { destruct o; eauto. }
  - simpl in Hret. unfold Part000.RefCountable_assign_copy in Hret.
    destruct (read (value_of rhs) s); [|done].
    destruct (read (value_of this) s); [|done]. injection Hret as <-.
    apply (total_count_write (value_of this)).
  - rewrite Heq in Hret. by apply (hpp_exec_container_total o).
Qed.

Lemma hpp_exec_accounted (o : op T) s s' :
  op_counts_observers o = true →
  tracked s → accounted_for s →
  hpp_exec moved_from NDEBUG o s = Returns s' → handles_fit s' → accounted_for s'.
Proof.
  destruct o as [o|o]; simpl.
  - intros _ _ Hacc Hret _. unfold accounted_for in *.
    by rewrite (hpp_exec_container_total o s s' Hret),
      (hpp_exec_container_handles moved_from NDEBUG o s s' Hret).
  - apply hpp_exec_handle_accounted.
Qed.

Lemma part000_exec_accounted (o : op T) s s' :
  op_counts_observers o = true →
  tracked s → accounted_for s →
  part000_exec moved_from NDEBUG call o s = Returns s' → handles_fit s' →
  accounted_for s'.
Proof.
  destruct o as [o|o]; simpl.
  - intros _ _ Hacc Hret _. unfold accounted_for in *.
    by rewrite (part000_exec_container_total o s s' Hret),
      (part000_exec_container_handles moved_from NDEBUG call o s s' Hret).
  - rewrite part000_exec_handle_eq. apply hpp_exec_handle_accounted.
Qed.

Lemma run_accounted (exec : op T → state T → result (state T)) :
  (∀ o s s', op_counts_observers o = true →
             tracked s → exec o s = Returns s' → handles_fit s' → tracked s') →
  (∀ o s s', op_counts_observers o = true →
             tracked s → accounted_for s → exec o s = Returns s' → handles_fit s' →
             accounted_for s') →
  (∀ o s s', exec o s = Returns s' → (size (handles s') ≤ S (size (handles s)))%nat) →
  ∀ os s s',
    counting_program os →
    tracked s → accounted_for s →
    Z.of_nat (size (handles s)) + Z.of_nat (length os) ≤ SIZE_MAX →
    run exec os s = Returns s' →
    accounted_for s'.
Proof.
  intros Hstep Hacc Hsize os. unfold counting_program.
  induction os as [|o os IH]; intros s s' Hcounts Ht Ha Hfit; simpl.
  - by intros [= <-].
  - simpl in Hcounts. apply andb_prop in Hcounts as [Ho' Hos].
    destruct (exec o s) as [s1| |] eqn:Ho; [|done..]. simpl.
    pose proof (Hsize o s s1 Ho) as Hs1. simpl in Hfit.
    assert (handles_fit s1) as Hfit1 by (unfold handles_fit; lia).
    apply IH.
    + done.
    + by apply (Hstep o s s1).
    + by apply (Hacc o s s1).
    + lia.
Qed.

End AccountingSteps.

(** X15: in every store that a sequence of operations on containers and
    handles reaches from the empty store -- fewer than 2^64 operations, with
    either file, none of them a copy from a const handle or an assignment
    [h1 = h2], the two operations that run a member the class does not
    write -- the observer counts of all containers add up to the number of
    live handles: no such operation loses or invents a count. *)
Theorem counts_add_up_to_handles {T : Type} (moved_from : T → T) (NDEBUG : bool)
    (call : T → T) (os : list (op T)) (s : state T) :
  counting_program os →
  run (hpp_exec moved_from NDEBUG) os empty_state = Returns s
  ∨ run (part000_exec moved_from NDEBUG call) os empty_state = Returns s →
  Z.of_nat (length os) ≤ SIZE_MAX →
  total_count s = Z.of_nat (size (handles s)).
Proof.
  intros Hcounts Hret Hlen.
  assert (accounted_for (empty_state : state T)) as Hempty.
  { unfold accounted_for, total_count. simpl. by rewrite !map_fold_empty, map_size_empty. }
  destruct Hret as [Hret|Hret].
  - apply (run_accounted (hpp_exec moved_from NDEBUG)) with (os := os) (s := empty_state);
      [apply hpp_exec_tracked|apply hpp_exec_accounted|apply hpp_exec_size
      |done|apply tracked_empty|done| |done].
    simpl. rewrite map_size_empty. lia.
  - apply (run_accounted (part000_exec moved_from NDEBUG call))
      with (os := os) (s := empty_state);
      [apply part000_exec_tracked|apply part000_exec_accounted|apply part000_exec_size
      |done|apply tracked_empty|done| |done].
    simpl. rewrite map_size_empty. lia.
Qed.

(** X16: move construction of a handle followed by the destruction of the
    handle moved from hands the binding over: the new handle is bound as the
    old one was, the old one is gone, and every observer count is what it
    was before the two steps -- the increment of the move and the decrement
    of the destructor cancel.  Both files agree. *)
Theorem move_then_destroy_transfers_binding {T : Type} (s : state T) (new old : addr)
    (x : RefCounted.t) (n : Z) :
  handles s !! new = None →
  handles s !! old = Some x →
  count s (RefCounted.counter x) = Some n →
  0 ≤ n ≤ SIZE_MAX →
  ∃ s1 s2,
    Hpp.RefCounted_ctor_move_RefCounted new old s = Returns s1
    ∧ Hpp.RefCounted_dtor old s1 = Returns s2
    ∧ Part000.RefCounted_ctor_move_RefCounted new old s = Returns s1
    ∧ Part000.RefCounted_dtor old s1 = Returns s2
    ∧ handles s2 !! new = Some x
    ∧ handles s2 !! old = None
    ∧ (∀ h, h ≠ new → h ≠ old → handles s2 !! h = handles s !! h)
    ∧ (∀ c, count s2 c = count s c)
    ∧ same_values s2 s.
Proof.
  intros Hnew Hold Hn Hr. unfold count in Hn.
  assert (new ≠ old) as Hne by (intros ->; congruence).
  pose proof (RefCounted_ctor_RefCounted_spec new old x n s Hnew Hold Hn) as Hmove.
  assert (handles (bound new x n s) !! old = Some x) as Hold1.
  { rewrite handles_bound_lookup. by rewrite decide_False. }
  pose proof (RefCounted_dtor_spec old x (wrap (n + 1)) (bound new x n s) Hold1
                (load_bound new x n s Hn)) as Hdtor.
  exists (bound new x n s), (unbound old (RefCounted.counter x) (wrap (n + 1)) (bound new x n s)).
  split_and!; try done.
  - unfold unbound. simpl. rewrite lookup_delete_ne by done.
    rewrite handles_store. rewrite handles_bound_lookup. by rewrite decide_True.
  - unfold unbound. simpl. apply lookup_delete_eq.
  - intros h Hh1 Hh2. unfold unbound. simpl. rewrite lookup_delete_ne by done.
    rewrite handles_store, handles_bound_lookup. by rewrite decide_False.
  - intros c. unfold count. rewrite load_unbound.
    destruct (decide (c = RefCounted.counter x)) as [->|Hc].
    + rewrite load_store_eq, (load_bound new x n s Hn). simpl.
      by rewrite wrap_add_sub, Hn.
    + rewrite load_store_ne by done. unfold bound.
      rewrite load_store_ne by done. by destruct c.
  - eapply same_values_trans; [apply same_values_unbound|apply same_values_bound].
Qed.

(** X17: a copy of a reference-holding container refers to the same [T] as
    its source but counts its own observers: a handle bound to the copy
    gives through [get()] the reference the source holds, the observer
    count of the copy is one, and that of the source is what it was.  The
    move constructor does the same, and both files agree. *)
Theorem base_copy_shares_value_not_count {T : Type} (s : state T) (copy src h : addr)
    (r : tref) (n : Z) :
  bases s !! copy = None →
  bases s !! src = Some (RefCountableBase.mk r n) →
  handles s !! h = None →
  ∃ s1 s2,
    Hpp.RefCountableBase_copy_ctor copy src s = Returns s1
    ∧ Hpp.RefCountableBase_move_ctor copy src s = Returns s1
    ∧ Part000.RefCountableBase_copy_ctor copy src s = Returns s1
    ∧ Part000.RefCountableBase_move_ctor copy src s = Returns s1
    ∧ Hpp.RefCounted_ctor_RefCountableBase h copy s1 = Returns s2
    ∧ Part000.RefCounted_ctor_RefCountableBase h copy s1 = Returns s2
    ∧ Hpp.RefCounted_get h s2 = Returns r
    ∧ RefCountableBase.value <$> bases s2 !! src = Some r
    ∧ count s2 (base_counter_of copy) = Some 1
    ∧ count s2 (base_counter_of src) = Some n.
Proof.
  intros Hf Hsrc Hh.
  assert (copy ≠ src) as Hne by (intros ->; congruence).
  set (s1 := set_bases <[copy := RefCountableBase.mk r 0]> s).
  assert (Hpp.RefCountableBase_copy_ctor copy src s = Returns s1) as Hcopy.
  { unfold Hpp.RefCountableBase_copy_ctor. by rewrite fresh_None, Hsrc. }
  assert (bases s1 !! copy = Some (RefCountableBase.mk r 0)) as Hb1.
  { unfold s1. simpl. apply lookup_insert_eq. }
  assert (load (base_counter_of copy) s1 = Some 0) as Hn1.
  { change (RefCountableBase.counter <$> bases s1 !! copy = Some 0). by rewrite Hb1. }
  pose proof (RefCounted_ctor_RefCountableBase_spec h copy _ 0 s1 Hh Hb1 Hn1) as Hbind.
  simpl in Hbind.
  set (x := RefCounted.mk r (base_counter_of copy)) in *.
  exists s1, (bound h x 0 s1). split_and!; try done.
  - unfold Hpp.RefCounted_get. rewrite handles_bound_lookup. by rewrite decide_True.
  - rewrite (proj1 (proj2 (proj2 (same_values_bound h x 0 s1)))).
    unfold s1. simpl. by rewrite lookup_insert_ne, Hsrc.
  - unfold count. etrans; [exact (load_bound h x 0 s1 Hn1)|done].
  - unfold count, bound. rewrite load_store_ne by (simpl; congruence).
    simpl. by rewrite lookup_insert_ne, Hsrc.
Qed.

(** X18: a copy of an owning container holds a value of its own: after the
    copy construction (either file), assigning to the copy (RefCountable.hpp,
    by copy or by move from a [T] that is not the source's value) leaves
    the value and the observer count of the source as they were, and the
    copy holds the value assigned. *)
Theorem owner_copy_is_independent {T : Type} (moved_from : T → T) (s : state T)
    (copy src : addr) (v w : T) (n : Z) (r : tref) :
  owners s !! copy = None →
  owners s !! src = Some (RefCountable.mk v n) →
  read r s = Some w →
  r ≠ value_of src →
  ∃ s1,
    Hpp.RefCountable_copy_ctor copy src s = Returns s1
    ∧ Part000.RefCountable_copy_ctor copy src s = Returns s1
    ∧ read (value_of copy) s1 = Some v
    ∧ (∀ s2, Hpp.RefCountable_assign_value copy r s1 = Returns s2
             ∨ Hpp.RefCountable_assign_rvalue moved_from copy r s1 = Returns s2 →
         read (value_of copy) s2 = Some w
         ∧ owners s2 !! src = Some (RefCountable.mk v n))
    ∧ ∃ s2, Hpp.RefCountable_assign_value copy r s1 = Returns s2.
Proof.
  intros Hf Hsrc Hr Hrs.
  assert (copy ≠ src) as Hne by (intros ->; congruence).
  assert (r ≠ value_of copy) as Hrc.
  { intros ->. simpl in Hr. by rewrite Hf in Hr. }
  set (s1 := set_owners <[copy := RefCountable.mk v 0]> s).
  assert (Hpp.RefCountable_copy_ctor copy src s = Returns s1) as Hcopy.
  { unfold Hpp.RefCountable_copy_ctor. rewrite fresh_None by done. simpl.
    by rewrite Hsrc. }
  assert (read (value_of copy) s1 = Some v) as Hv1.
  { unfold s1. simpl. by rewrite lookup_insert_eq. }
  assert (read r s1 = Some w) as Hr1.
  { rewrite <- Hr. destruct r as [a|o]; [|done]. unfold s1. simpl.
    rewrite lookup_insert_ne; [done|congruence]. }
  assert (owners s1 !! src = Some (RefCountable.mk v n)) as Hsrc1.
  { unfold s1. simpl. by rewrite lookup_insert_ne. }
  exists s1. split_and!; try done.
  - intros s2 [Hret|Hret].
    + unfold Hpp.RefCountable_assign_value, T_copy_assign in Hret.
      rewrite Hr1, Hv1 in Hret. injection Hret as <-. split.
      * apply (read_write_eq (value_of copy)). by eexists.
      * simpl. by rewrite lookup_alter_ne.
    + unfold Hpp.RefCountable_assign_rvalue, T_move_assign in Hret.
      rewrite Hr1, Hv1 in Hret. injection Hret as <-. split.
      * apply (read_write_eq (value_of copy)).
        rewrite read_write_ne by done. by eexists.
      * simpl. rewrite lookup_alter_ne by done.
        destruct r as [a|o]; simpl; [|done]. rewrite lookup_alter_ne; [done|congruence].
  - eexists. unfold Hpp.RefCountable_assign_value, T_copy_assign.
    by rewrite Hr1, Hv1.
Qed.

(** X19: assigning an owning container to itself by copy returns the store
    unchanged in RefCountable.hpp; in part_000 it returns too, but leaves
    in the container what invoking its value returns.  Neither changes a
    count or a handle. *)
Theorem container_self_copy_assignment {T : Type} (call : T → T) (s : state T)
    (this : addr) (v : T) (n : Z) :
  owners s !! this = Some (RefCountable.mk v n) →
  Hpp.RefCountable_assign_copy this this s = Returns s
  ∧ ∃ s', Part000.RefCountable_assign_copy call this this s = Returns s'
      ∧ owners s' !! this = Some (RefCountable.mk (call v) n)
      ∧ (∀ c, count s' c = count s c)
      ∧ handles s' = handles s.
Proof.
  intros Ho. split.
  - unfold Hpp.RefCountable_assign_copy, T_copy_assign. simpl. rewrite Ho. simpl.
    f_equal. destruct s as [os bs ts hs]. unfold set_owners. simpl in *. f_equal.
    apply alter_id. intros o Ho'. rewrite Ho in Ho'. by injection Ho' as <-.
  - eexists. unfold Part000.RefCountable_assign_copy. simpl. rewrite Ho. simpl.
    split_and!; [done| | |done].
    + simpl. by rewrite lookup_alter_eq, Ho.
    + intros c. unfold count. apply (load_write (value_of this)).
Qed.

(** ** The further properties at work on concrete stores *)

Lemma tracked_observed_once : tracked observed_once.
Proof.
  apply (hpp_exec_handle_tracked (bind_RefCountable 10%nat 1%nat) one_container);
    [reflexivity|apply tracked_one_container|reflexivity|].
  unfold handles_fit. vm_compute. discriminate.
Qed.

Lemma new_RefCountable_is_unobserved_witness :
  owners one_container !! 2%nat = None
  ∧ ∃ s1, Hpp.RefCountable_ctor 2%nat 20 one_container = Returns s1
      ∧ count s1 (counter_of 2%nat) = Some 0
      ∧ Hpp.RefCountable_dtor true 2%nat s1 = Returns one_container.
Proof.
  split; [reflexivity|].
  destruct (new_RefCountable_is_unobserved true one_container 2%nat 20 eq_refl)
    as (s1 & Hc & _ & _ & _ & Hn & _ & _ & Hd & _).
  exists s1. split; [exact Hc|]. split; [exact Hn|exact Hd].
Defined.

Lemma new_RefCountableBase_is_unobserved_witness :
  bases one_container !! 3%nat = None
  ∧ ∃ s1, Hpp.RefCountableBase_ctor 3%nat (value_of 1%nat) one_container = Returns s1
      ∧ count s1 (base_counter_of 3%nat) = Some 0
      ∧ Hpp.RefCountableBase_dtor true 3%nat s1 = Returns one_container.
Proof.
  split; [reflexivity|].
  destruct (new_RefCountableBase_is_unobserved true one_container 3%nat (value_of 1%nat)
              eq_refl) as (s1 & Hc & _ & _ & Hn & _ & _ & _ & Hd & _).
  exists s1. split; [exact Hc|]. split; [exact Hn|exact Hd].
Defined.

Lemma hpp_assignment_keeps_observers_witness :
  ∃ s', Hpp.RefCountable_assign_copy 1%nat 2%nat two_observed = Returns s'
    ∧ read (value_of 1%nat) s' = Some 20
    ∧ count s' (counter_of 1%nat) = Some 1
    ∧ handles s' = handles two_observed.
Proof.
  destruct (hpp_assignment_keeps_observers id two_observed 1%nat (value_of 2%nat) 20)
    as [H _].
  - by eexists.
  - reflexivity.
  - destruct (H 2%nat eq_refl) as [(s' & Hret & Hv & Hc & Hh) _].
    exists s'. split; [exact Hret|]. split; [exact Hv|]. split; [|exact Hh].
    rewrite Hc. reflexivity.
Defined.

Lemma part000_assignment_keeps_observers_witness :
  ∃ s', Part000.RefCountable_assign_copy Next_call 1%nat 2%nat two_observed = Returns s'
    ∧ read (value_of 1%nat) s' = Some 21
    ∧ count s' (counter_of 1%nat) = Some 1
    ∧ handles s' = handles two_observed.
Proof.
  destruct (part000_assignment_keeps_observers id Next_call two_observed 1%nat
              (value_of 2%nat) 20) as [H _].
  - by eexists.
  - reflexivity.
  - destruct (H 2%nat eq_refl) as [(s' & Hret & Hv & Hc & Hh) _].
    exists s'. split; [exact Hret|]. split; [exact Hv|]. split; [|exact Hh].
    rewrite Hc. reflexivity.
Defined.

Lemma handle_observes_assignment_witness :
  observes_after (Hpp.RefCountable_assign_copy 1%nat 2%nat) two_observed 10%nat 1%nat 20.
Proof.
  destruct (handle_observes_assignment id two_observed 10%nat 1%nat (handle_on 1)
              (value_of 2%nat) 20) as [H _].
  - reflexivity.
  - reflexivity.
  - by eexists.
  - reflexivity.
  - exact (proj1 (H 2%nat eq_refl)).
Defined.

Lemma handle_ops_leave_values_witness :
  hpp_exec_handle (destroy_RefCounted 10%nat) observed_once = Returns one_container
  ∧ same_values one_container observed_once.
Proof.
  split; [reflexivity|].
  exact (handle_ops_leave_values (destroy_RefCounted 10%nat) observed_once one_container
           (or_introl eq_refl)).
Defined.

Lemma container_ops_leave_observers_witness :
  hpp_exec_container id true (assign_value 1%nat (value_of 2%nat)) two_observed
  = Returns (write (value_of 1%nat) 20 two_observed)
  ∧ handles (write (value_of 1%nat) 20 two_observed) = handles two_observed
  ∧ counts_kept two_observed (write (value_of 1%nat) 20 two_observed).
Proof.
  split; [reflexivity|].
  destruct (container_ops_leave_observers id true id two_observed
              (write (value_of 1%nat) 20 two_observed)) as [H _].
  exact (H (assign_value 1%nat (value_of 2%nat)) (or_introl eq_refl)).
Defined.

Lemma dtor_aborts_iff_handle_bound_witness :
  observed observed_once (counter_of 1%nat)
  ∧ ∃ how, Hpp.RefCountable_dtor true 1%nat observed_once = Aborts how.
Proof.
  assert (observed observed_once (counter_of 1%nat)) as Hobs.
  { exists 10%nat, (handle_on 1). split; reflexivity. }
  split; [exact Hobs|].
  destruct (dtor_aborts_iff_handle_bound true observed_once 1%nat tracked_observed_once)
    as [H _].
  destruct H as [Hiff _]; [by eexists|]. apply Hiff. exact Hobs.
Defined.

Lemma no_handle_outlives_its_container_witness :
  run (hpp_exec id true) two_handles_program empty_state = Returns observed_twice
  ∧ ∃ n, count observed_twice (counter_of 1%nat) = Some n ∧ 0 < n.
Proof.
  split; [reflexivity|].
  destruct (no_handle_outlives_its_container id true id two_handles_program observed_twice
              eq_refl (or_introl eq_refl)) as [H _].
  - vm_compute. discriminate.
  - exact (H 11%nat (handle_on 1) eq_refl).
Defined.

Lemma binding_handles_adds_up_witness :
  ∃ s', run (hpp_exec id true) (bind_all [10%nat; 11%nat] 1%nat) one_container = Returns s'
    ∧ count s' (counter_of 1%nat) = Some 2.
Proof.
  destruct (binding_handles_adds_up id true id [10%nat; 11%nat] 1%nat one_container 0)
    as (s' & Hrun & _ & _ & Hexact & _).
  - apply NoDup_cons_2; [|apply NoDup_singleton].
    intros Hin. apply list_elem_of_singleton in Hin. discriminate.
  - intros h Hh. apply elem_of_cons in Hh as [->|Hh]; [reflexivity|].
    apply list_elem_of_singleton in Hh as ->. reflexivity.
  - reflexivity.
  - vm_compute. split; discriminate.
  - exists s'. split; [exact Hrun|]. apply Hexact. vm_compute. discriminate.
Defined.

Lemma nested_handles_restore_store_witness :
  run (hpp_exec id true) (nested_handles [10%nat; 11%nat] 1%nat) one_container
  = Returns one_container.
Proof.
  refine (proj1 (nested_handles_restore_store id true id [10%nat; 11%nat] 1%nat
                   one_container 0 _ _ eq_refl _)).
  - apply NoDup_cons_2; [|apply NoDup_singleton].
    intros Hin. apply list_elem_of_singleton in Hin. discriminate.
  - intros h Hh. apply elem_of_cons in Hh as [->|Hh]; [reflexivity|].
    apply list_elem_of_singleton in Hh as ->. reflexivity.
  - vm_compute. split; discriminate.
Defined.

Lemma sources_agree_but_for_copy_assignment_witness :
  run (part000_exec id true Next_call) two_handles_program empty_state
  = run (hpp_exec id true) two_handles_program empty_state.
Proof.
  exact (proj1 (sources_agree_but_for_copy_assignment id true Next_call
                  two_handles_program empty_state) eq_refl).
Defined.

Lemma rebinding_back_restores_store_witness :
  ∃ s1, Hpp.RefCounted_assign 10%nat 11%nat three_handles = Returns s1
    ∧ Hpp.RefCounted_assign 10%nat 12%nat s1 = Returns three_handles.
Proof.
  destruct (rebinding_back_restores_store three_handles 10%nat 11%nat 12%nat
              (handle_on 1) (handle_on 2) 2 1) as [(s1 & H1 & H2 & _) _];
    try reflexivity; try discriminate.
  - vm_compute. split; discriminate.
  - vm_compute. split; discriminate.
  - exists s1. split; [exact H1|exact H2].
Defined.

Lemma counter_arithmetic_is_unchecked_witness :
  (∃ s', Hpp.RefCounted_dtor 10%nat uncounted_handle = Returns s'
     ∧ count s' (counter_of 1%nat) = Some SIZE_MAX)
  ∧ (∃ s', Hpp.RefCounted_ctor_RefCountable 10%nat 1%nat saturated_container = Returns s'
       ∧ count s' (counter_of 1%nat) = Some 0).
Proof.
  split.
  - destruct (counter_arithmetic_is_unchecked true uncounted_handle 10%nat 1%nat)
      as [H _].
    destruct (H (handle_on 1) eq_refl eq_refl eq_refl) as (s' & Hd & _ & Hn & _).
    exists s'. split; [exact Hd|exact Hn].
  - destruct (counter_arithmetic_is_unchecked true saturated_container 10%nat 1%nat)
      as [_ H].
    destruct (H eq_refl eq_refl) as (s' & Hc & _ & Hn & _).
    exists s'. split; [exact Hc|exact Hn].
Defined.

Lemma counts_add_up_to_handles_witness :
  run (hpp_exec id true) two_handles_program empty_state = Returns observed_twice
  ∧ total_count observed_twice = 2.
Proof.
  split; [reflexivity|].
  rewrite (counts_add_up_to_handles id true id two_handles_program observed_twice
             eq_refl (or_introl eq_refl)).
  - reflexivity.
  - vm_compute. discriminate.
Defined.

Lemma move_then_destroy_transfers_binding_witness :
  ∃ s1 s2,
    Hpp.RefCounted_ctor_move_RefCounted 11%nat 10%nat observed_once = Returns s1
    ∧ Hpp.RefCounted_dtor 10%nat s1 = Returns s2
    ∧ handles s2 !! 11%nat = Some (handle_on 1)
    ∧ count s2 (counter_of 1%nat) = Some 1.
Proof.
  destruct (move_then_destroy_transfers_binding observed_once 11%nat 10%nat
              (handle_on 1) 1 eq_refl eq_refl eq_refl)
    as (s1 & s2 & Hm & Hd & _ & _ & Hh & _ & _ & Hc & _).
  - vm_compute. split; discriminate.
  - exists s1, s2. split; [exact Hm|]. split; [exact Hd|]. split; [exact Hh|].
    rewrite Hc. reflexivity.
Defined.

Lemma base_copy_shares_value_not_count_witness :
  ∃ s1 s2,
    Hpp.RefCountableBase_copy_ctor 4%nat 3%nat one_base = Returns s1
    ∧ Hpp.RefCounted_ctor_RefCountableBase 10%nat 4%nat s1 = Returns s2
    ∧ Hpp.RefCounted_get 10%nat s2 = Returns (object_at 5)
    ∧ count s2 (base_counter_of 4%nat) = Some 1
    ∧ count s2 (base_counter_of 3%nat) = Some 0.
Proof.
  destruct (base_copy_shares_value_not_count one_base 4%nat 3%nat 10%nat (object_at 5) 0
              eq_refl eq_refl eq_refl)
    as (s1 & s2 & Hc & _ & _ & _ & Hb & _ & Hg & _ & Hn1 & Hn0).
  exists s1, s2. split; [exact Hc|]. split; [exact Hb|]. split; [exact Hg|].
  split; [exact Hn1|exact Hn0].
Defined.

Lemma owner_copy_is_independent_witness :
  ∃ s1 s2,
    Hpp.RefCountable_copy_ctor 3%nat 1%nat two_observed = Returns s1
    ∧ Hpp.RefCountable_assign_value 3%nat (value_of 2%nat) s1 = Returns s2
    ∧ read (value_of 3%nat) s2 = Some 20
    ∧ owners s2 !! 1%nat = Some (RefCountable.mk 10 1).
Proof.
  destruct (owner_copy_is_independent id two_observed 3%nat 1%nat 10 20 1 (value_of 2%nat)
              eq_refl eq_refl eq_refl)
    as (s1 & Hc & _ & _ & Hall & s2 & Ha).
  - discriminate.
  - destruct (Hall s2 (or_introl Ha)) as [Hv Hs].
    exists s1, s2. split; [exact Hc|]. split; [exact Ha|]. split; [exact Hv|exact Hs].
Defined.

Lemma container_self_copy_assignment_witness :
  Hpp.RefCountable_assign_copy 1%nat 1%nat one_container = Returns one_container
  ∧ ∃ s', Part000.RefCountable_assign_copy Next_call 1%nat 1%nat one_container = Returns s'
      ∧ owners s' !! 1%nat = Some (RefCountable.mk 43 0).
Proof.
  destruct (container_self_copy_assignment Next_call one_container 1%nat 42 0 eq_refl)
    as [Hh (s' & Hp & Ho & _)].
  split; [exact Hh|]. exists s'. split; [exact Hp|exact Ho].
Defined.

(** ** The copy operations that the class does not write *)

Lemma tracked_two_observed : tracked two_observed.
Proof.
  apply (run_tracked (hpp_exec id true) (hpp_exec_tracked id true) (hpp_exec_size id true)
           [on_container (new_RefCountable 1%nat 10);
            on_container (new_RefCountable 2%nat 20);
            on_handle (bind_RefCountable 10%nat 1%nat);
            on_handle (bind_RefCountable 11%nat 2%nat)] empty_state).
  - reflexivity.
  - apply tracked_empty.
  - vm_compute. discriminate.
  - reflexivity.
Qed.

(** C2, at the inputs where the code departs from it.  In a store where
    every count is the number of bound handles, copying a handle from a
    const handle, [RefCounted<T> h2(std::as_const(h1))], runs the copy
    constructor that the language declares and leaves a count of 1 on a
    container that two live handles are bound to; and assigning a handle,
    [h1 = h2], runs the copy assignment that the language declares and
    leaves counts of 1 and 1 on two containers that none and two live
    handles are bound to.  After either operation the count is not the
    number of bound handles.  Both files behave alike. *)
Theorem copied_and_assigned_handles_go_uncounted :
  (tracked observed_once
   ∧ ∃ s', Hpp.RefCounted_copy_ctor 11%nat 10%nat observed_once = Returns s'
       ∧ Part000.RefCounted_copy_ctor 11%nat 10%nat observed_once = Returns s'
       ∧ count s' (counter_of 1%nat) = Some 1
       ∧ nbound s' (counter_of 1%nat) = 2%nat
       ∧ ¬ count_is_handles s')
  ∧ (tracked two_observed
     ∧ ∃ s', Hpp.RefCounted_copy_assign 10%nat 11%nat two_observed = Returns s'
         ∧ Part000.RefCounted_copy_assign 10%nat 11%nat two_observed = Returns s'
         ∧ count s' (counter_of 1%nat) = Some 1
         ∧ nbound s' (counter_of 1%nat) = 0%nat
         ∧ count s' (counter_of 2%nat) = Some 1
         ∧ nbound s' (counter_of 2%nat) = 2%nat
         ∧ ¬ count_is_handles s').
Proof.
  split.
  - split; [apply tracked_observed_once|]. eexists. split_and!; [reflexivity..|].
    intros Hcount. by specialize (Hcount (counter_of 1%nat) 1 eq_refl).
  - split; [apply tracked_two_observed|]. eexists. split_and!; [reflexivity..|].
    intros Hcount. by specialize (Hcount (counter_of 1%nat) 1 eq_refl).
Qed.

(** C3, at the input where the code departs from it.  A handle constructed
    by copy from a const handle, [RefCounted<T> h2(std::as_const(h1))], is
    bound to the container of [h1], but the observer count of the container
    stays at 1: the copy constructor that runs is the one the language
    declares, which has no body.  The same copy from a handle that is not
    const, [RefCounted<T> h2(h1)], runs the constructor the class writes and
    takes the count to 2.  Both files behave alike. *)
Theorem copy_from_const_handle_does_not_increment :
  count observed_once (counter_of 1%nat) = Some 1
  ∧ (∃ s', Hpp.RefCounted_copy_ctor 11%nat 10%nat observed_once = Returns s'
       ∧ Part000.RefCounted_copy_ctor 11%nat 10%nat observed_once = Returns s'
       ∧ handles s' !! 11%nat = Some (handle_on 1)
       ∧ handles s' !! 10%nat = Some (handle_on 1)
       ∧ count s' (counter_of 1%nat) = Some 1)
  ∧ (∃ s', Hpp.RefCounted_ctor_RefCounted 11%nat 10%nat observed_once = Returns s'
       ∧ Part000.RefCounted_ctor_RefCounted 11%nat 10%nat observed_once = Returns s'
       ∧ handles s' !! 11%nat = Some (handle_on 1)
       ∧ count s' (counter_of 1%nat) = Some 2).
Proof.
  split; [reflexivity|]. split; eexists; by split_and!.
Qed.

(** C6, at the input where the code departs from it.  With the handle at 10
    bound to a container A and the handle at 11 bound to a container B,
    each observed once, the assignment [h1 = h2] rebinds the handle at 10 to
    B and returns, but the count of A stays at 1 and the count of B stays at
    1: the copy assignment that runs is the one the language declares, which
    copies the two references and touches no counter.  Both files behave
    alike. *)
Theorem handle_assignment_moves_no_count :
  handles two_observed !! 10%nat = Some (handle_on 1)
  ∧ handles two_observed !! 11%nat = Some (handle_on 2)
  ∧ count two_observed (counter_of 1%nat) = Some 1
  ∧ count two_observed (counter_of 2%nat) = Some 1
  ∧ ∃ s', Hpp.RefCounted_copy_assign 10%nat 11%nat two_observed = Returns s'
      ∧ Part000.RefCounted_copy_assign 10%nat 11%nat two_observed = Returns s'
      ∧ handles s' !! 10%nat = Some (handle_on 2)
      ∧ handles s' !! 11%nat = Some (handle_on 2)
      ∧ count s' (counter_of 1%nat) = Some 1
      ∧ count s' (counter_of 2%nat) = Some 1.
Proof.
  split_and!; [reflexivity..|]. eexists. by split_and!.
Qed.
